(** * amana-marketing: the dashboard's aggregation procedures

    A shallow embedding of the four aggregation procedures of the
    dashboard (weekly timeline, demographic breakdown, device comparison,
    regional map), of the geo lookup they use and of the three widgets
    that draw their results (line chart, bubble map, bar chart).

    Conventions of the embedding.
    - A JavaScript [number] is a rational [Q]: arithmetic is exact and every
      number is finite (no NaN, no infinities, no rounding); where the
      runtime converts a string to a number the result is an [option], and
      [None] is NaN.  Equality of numbers is [==].  Statements of order,
      of guards and of sums "in exact arithmetic" are read on this model.
      Where a statement is sensitive to rounding it is read on IEEE
      binary64 ([PrimFloat]), which is what the runtime computes with: the
      redistribution of a campaign's spend is written over an abstract
      arithmetic and instantiated at both, and the rounding of the device
      figures to two decimals is read on [DeviceDoubles].
    - A string is a [string] whose characters are the code units below 256.
    - A plain object used as a dictionary is the list of its own properties
      in creation order; enumeration follows the language's order (array
      indices ascending, then the other keys in creation order).  Names
      inherited from [Object.prototype] are outside the model: a statement
      that would be false of a key such as "constructor" excludes these
      names with [JS.inherited].
    - [Array.prototype.sort] is the stable sort; a comparator result that is
      not a number counts as 0. *)

From Stdlib Require Import List String Ascii Bool.
From Stdlib Require Import ZArith NArith QArith Qabs Qround Qminmax.
From Stdlib Require Import Lia Lqa Permutation Sorted.
From Stdlib Require Floats.
Import ListNotations.

Local Open Scope string_scope.
Local Open Scope Q_scope.

(** ** The runtime: numbers, strings, objects, sorting *)

Module JS.

Definition number := Q.

(** [x > y] on numbers. *)
Definition gt (x y : number) : bool :=
  match x ?= y with Gt => true | _ => false end.

(** [x === y] and [x !== y] on numbers. *)
Definition strict_eq (x y : number) : bool := Qeq_bool x y.
Definition strict_ne (x y : number) : bool := negb (Qeq_bool x y).

(** [xs.reduce((sum, item) => sum + item, 0)]. *)
Definition sum (xs : list number) : number := fold_left Qplus xs 0.

(** *** Strings *)

(** WhiteSpace and LineTerminator code units below 256. *)
Definition is_white_space (c : ascii) : bool :=
  let n := nat_of_ascii c in
  ((9 <=? n) && (n <=? 13) || (n =? 32) || (n =? 160))%nat.

Fixpoint trimStart (s : string) : string :=
  match s with
  | EmptyString => EmptyString
  | String c s' => if is_white_space c then trimStart s' else s
  end.

Fixpoint trimEnd (s : string) : string :=
  match s with
  | EmptyString => EmptyString
  | String c s' =>
      match trimEnd s' with
      | EmptyString => if is_white_space c then EmptyString else String c EmptyString
      | r => String c r
      end
  end.

(** [s.trim()]. *)
Definition trim (s : string) : string := trimEnd (trimStart s).

(** [s.split(sep)] for a separator of one character. *)
Fixpoint split (sep : ascii) (s : string) : list string :=
  match s with
  | EmptyString => [EmptyString]
  | String c s' =>
      if Ascii.eqb c sep then EmptyString :: split sep s'
      else match split sep s' with
           | h :: t => String c h :: t
           | [] => [String c EmptyString]
           end
  end.

(** [s.slice(n)] for [n >= 0]. *)
Definition slice (n : nat) (s : string) : string :=
  substring n (String.length s - n) s.

(** The value of a digit in radix [r], if it is one. *)
Definition digit_of (r : Z) (c : ascii) : option Z :=
  (let n := Z.of_nat (nat_of_ascii c) in
  let v := if (48 <=? n) && (n <=? 57) then n - 48
           else if (97 <=? n) && (n <=? 122) then n - 87
           else if (65 <=? n) && (n <=? 90) then n - 55
           else 36 in
  if v <? r then Some v else None)%Z.

(** The longest prefix of digits of radix [r], read as a number. *)
Fixpoint digits_prefix (r : Z) (s : string) (acc : option Z) : option Z :=
  match s with
  | EmptyString => acc
  | String c s' =>
      match digit_of r c with
      | Some d => digits_prefix r s' (Some (match acc with Some a => a * r + d | None => d end))
      | None => acc
      end
  end%Z.

(** [parseInt(s)] with no radix; [None] is NaN. *)
Definition parseInt (s : string) : option Z :=
  let s1 := trimStart s in
  let '(neg, s2) :=
    match s1 with
    | String "-" r => (true, r)
    | String "+" r => (false, r)
    | _ => (false, s1)
    end in
  let '(radix, s3) :=
    match s2 with
    | String "0" (String "x" r) => (16%Z, r)
    | String "0" (String "X" r) => (16%Z, r)
    | _ => (10%Z, s2)
    end in
  match digits_prefix radix s3 None with
  | Some v => Some (if neg then (- v)%Z else v)
  | None => None
  end.

(** *** Plain objects used as dictionaries *)

Section Dictionary.
Context {V : Type}.

(** Own properties, in creation order. *)
Definition object := list (string * V).

(** [o[k]]. *)
Fixpoint get (k : string) (o : object) : option V :=
  match o with
  | [] => None
  | (k', v) :: o' => if String.eqb k' k then Some v else get k o'
  end.

(** [o[k] = v]: an existing property keeps its place, a new one is created
    last. *)
Fixpoint set (k : string) (v : V) (o : object) : object :=
  match o with
  | [] => [(k, v)]
  | (k', v') :: o' =>
      if String.eqb k' k then (k', v) :: o' else (k', v') :: set k v o'
  end.

(** [if (!o[k]) o[k] = init; o[k] = f(o[k])], the accumulation step of every
    aggregation. *)
Definition upsert (k : string) (init : V) (f : V -> V) (o : object) : object :=
  match get k o with
  | Some v => set k (f v) o
  | None => set k (f init) o
  end.

(** A key is an array index when it is the canonical decimal form of an
    integer below 2^32 - 1. *)
Definition array_index (k : string) : option Z :=
  match k with
  | EmptyString => None
  | String "0" (String _ _) => None
  | _ =>
      if forallb (fun c => match digit_of 10 c with Some _ => true | None => false end)
                 (list_ascii_of_string k)
      then match digits_prefix 10 k None with
           | Some n => if (n <? 4294967295)%Z then Some n else None
           | None => None
           end
      else None
  end.

Definition is_array_index (p : string * V) : bool :=
  match array_index (fst p) with Some _ => true | None => false end.

Fixpoint insert_index (p : string * V) (l : object) : object :=
  match l with
  | [] => [p]
  | q :: l' =>
      match array_index (fst p), array_index (fst q) with
      | Some i, Some j => if (i <=? j)%Z then p :: l else q :: insert_index p l'
      | _, _ => p :: l
      end
  end.

(** [Object.entries(o)]: array indices in ascending order, then the other
    keys in creation order. *)
Definition entries (o : object) : list (string * V) :=
  fold_right insert_index [] (filter is_array_index o)
  ++ filter (fun p => negb (is_array_index p)) o.

(** [Object.keys(o)] and [Object.values(o)]. *)
Definition keys (o : object) : list string := map fst (entries o).
Definition values (o : object) : list V := map snd (entries o).

End Dictionary.

(** The names a plain object inherits from [Object.prototype].  For these
    [o[k]] is not [undefined] even when [o] has no property [k] of its own
    (it is a function, and for ["__proto__"] the prototype itself), which
    [get] does not show: a statement that depends on what [o[k]] or
    [!o[k]] is for every key says so with [inherited]. *)
Definition Object_prototype : list string :=
  [ "constructor"; "hasOwnProperty"; "isPrototypeOf"; "propertyIsEnumerable";
    "toLocaleString"; "toString"; "valueOf"; "__proto__";
    "__defineGetter__"; "__defineSetter__"; "__lookupGetter__"; "__lookupSetter__" ].

Definition inherited (k : string) : bool := existsb (String.eqb k) Object_prototype.

Arguments object : clear implicits.

(** *** Array.prototype.sort *)

Section Sort.
Context {A : Type}.
(** The comparator; [None] is a result that is not a number. *)
Variable compareFn : A -> A -> option number.

Definition after (a b : A) : bool :=
  match compareFn a b with Some d => gt d 0 | None => false end.

Fixpoint sort_insert (a : A) (l : list A) : list A :=
  match l with
  | [] => [a]
  | b :: l' => if after a b then b :: sort_insert a l' else a :: l
  end.

Definition sort (l : list A) : list A := fold_right sort_insert [] l.

End Sort.

(** *** Number.prototype.toFixed, read back by parseFloat *)

(** The integer [n] for which [n / 100 - x] is closest to zero, the larger
    one on a tie; [x] is not negative here. *)
Definition nearest_hundredth (x : number) : Z := Qfloor (x * 100 + (1 # 2)).

(** [parseFloat(x.toFixed(2))] in exact arithmetic, on the rational [x].
    A negative [x] is formatted as the minus sign followed by the digits of
    [-x]; from 10^21 on [toFixed] prints the number itself.  On the doubles
    of the runtime it is [Float64.toFixed2], which can differ by a
    hundredth where the double is not the rational it was written as. *)
Definition toFixed2 (x : number) : number :=
  if Qle_bool (1000000000000000000000 # 1) (Qabs x) then x
  else if gt 0 x then - (inject_Z (nearest_hundredth (- x)) / 100)
  else inject_Z (nearest_hundredth x) / 100.

(** What holds of a guarded rate [r] of [num] over [den] on the scale
    [scale] (1 for a ratio, 100 for a percentage). *)
Definition rateBounds (scale num den r : number) : Prop :=
  0 <= r /\ (den == 0 -> r == 0) /\ (num <= den -> r <= scale).

End JS.

(** ** Weekly aggregation (app/weekly-view/page.tsx) *)

Module Weekly.

(** Modelled from the spec: the weekly record of src/types/marketing, a
    module that is not among the sources; the fields are those of the
    WeeklyRecord of the data model, under the names the page reads. *)
Module WeeklyPerformance.
Record t := {
  week_start : string;
  week_end : string;
  impressions : JS.number;
  clicks : JS.number;
  conversions : JS.number;
  spend : JS.number;
  revenue : JS.number }.
End WeeklyPerformance.

(** Modelled from the spec: the Campaign and MarketingData of
    src/types/marketing, reduced to the part this page reads. *)
Record Campaign := { weekly_performance : list WeeklyPerformance.t }.

Record MarketingData := { campaigns : list Campaign }.

(** A value of [weeklyMap]. *)
Module Totals.
Record t := {
  weekStart : string;
  weekEnd : string;
  impressions : JS.number;
  clicks : JS.number;
  conversions : JS.number;
  spend : JS.number;
  revenue : JS.number }.
End Totals.

(** Modelled from the spec: the AggregatedWeeklyPerformance of
    src/types/marketing, an entry of [weeklyMap] with its two rates. *)
Module AggregatedWeeklyPerformance.
Record t := {
  weekStart : string;
  weekEnd : string;
  impressions : JS.number;
  clicks : JS.number;
  conversions : JS.number;
  spend : JS.number;
  revenue : JS.number;
  ctr : JS.number;
  conversionRate : JS.number }.
End AggregatedWeeklyPerformance.

Module LineChartDataPoint.
Record t := {
  label : string;
  value : JS.number;
  tooltipLabel : option string }.
End LineChartDataPoint.

Record WeeklyViewResult := {
  totalRevenue : JS.number;
  totalSpend : JS.number;
  avgConversionRate : JS.number;
  revenueChartData : list LineChartDataPoint.t;
  spendChartData : list LineChartDataPoint.t }.

Definition initialWeeklyResult : WeeklyViewResult :=
  {| totalRevenue := 0; totalSpend := 0; avgConversionRate := 0;
     revenueChartData := []; spendChartData := [] |}.

(** The entry created at the first record of a week. *)
Definition newTotals (week : WeeklyPerformance.t) : Totals.t :=
  {| Totals.weekStart := WeeklyPerformance.week_start week;
     Totals.weekEnd := WeeklyPerformance.week_end week;
     Totals.impressions := 0; Totals.clicks := 0; Totals.conversions := 0;
     Totals.spend := 0; Totals.revenue := 0 |}.

(** The five [+=] of the inner loop. *)
Definition addWeek (week : WeeklyPerformance.t) (totals : Totals.t) : Totals.t :=
  {| Totals.weekStart := Totals.weekStart totals;
     Totals.weekEnd := Totals.weekEnd totals;
     Totals.impressions := Totals.impressions totals + WeeklyPerformance.impressions week;
     Totals.clicks := Totals.clicks totals + WeeklyPerformance.clicks week;
     Totals.conversions := Totals.conversions totals + WeeklyPerformance.conversions week;
     Totals.spend := Totals.spend totals + WeeklyPerformance.spend week;
     Totals.revenue := Totals.revenue totals + WeeklyPerformance.revenue week |}.

Definition accumulateWeek (m : JS.object Totals.t) (week : WeeklyPerformance.t)
  : JS.object Totals.t :=
  JS.upsert (WeeklyPerformance.week_start week) (newTotals week) (addWeek week) m.

Definition accumulateCampaign (m : JS.object Totals.t) (campaign : Campaign)
  : JS.object Totals.t :=
  fold_left accumulateWeek (weekly_performance campaign) m.

(** Step 1: [weeklyMap] after both loops. *)
Definition weeklyMap (cs : list Campaign) : JS.object Totals.t :=
  fold_left accumulateCampaign cs [].

(** Step 2: the rates of one week. *)
Definition withRates (totals : Totals.t) : AggregatedWeeklyPerformance.t :=
  let ctr := if JS.gt (Totals.impressions totals) 0
             then Totals.clicks totals / Totals.impressions totals else 0 in
  let conversionRate := if JS.gt (Totals.clicks totals) 0
             then Totals.conversions totals / Totals.clicks totals else 0 in
  {| AggregatedWeeklyPerformance.weekStart := Totals.weekStart totals;
     AggregatedWeeklyPerformance.weekEnd := Totals.weekEnd totals;
     AggregatedWeeklyPerformance.impressions := Totals.impressions totals;
     AggregatedWeeklyPerformance.clicks := Totals.clicks totals;
     AggregatedWeeklyPerformance.conversions := Totals.conversions totals;
     AggregatedWeeklyPerformance.spend := Totals.spend totals;
     AggregatedWeeklyPerformance.revenue := Totals.revenue totals;
     AggregatedWeeklyPerformance.ctr := ctr;
     AggregatedWeeklyPerformance.conversionRate := conversionRate |}.

(** [Object.values(weeklyMap).map(...)], before it is sorted. *)
Definition unsortedWeeklyList (cs : list Campaign) : list AggregatedWeeklyPerformance.t :=
  map withRates (JS.values (weeklyMap cs)).

Section WithDate.
(** [new Date(s).getTime()]; [None] is the NaN of an invalid date. *)
Variable Date_getTime : string -> option JS.number.

Definition byWeekStart (a b : AggregatedWeeklyPerformance.t) : option JS.number :=
  match Date_getTime (AggregatedWeeklyPerformance.weekStart a),
        Date_getTime (AggregatedWeeklyPerformance.weekStart b) with
  | Some x, Some y => Some (x - y)
  | _, _ => None
  end.

(** [finalWeeklyList] as every later step sees it: sorted in place. *)
Definition finalWeeklyList (cs : list Campaign) : list AggregatedWeeklyPerformance.t :=
  JS.sort byWeekStart (unsortedWeeklyList cs).

Definition chartPoint (series : string) (value : AggregatedWeeklyPerformance.t -> JS.number)
  (item : AggregatedWeeklyPerformance.t) : LineChartDataPoint.t :=
  {| LineChartDataPoint.label := JS.slice 5 (AggregatedWeeklyPerformance.weekStart item);
     LineChartDataPoint.value := value item;
     LineChartDataPoint.tooltipLabel :=
       Some (series ++ " (" ++ AggregatedWeeklyPerformance.weekStart item ++ " to "
             ++ AggregatedWeeklyPerformance.weekEnd item ++ ")") |}.

(** The [useMemo] body. *)
Definition aggregatedData (marketingData : option MarketingData) : WeeklyViewResult :=
  let cs := match marketingData with Some d => campaigns d | None => [] end in
  match cs with
  | [] => initialWeeklyResult
  | _ :: _ =>
      let final := finalWeeklyList cs in
      let totalRevenue := JS.sum (map AggregatedWeeklyPerformance.revenue final) in
      let totalSpend := JS.sum (map AggregatedWeeklyPerformance.spend final) in
      let totalConversions := JS.sum (map AggregatedWeeklyPerformance.conversions final) in
      let totalClicks := JS.sum (map AggregatedWeeklyPerformance.clicks final) in
      let avgConversionRate :=
        if JS.gt totalClicks 0 then totalConversions / totalClicks else 0 in
      {| totalRevenue := totalRevenue;
         totalSpend := totalSpend;
         avgConversionRate := avgConversionRate;
         revenueChartData := map (chartPoint "Revenue" AggregatedWeeklyPerformance.revenue) final;
         spendChartData := map (chartPoint "Spend" AggregatedWeeklyPerformance.spend) final |}
  end.

End WithDate.

(** *** Vocabulary of the statements about this page *)

Definition campaignsOf (marketingData : option MarketingData) : list Campaign :=
  match marketingData with Some d => campaigns d | None => [] end.

(** Every count of every weekly record is 0 or more. *)
Definition nonNegative (cs : list Campaign) : Prop :=
  forall c week, In c cs -> In week (weekly_performance c) ->
    0 <= WeeklyPerformance.impressions week
    /\ 0 <= WeeklyPerformance.clicks week
    /\ 0 <= WeeklyPerformance.conversions week.


(** The counts of an entry of [weeklyMap] are 0 or more. *)
Definition countsNonNegative (t : Totals.t) : Prop :=
  0 <= Totals.impressions t /\ 0 <= Totals.clicks t /\ 0 <= Totals.conversions t.

(** The weekly records of a list of campaigns, campaign after campaign. *)
Definition allWeeks (cs : list Campaign) : list WeeklyPerformance.t :=
  flat_map weekly_performance cs.

Definition week (week_start : string) (impressions clicks conversions spend revenue : JS.number)
  : WeeklyPerformance.t :=
  {| WeeklyPerformance.week_start := week_start;
     WeeklyPerformance.week_end := week_start;
     WeeklyPerformance.impressions := impressions;
     WeeklyPerformance.clicks := clicks;
     WeeklyPerformance.conversions := conversions;
     WeeklyPerformance.spend := spend;
     WeeklyPerformance.revenue := revenue |}.

(** Two weeks converting at 10% and at 50%. *)
Definition twoWeeks : MarketingData :=
  {| campaigns :=
       [ {| weekly_performance :=
              [ week "2024-01-01" 1000 10 1 100 200;
                week "2024-01-08" 1000 90 45 50 400 ] |} ] |}.

End Weekly.

(** ** Demographic aggregation (app/demographic-view/page.tsx) *)

Module Demographic.

(** The arithmetic the redistribution uses, so that it can be read both in
    exact arithmetic and in the doubles of the runtime. *)
Record Arithmetic (num : Type) := {
  zero : num;
  add : num -> num -> num;
  mul : num -> num -> num;
  div : num -> num -> num;
  gt : num -> num -> bool;
  strict_eq : num -> num -> bool }.

Arguments zero {num}.
Arguments add {num}.
Arguments mul {num}.
Arguments div {num}.
Arguments gt {num}.
Arguments strict_eq {num}.

Definition exact : Arithmetic JS.number :=
  {| zero := 0; add := Qplus; mul := Qmult; div := Qdiv;
     gt := JS.gt; strict_eq := JS.strict_eq |}.

Definition binary64 : Arithmetic PrimFloat.float :=
  {| zero := PrimFloat.zero; add := PrimFloat.add; mul := PrimFloat.mul;
     div := PrimFloat.div;
     gt := fun x y => PrimFloat.ltb y x; strict_eq := PrimFloat.eqb |}.

(** Modelled from the spec: the demographic record of src/types/marketing
    (the DemographicRecord of the data model) and its [performance]. *)
Module Performance.
Record t {num : Type} := {
  impressions : num;
  clicks : num;
  conversions : num }.
Arguments t : clear implicits.
End Performance.

Module DemographicBreakdown.
Record t {num : Type} := {
  gender : string;
  age_group : string;
  percentage_of_audience : num;
  performance : Performance.t num }.
Arguments t : clear implicits.
End DemographicBreakdown.

(** Modelled from the spec: the Campaign of src/types/marketing, reduced
    to the part this page reads. *)
Module Campaign.
Record t {num : Type} := {
  spend : num;
  revenue : num;
  demographic_breakdown : list (DemographicBreakdown.t num) }.
Arguments t : clear implicits.
End Campaign.

Record MarketingData := { campaigns : list (Campaign.t JS.number) }.

Section Redistribution.
Context {num : Type} (A : Arithmetic num).

(** [campaign.demographic_breakdown.reduce((sum, item) =>
    sum + item.percentage_of_audience, 0)]. *)
Definition totalCampaignAudiencePercentage (campaign : Campaign.t num) : num :=
  fold_left (fun sum item => add A sum (DemographicBreakdown.percentage_of_audience item))
            (Campaign.demographic_breakdown campaign) (zero A).

Definition ratio (campaign : Campaign.t num) (breakdown : DemographicBreakdown.t num) : num :=
  if gt A (totalCampaignAudiencePercentage campaign) (zero A)
  then div A (DemographicBreakdown.percentage_of_audience breakdown)
             (totalCampaignAudiencePercentage campaign)
  else zero A.

Definition distributedSpend (campaign : Campaign.t num) (breakdown : DemographicBreakdown.t num) : num :=
  mul A (Campaign.spend campaign) (ratio campaign breakdown).

Definition distributedRevenue (campaign : Campaign.t num) (breakdown : DemographicBreakdown.t num) : num :=
  mul A (Campaign.revenue campaign) (ratio campaign breakdown).

(** The sum, left to right from 0, of a campaign's distributed amounts. *)
Definition sumOver (f : DemographicBreakdown.t num -> num) (campaign : Campaign.t num) : num :=
  fold_left (add A) (map f (Campaign.demographic_breakdown campaign)) (zero A).

(** The redistribution property of a campaign: a positive audience total
    gives back the campaign's spend and revenue, a zero total gives zeros. *)
Definition redistributes (campaign : Campaign.t num) : Prop :=
  (gt A (totalCampaignAudiencePercentage campaign) (zero A) = true ->
     strict_eq A (sumOver (distributedSpend campaign) campaign) (Campaign.spend campaign) = true
     /\ strict_eq A (sumOver (distributedRevenue campaign) campaign) (Campaign.revenue campaign) = true)
  /\ (strict_eq A (totalCampaignAudiencePercentage campaign) (zero A) = true ->
     forall breakdown, In breakdown (Campaign.demographic_breakdown campaign) ->
       strict_eq A (distributedSpend campaign breakdown) (zero A) = true
       /\ strict_eq A (distributedRevenue campaign breakdown) (zero A) = true).

(** The second half alone: a total that is 0 gives zeros. *)
Definition redistributesNothing (campaign : Campaign.t num) : Prop :=
  strict_eq A (totalCampaignAudiencePercentage campaign) (zero A) = true ->
  forall breakdown, In breakdown (Campaign.demographic_breakdown campaign) ->
    strict_eq A (distributedSpend campaign breakdown) (zero A) = true
    /\ strict_eq A (distributedRevenue campaign breakdown) (zero A) = true.

End Redistribution.

(** A value of [demographicMap]. *)
Module Totals.
Record t := {
  impressions : JS.number;
  clicks : JS.number;
  conversions : JS.number;
  spend : JS.number;
  revenue : JS.number }.
End Totals.

(** Modelled from the spec: the AggregatedDemographicGroup of
    src/types/marketing, with the fields the page builds. *)
Module AggregatedDemographicGroup.
Record t := {
  ageGroup : string;
  gender : string;
  impressions : JS.number;
  clicks : JS.number;
  conversions : JS.number;
  spend : JS.number;
  revenue : JS.number;
  ctr : JS.number;
  conversionRate : JS.number }.
End AggregatedDemographicGroup.

Record GenderMetrics := {
  totalClicks : JS.number;
  totalSpend : JS.number;
  totalRevenue : JS.number }.

Module ChartDataPoint.
Record t := {
  label : string;
  value : JS.number;
  color : string }.
End ChartDataPoint.

Module TableRow.
Record t := {
  ageGroup : string;
  impressions : string;
  clicks : string;
  conversions : string;
  ctr : string;
  conversionRate : string;
  _sort_impressions : JS.number;
  _sort_clicks : JS.number;
  _sort_conversions : JS.number;
  _sort_ctr : JS.number;
  _sort_conversionRate : JS.number }.
End TableRow.

Record AggregatedDataResult := {
  maleMetrics : GenderMetrics;
  femaleMetrics : GenderMetrics;
  spendChart : list ChartDataPoint.t;
  revenueChart : list ChartDataPoint.t;
  maleTableData : list TableRow.t;
  femaleTableData : list TableRow.t }.

Definition initialMetrics : GenderMetrics :=
  {| totalClicks := 0; totalSpend := 0; totalRevenue := 0 |}.

Definition zeroTotals : Totals.t :=
  {| Totals.impressions := 0; Totals.clicks := 0; Totals.conversions := 0;
     Totals.spend := 0; Totals.revenue := 0 |}.

(** [`${breakdown.gender}-${breakdown.age_group}`]. *)
Definition keyOf (breakdown : DemographicBreakdown.t JS.number) : string :=
  DemographicBreakdown.gender breakdown ++ "-" ++ DemographicBreakdown.age_group breakdown.

(** The five [+=] of the inner loop. *)
Definition addBreakdown (campaign : Campaign.t JS.number)
  (breakdown : DemographicBreakdown.t JS.number) (totals : Totals.t) : Totals.t :=
  let performance := DemographicBreakdown.performance breakdown in
  {| Totals.impressions := Totals.impressions totals + Performance.impressions performance;
     Totals.clicks := Totals.clicks totals + Performance.clicks performance;
     Totals.conversions := Totals.conversions totals + Performance.conversions performance;
     Totals.spend := Totals.spend totals + distributedSpend exact campaign breakdown;
     Totals.revenue := Totals.revenue totals + distributedRevenue exact campaign breakdown |}.

Definition accumulateCampaign (m : JS.object Totals.t) (campaign : Campaign.t JS.number)
  : JS.object Totals.t :=
  fold_left (fun m breakdown =>
               JS.upsert (keyOf breakdown) zeroTotals (addBreakdown campaign breakdown) m)
            (Campaign.demographic_breakdown campaign) m.

Definition demographicMap (cs : list (Campaign.t JS.number)) : JS.object Totals.t :=
  fold_left accumulateCampaign cs [].

(** One entry of [demographicMap] with its rates.  The key is taken apart
    with [const [gender, ageGroup] = key.split('-')]: the first two pieces
    (a key always has the hyphen of [keyOf], so both exist). *)
Definition groupOf (entry : string * Totals.t) : AggregatedDemographicGroup.t :=
  let '(key, totals) := entry in
  let pieces := JS.split "-" key in
  let gender := nth 0 pieces "" in
  let ageGroup := nth 1 pieces "" in
  let ctr := if JS.gt (Totals.impressions totals) 0
             then Totals.clicks totals / Totals.impressions totals else 0 in
  let conversionRate := if JS.gt (Totals.clicks totals) 0
             then Totals.conversions totals / Totals.clicks totals else 0 in
  {| AggregatedDemographicGroup.ageGroup := ageGroup;
     AggregatedDemographicGroup.gender := gender;
     AggregatedDemographicGroup.impressions := Totals.impressions totals;
     AggregatedDemographicGroup.clicks := Totals.clicks totals;
     AggregatedDemographicGroup.conversions := Totals.conversions totals;
     AggregatedDemographicGroup.spend := Totals.spend totals;
     AggregatedDemographicGroup.revenue := Totals.revenue totals;
     AggregatedDemographicGroup.ctr := ctr;
     AggregatedDemographicGroup.conversionRate := conversionRate |}.

(** [Object.entries(demographicMap).map(...)]. *)
Definition aggregatedList (cs : list (Campaign.t JS.number))
  : list AggregatedDemographicGroup.t :=
  map groupOf (JS.entries (demographicMap cs)).

Definition maleData (cs : list (Campaign.t JS.number)) : list AggregatedDemographicGroup.t :=
  filter (fun row => String.eqb (AggregatedDemographicGroup.gender row) "Male")
         (aggregatedList cs).

Definition femaleData (cs : list (Campaign.t JS.number)) : list AggregatedDemographicGroup.t :=
  filter (fun row => String.eqb (AggregatedDemographicGroup.gender row) "Female")
         (aggregatedList cs).

Definition calculateMetrics (data : list AggregatedDemographicGroup.t) : GenderMetrics :=
  {| totalClicks := JS.sum (map AggregatedDemographicGroup.clicks data);
     totalSpend := JS.sum (map AggregatedDemographicGroup.spend data);
     totalRevenue := JS.sum (map AggregatedDemographicGroup.revenue data) |}.

(** A value of [ageDataMap]. *)
Module AgeData.
Record t := { spend : JS.number; revenue : JS.number }.
End AgeData.

Definition addRow (row : AggregatedDemographicGroup.t) (d : AgeData.t) : AgeData.t :=
  {| AgeData.spend := AgeData.spend d + AggregatedDemographicGroup.spend row;
     AgeData.revenue := AgeData.revenue d + AggregatedDemographicGroup.revenue row |}.

Definition ageDataMap (cs : list (Campaign.t JS.number)) : JS.object AgeData.t :=
  fold_left (fun m row =>
               JS.upsert (AggregatedDemographicGroup.ageGroup row)
                         {| AgeData.spend := 0; AgeData.revenue := 0 |} (addRow row) m)
            (aggregatedList cs) [].

(** [parseInt(a.split('-')[0])]. *)
Definition leadingNumber (a : string) : option Z :=
  JS.parseInt (nth 0 (JS.split "-" a) "").

(** The comparator [numA - numB]. *)
Definition byLeadingNumber (a b : string) : option JS.number :=
  match leadingNumber a, leadingNumber b with
  | Some numA, Some numB => Some (inject_Z numA - inject_Z numB)
  | _, _ => None
  end.

Definition ageGroups (cs : list (Campaign.t JS.number)) : list string :=
  JS.sort byLeadingNumber (JS.keys (ageDataMap cs)).

(** [ageDataMap[group]] for a [group] of [ageGroups]. *)
Definition ageData (cs : list (Campaign.t JS.number)) (group : string) : AgeData.t :=
  match JS.get group (ageDataMap cs) with
  | Some d => d
  | None => {| AgeData.spend := 0; AgeData.revenue := 0 |}
  end.

Definition spendChart_of (cs : list (Campaign.t JS.number)) : list ChartDataPoint.t :=
  map (fun group => {| ChartDataPoint.label := group;
                       ChartDataPoint.value := AgeData.spend (ageData cs group);
                       ChartDataPoint.color := "#f87171" |})
      (ageGroups cs).

Definition revenueChart_of (cs : list (Campaign.t JS.number)) : list ChartDataPoint.t :=
  map (fun group => {| ChartDataPoint.label := group;
                       ChartDataPoint.value := AgeData.revenue (ageData cs group);
                       ChartDataPoint.color := "#4ade80" |})
      (ageGroups cs).

Section Presentation.
(** The runtime's renderings of a number: [x.toLocaleString()] and
    [x.toFixed(digits)]. *)
Variable toLocaleString : JS.number -> string.
Variable toFixed : JS.number -> nat -> string.

Definition formatTableData (data : list AggregatedDemographicGroup.t) : list TableRow.t :=
  map (fun row =>
         {| TableRow.ageGroup := AggregatedDemographicGroup.ageGroup row;
            TableRow.impressions := toLocaleString (AggregatedDemographicGroup.impressions row);
            TableRow.clicks := toLocaleString (AggregatedDemographicGroup.clicks row);
            TableRow.conversions := toLocaleString (AggregatedDemographicGroup.conversions row);
            TableRow.ctr := toFixed (AggregatedDemographicGroup.ctr row * 100) 2 ++ "%";
            TableRow.conversionRate :=
              toFixed (AggregatedDemographicGroup.conversionRate row * 100) 2 ++ "%";
            TableRow._sort_impressions := AggregatedDemographicGroup.impressions row;
            TableRow._sort_clicks := AggregatedDemographicGroup.clicks row;
            TableRow._sort_conversions := AggregatedDemographicGroup.conversions row;
            TableRow._sort_ctr := AggregatedDemographicGroup.ctr row;
            TableRow._sort_conversionRate := AggregatedDemographicGroup.conversionRate row |})
      data.

(** The [useMemo] body. *)
Definition aggregatedData (marketingData : option MarketingData) : AggregatedDataResult :=
  let cs := match marketingData with Some d => campaigns d | None => [] end in
  match cs with
  | [] =>
      {| maleMetrics := initialMetrics; femaleMetrics := initialMetrics;
         spendChart := []; revenueChart := [];
         maleTableData := []; femaleTableData := [] |}
  | _ :: _ =>
      {| maleMetrics := calculateMetrics (maleData cs);
         femaleMetrics := calculateMetrics (femaleData cs);
         spendChart := spendChart_of cs;
         revenueChart := revenueChart_of cs;
         maleTableData := formatTableData (maleData cs);
         femaleTableData := formatTableData (femaleData cs) |}
  end.

End Presentation.

(** *** Vocabulary of the statements about this page *)

Definition breakdown {num : Type} (gender age_group : string)
  (percentage impressions clicks conversions : num) : DemographicBreakdown.t num :=
  {| DemographicBreakdown.gender := gender;
     DemographicBreakdown.age_group := age_group;
     DemographicBreakdown.percentage_of_audience := percentage;
     DemographicBreakdown.performance :=
       {| Performance.impressions := impressions;
          Performance.clicks := clicks;
          Performance.conversions := conversions |} |}.

(** Scenario 2 of the specification: spend 200 split 30 / 70. *)
Definition scenario2 : Campaign.t JS.number :=
  {| Campaign.spend := 200; Campaign.revenue := 500;
     Campaign.demographic_breakdown :=
       [ breakdown "Male" "18-24" 30 1000 100 10;
         breakdown "Female" "18-24" 70 2000 300 20 ] |}.

(** One campaign with the usual hyphenated age groups. *)
Definition hyphenated : Campaign.t JS.number :=
  {| Campaign.spend := 100; Campaign.revenue := 300;
     Campaign.demographic_breakdown :=
       [ breakdown "Male" "25-34" 25 1000 100 10;
         breakdown "Male" "18-24" 25 1000 100 10;
         breakdown "Female" "18-24" 50 2000 300 20 ] |}.

(** The counts of an entry of [demographicMap] are 0 or more. *)
Definition countsNonNegative (t : Totals.t) : Prop :=
  0 <= Totals.impressions t /\ 0 <= Totals.clicks t /\ 0 <= Totals.conversions t.

(** Every count of every demographic record is 0 or more. *)
Definition nonNegative (cs : list (Campaign.t JS.number)) : Prop :=
  forall c b, In c cs -> In b (Campaign.demographic_breakdown c) ->
    0 <= Performance.impressions (DemographicBreakdown.performance b)
    /\ 0 <= Performance.clicks (DemographicBreakdown.performance b)
    /\ 0 <= Performance.conversions (DemographicBreakdown.performance b).

End Demographic.

(** The 30 / 70 split again, of a spend of 3 and a revenue of 6, in the
    doubles of the runtime. *)
Module Doubles.
Import PrimFloat.

Definition split_30_70 : Demographic.Campaign.t float :=
  {| Demographic.Campaign.spend := 3%float;
     Demographic.Campaign.revenue := 6%float;
     Demographic.Campaign.demographic_breakdown :=
       [ Demographic.breakdown "Male" "18-24" 30%float 1000%float 100%float 10%float;
         Demographic.breakdown "Female" "18-24" 70%float 2000%float 300%float 20%float ] |}.

(** Audience percentages that are all 0, in doubles. *)
Definition nobody : Demographic.Campaign.t float :=
  {| Demographic.Campaign.spend := 200%float;
     Demographic.Campaign.revenue := 500%float;
     Demographic.Campaign.demographic_breakdown :=
       [ Demographic.breakdown "Male" "18-24" 0%float 1000%float 100%float 10%float;
         Demographic.breakdown "Female" "18-24" 0%float 2000%float 300%float 20%float ] |}.

End Doubles.

(** ** Device aggregation (app/device-view/page.tsx) *)

Module Device.

Module DevicePerformance.
(** [device] is [None] when the field is missing or null. *)
Record t := {
  device : option string;
  impressions : JS.number;
  clicks : JS.number;
  conversions : JS.number;
  spend : JS.number;
  revenue : JS.number;
  ctr : JS.number;
  conversion_rate : JS.number }.
End DevicePerformance.

(** The part of a campaign this page reads; [device_performance] is [None]
    when the field is missing or null. *)
Record Campaign := { device_performance : option (list DevicePerformance.t) }.

Definition RawApiResponse := list Campaign.

(** A value of [aggregatedDataMap]. *)
Module Totals.
Record t := {
  impressions : JS.number;
  clicks : JS.number;
  conversions : JS.number;
  spend : JS.number;
  revenue : JS.number }.
End Totals.

Module AggregatedDeviceData.
Record t := {
  device : string;
  total_impressions : JS.number;
  total_clicks : JS.number;
  total_conversions : JS.number;
  total_spend : JS.number;
  total_revenue : JS.number;
  average_ctr : JS.number;
  average_conversion_rate : JS.number }.
End AggregatedDeviceData.

Definition zeroTotals : Totals.t :=
  {| Totals.impressions := 0; Totals.clicks := 0; Totals.conversions := 0;
     Totals.spend := 0; Totals.revenue := 0 |}.

(** The [Map] the function starts from; a [Map] is iterated in insertion
    order. *)
Definition initialMap : list (string * Totals.t) :=
  [("Mobile", zeroTotals); ("Desktop", zeroTotals)].

(** [stat.device ? stat.device.trim() : ''].  The empty string is falsy. *)
Definition deviceKey (stat : DevicePerformance.t) : string :=
  match DevicePerformance.device stat with
  | Some d => if String.eqb d "" then "" else JS.trim d
  | None => ""
  end.

(** The five [+=] on [current]. *)
Definition addStat (stat : DevicePerformance.t) (current : Totals.t) : Totals.t :=
  {| Totals.impressions := Totals.impressions current + DevicePerformance.impressions stat;
     Totals.clicks := Totals.clicks current + DevicePerformance.clicks stat;
     Totals.conversions := Totals.conversions current + DevicePerformance.conversions stat;
     Totals.spend := Totals.spend current + DevicePerformance.spend stat;
     Totals.revenue := Totals.revenue current + DevicePerformance.revenue stat |}.

(** [aggregatedDataMap.get(key)] followed by the updates of the object it
    returns. *)
Definition updateCurrent (key : string) (f : Totals.t -> Totals.t)
  (m : list (string * Totals.t)) : list (string * Totals.t) :=
  map (fun entry => if String.eqb (fst entry) key then (fst entry, f (snd entry)) else entry) m.

Definition accumulateStat (m : list (string * Totals.t)) (stat : DevicePerformance.t)
  : list (string * Totals.t) :=
  let key := deviceKey stat in
  if String.eqb key "Mobile" || String.eqb key "Desktop"
  then updateCurrent key (addStat stat) m
  else m.

Definition accumulateCampaign (m : list (string * Totals.t)) (campaign : Campaign)
  : list (string * Totals.t) :=
  match device_performance campaign with
  | None => m
  | Some stats => fold_left accumulateStat stats m
  end.

Definition aggregatedDataMap (cs : RawApiResponse) : list (string * Totals.t) :=
  fold_left accumulateCampaign cs initialMap.

(** The body of the last loop: what one entry pushes to [results].  The
    figures are those of exact arithmetic; [DeviceDoubles.emit] is the same
    loop body on the doubles of the runtime, where the rounding to two
    decimals is read. *)
Definition emit (entry : string * Totals.t) : list AggregatedDeviceData.t :=
  let '(device, data) := entry in
  if JS.gt (Totals.impressions data) 0 || JS.gt (Totals.clicks data) 0
     || JS.gt (Totals.conversions data) 0
  then
    let average_ctr := if JS.gt (Totals.impressions data) 0
      then (Totals.clicks data / Totals.impressions data) * 100 else 0 in
    let average_conversion_rate := if JS.gt (Totals.clicks data) 0
      then (Totals.conversions data / Totals.clicks data) * 100 else 0 in
    [ {| AggregatedDeviceData.device := device;
         AggregatedDeviceData.total_impressions := Totals.impressions data;
         AggregatedDeviceData.total_clicks := Totals.clicks data;
         AggregatedDeviceData.total_conversions := Totals.conversions data;
         AggregatedDeviceData.total_spend := JS.toFixed2 (Totals.spend data);
         AggregatedDeviceData.total_revenue := JS.toFixed2 (Totals.revenue data);
         AggregatedDeviceData.average_ctr := JS.toFixed2 average_ctr;
         AggregatedDeviceData.average_conversion_rate :=
           JS.toFixed2 average_conversion_rate |} ]
  else [].

Definition restructureDevicePerformance (cs : RawApiResponse) : list AggregatedDeviceData.t :=
  match cs with
  | [] => []
  | _ :: _ => flat_map emit (aggregatedDataMap cs)
  end.

(** What the fetch gave the page. *)
Inductive Fetched :=
| Loaded (rawData : RawApiResponse)
| Failed (message : string).

(** The figures of the comparison branch. *)
Record Comparison := {
  revenueComparison : JS.number;
  totalRevenue : JS.number;
  mobileRevenuePercent : JS.number;
  deltaBaseRevenue : JS.number;
  deltaPercent : JS.number;
  isMobileLeader : bool }.

(** The three branches of the page. *)
Inductive Content :=
| DataFetchError (error : string)
| MissingKeyDevice (availableDevices : list string)
| Metrics (comparison : Comparison).

Definition compareRevenue (mobileData desktopData : AggregatedDeviceData.t) : Comparison :=
  let revenueComparison :=
    AggregatedDeviceData.total_revenue mobileData - AggregatedDeviceData.total_revenue desktopData in
  let totalRevenue :=
    AggregatedDeviceData.total_revenue mobileData + AggregatedDeviceData.total_revenue desktopData in
  let mobileRevenuePercent :=
    if JS.gt totalRevenue 0
    then (AggregatedDeviceData.total_revenue mobileData / totalRevenue) * 100 else 0 in
  let deltaBaseRevenue :=
    if JS.strict_eq (AggregatedDeviceData.total_revenue desktopData) 0
    then 1 else AggregatedDeviceData.total_revenue desktopData in
  let deltaPercent := (Qabs revenueComparison / deltaBaseRevenue) * 100 in
  {| revenueComparison := revenueComparison;
     totalRevenue := totalRevenue;
     mobileRevenuePercent := mobileRevenuePercent;
     deltaBaseRevenue := deltaBaseRevenue;
     deltaPercent := deltaPercent;
     isMobileLeader := JS.gt (AggregatedDeviceData.total_revenue mobileData)
                             (AggregatedDeviceData.total_revenue desktopData) |}.

(** [deviceData.find(d => d.device === name)]. *)
Definition findDevice (name : string) (deviceData : list AggregatedDeviceData.t)
  : option AggregatedDeviceData.t :=
  find (fun d => String.eqb (AggregatedDeviceData.device d) name) deviceData.

Definition DeviceViewPage (fetched : Fetched) : Content :=
  let '(rawData, error) :=
    match fetched with
    | Loaded data => (data, None)
    | Failed message => ([], Some message)
    end in
  let deviceData := restructureDevicePerformance rawData in
  let mobileData := findDevice "Mobile" deviceData in
  let desktopData := findDevice "Desktop" deviceData in
  match error with
  | Some e => DataFetchError e
  | None =>
      match mobileData, desktopData with
      | Some m, Some d => Metrics (compareRevenue m d)
      | _, _ => MissingKeyDevice (map AggregatedDeviceData.device deviceData)
      end
  end.

(** *** Vocabulary of the statements about this page *)

(** The records of a response, campaign after campaign. *)
Definition allStats (cs : RawApiResponse) : list DevicePerformance.t :=
  flat_map (fun campaign =>
              match device_performance campaign with
              | Some stats => stats
              | None => []
              end) cs.

(** The record is counted: its trimmed device is one of the two tracked. *)
Definition recognised (stat : DevicePerformance.t) : bool :=
  String.eqb (deviceKey stat) "Mobile" || String.eqb (deviceKey stat) "Desktop".

(** The campaign without the records that are not counted. *)
Definition withoutOthers (campaign : Campaign) : Campaign :=
  {| device_performance := option_map (filter recognised) (device_performance campaign) |}.

(** What the records of one device add up to, from [start]. *)
Definition tally (name : string) (stats : list DevicePerformance.t) (start : Totals.t)
  : Totals.t :=
  fold_left (fun current stat =>
               if String.eqb (deviceKey stat) name then addStat stat current else current)
            stats start.

(** The records of one device. *)
Definition statsOf (name : string) (cs : RawApiResponse) : list DevicePerformance.t :=
  filter (fun stat => String.eqb (deviceKey stat) name) (allStats cs).

Definition stat (device : string) (impressions clicks conversions spend revenue : JS.number)
  : DevicePerformance.t :=
  {| DevicePerformance.device := Some device;
     DevicePerformance.impressions := impressions;
     DevicePerformance.clicks := clicks;
     DevicePerformance.conversions := conversions;
     DevicePerformance.spend := spend;
     DevicePerformance.revenue := revenue;
     DevicePerformance.ctr := 0;
     DevicePerformance.conversion_rate := 0 |}.

(** Sample responses. *)
Definition sampleBoth : RawApiResponse :=
  [ {| device_performance :=
         Some [ stat "  Mobile " 100 10 1 (10.004) (30.016);
                stat "Desktop" 200 40 10 20 (50.5);
                stat "Tablet" 50 5 1 7 9 ] |} ].

Definition sampleOthers : RawApiResponse :=
  [ {| device_performance :=
         Some [ stat "mobile" 100 10 1 10 30; stat "Tablet" 50 5 1 7 9 ] |};
    {| device_performance := None |} ].

(** Every count of every device record is 0 or more. *)
Definition nonNegative (cs : RawApiResponse) : Prop :=
  forall s, In s (allStats cs) ->
    0 <= DevicePerformance.impressions s
    /\ 0 <= DevicePerformance.clicks s
    /\ 0 <= DevicePerformance.conversions s.

End Device.

(** ** Geo lookup (src/lib/geo-data.ts) *)

Module Geo.

Record GeoPosition := {
  lat : JS.number;
  lon : JS.number;
  color : string }.

Definition REGION_COORDINATES : JS.object GeoPosition :=
  [ ("Abu Dhabi", {| lat := 24.466667; lon := 54.366669; color := "#f87171" |});
    ("Dubai", {| lat := 25.276987; lon := 55.296249; color := "#f87171" |});
    ("Sharjah", {| lat := 25.357125; lon := 55.405167; color := "#f87171" |});
    ("Riyadh", {| lat := 24.713552; lon := 46.675296; color := "#f87171" |});
    ("Doha", {| lat := 25.2854; lon := 51.5310; color := "#f87171" |});
    ("Kuwait City", {| lat := 29.3759; lon := 47.9774; color := "#f87171" |});
    ("Manama", {| lat := 26.2285; lon := 50.5860; color := "#f87171" |});
    ("New York", {| lat := 40.712776; lon := -74.005974; color := "#4ade80" |});
    ("California", {| lat := 36.778259; lon := -119.417931; color := "#4ade80" |});
    ("Toronto", {| lat := 43.6532; lon := -79.3832; color := "#4ade80" |});
    ("London", {| lat := 51.507351; lon := -0.127758; color := "#fbbf24" |});
    ("Paris", {| lat := 48.856613; lon := 2.352222; color := "#fbbf24" |});
    ("Berlin", {| lat := 52.520008; lon := 13.404954; color := "#fbbf24" |});
    ("Singapore", {| lat := 1.352083; lon := 103.819836; color := "#60a5fa" |});
    ("Tokyo", {| lat := 35.689487; lon := 139.691711; color := "#60a5fa" |});
    ("Cairo", {| lat := 30.033333; lon := 31.233334; color := "#a78bfa" |}) ].

(** The default position [0, 0] with the fallback color. *)
Definition fallback : GeoPosition :=
  {| lat := 0; lon := 0; color := "#94a3b8" |}.

(** [REGION_COORDINATES[region] || { lat: 0, lon: 0, color: '#94a3b8' }],
    for a name that is not [JS.inherited]: for an inherited name the
    runtime returns the inherited member, which has no [lat], [lon] or
    [color]. *)
Definition getCoordinates (region : string) : GeoPosition :=
  match JS.get region REGION_COORDINATES with
  | Some position => position
  | None => fallback
  end.

End Geo.

(** ** Regional aggregation (app/region-view/page.tsx) *)

Module Region.

(** Modelled from the spec: the regional record of src/types/marketing
    (the RegionalRecord of the data model). *)
Module RegionalPerformance.
Record t := {
  region : string;
  country : string;
  impressions : JS.number;
  clicks : JS.number;
  conversions : JS.number;
  spend : JS.number;
  revenue : JS.number }.
End RegionalPerformance.

(** Modelled from the spec: the Campaign and MarketingData of
    src/types/marketing, reduced to the part this page reads. *)
Record Campaign := { regional_performance : list RegionalPerformance.t }.

Record MarketingData := { campaigns : list Campaign }.

(** Modelled from the spec: the AggregatedRegionalPerformance of
    src/types/marketing with the [latitude] and [longitude] the page adds:
    a value of [regionalMap], and an item of [finalRegionalList]. *)
Module AggregatedRegionalPerformance.
Record t := {
  region : string;
  country : string;
  impressions : JS.number;
  clicks : JS.number;
  conversions : JS.number;
  spend : JS.number;
  revenue : JS.number;
  roas : JS.number;
  cpa : JS.number;
  cpc : JS.number;
  ctr : JS.number;
  conversionRate : JS.number;
  latitude : JS.number;
  longitude : JS.number }.
End AggregatedRegionalPerformance.

Module BubbleMapDataPoint.
Record t := {
  region : string;
  country : string;
  value : JS.number;
  color : string;
  latitude : JS.number;
  longitude : JS.number }.
End BubbleMapDataPoint.

Record RegionViewResult := {
  totalRevenue : JS.number;
  totalSpend : JS.number;
  averageRoas : JS.number;
  topRegion : string;
  revenueMapData : list BubbleMapDataPoint.t;
  spendMapData : list BubbleMapDataPoint.t }.

Definition initialRegionResult : RegionViewResult :=
  {| totalRevenue := 0; totalSpend := 0; averageRoas := 0; topRegion := "N/A";
     revenueMapData := []; spendMapData := [] |}.

(** [`${region.region}-${region.country}`]. *)
Definition keyOf (region : RegionalPerformance.t) : string :=
  RegionalPerformance.region region ++ "-" ++ RegionalPerformance.country region.

(** The entry created at the first record of a key: the record's own
    fields, zeroed figures, and the position of its region. *)
Definition newEntry (region : RegionalPerformance.t) : AggregatedRegionalPerformance.t :=
  let pos := Geo.getCoordinates (RegionalPerformance.region region) in
  {| AggregatedRegionalPerformance.region := RegionalPerformance.region region;
     AggregatedRegionalPerformance.country := RegionalPerformance.country region;
     AggregatedRegionalPerformance.impressions := 0;
     AggregatedRegionalPerformance.clicks := 0;
     AggregatedRegionalPerformance.conversions := 0;
     AggregatedRegionalPerformance.spend := 0;
     AggregatedRegionalPerformance.revenue := 0;
     AggregatedRegionalPerformance.roas := 0;
     AggregatedRegionalPerformance.cpa := 0;
     AggregatedRegionalPerformance.cpc := 0;
     AggregatedRegionalPerformance.ctr := 0;
     AggregatedRegionalPerformance.conversionRate := 0;
     AggregatedRegionalPerformance.latitude := Geo.lat pos;
     AggregatedRegionalPerformance.longitude := Geo.lon pos |}.

(** The five [+=] of the inner loop. *)
Definition addRegion (region : RegionalPerformance.t)
  (totals : AggregatedRegionalPerformance.t) : AggregatedRegionalPerformance.t :=
  {| AggregatedRegionalPerformance.region := AggregatedRegionalPerformance.region totals;
     AggregatedRegionalPerformance.country := AggregatedRegionalPerformance.country totals;
     AggregatedRegionalPerformance.impressions :=
       AggregatedRegionalPerformance.impressions totals + RegionalPerformance.impressions region;
     AggregatedRegionalPerformance.clicks :=
       AggregatedRegionalPerformance.clicks totals + RegionalPerformance.clicks region;
     AggregatedRegionalPerformance.conversions :=
       AggregatedRegionalPerformance.conversions totals + RegionalPerformance.conversions region;
     AggregatedRegionalPerformance.spend :=
       AggregatedRegionalPerformance.spend totals + RegionalPerformance.spend region;
     AggregatedRegionalPerformance.revenue :=
       AggregatedRegionalPerformance.revenue totals + RegionalPerformance.revenue region;
     AggregatedRegionalPerformance.roas := AggregatedRegionalPerformance.roas totals;
     AggregatedRegionalPerformance.cpa := AggregatedRegionalPerformance.cpa totals;
     AggregatedRegionalPerformance.cpc := AggregatedRegionalPerformance.cpc totals;
     AggregatedRegionalPerformance.ctr := AggregatedRegionalPerformance.ctr totals;
     AggregatedRegionalPerformance.conversionRate :=
       AggregatedRegionalPerformance.conversionRate totals;
     AggregatedRegionalPerformance.latitude := AggregatedRegionalPerformance.latitude totals;
     AggregatedRegionalPerformance.longitude := AggregatedRegionalPerformance.longitude totals |}.

Definition accumulateRegion (m : JS.object AggregatedRegionalPerformance.t)
  (region : RegionalPerformance.t) : JS.object AggregatedRegionalPerformance.t :=
  JS.upsert (keyOf region) (newEntry region) (addRegion region) m.

Definition accumulateCampaign (m : JS.object AggregatedRegionalPerformance.t)
  (campaign : Campaign) : JS.object AggregatedRegionalPerformance.t :=
  fold_left accumulateRegion (regional_performance campaign) m.

Definition regionalMap (cs : list Campaign) : JS.object AggregatedRegionalPerformance.t :=
  fold_left accumulateCampaign cs [].

(** The derived metrics of one entry. *)
Definition withRates (totals : AggregatedRegionalPerformance.t)
  : AggregatedRegionalPerformance.t :=
  let impressions := AggregatedRegionalPerformance.impressions totals in
  let clicks := AggregatedRegionalPerformance.clicks totals in
  let conversions := AggregatedRegionalPerformance.conversions totals in
  let spend := AggregatedRegionalPerformance.spend totals in
  let revenue := AggregatedRegionalPerformance.revenue totals in
  let ctr := if JS.gt impressions 0 then clicks / impressions else 0 in
  let conversionRate := if JS.gt clicks 0 then conversions / clicks else 0 in
  let cpc := if JS.gt clicks 0 then spend / clicks else 0 in
  let cpa := if JS.gt conversions 0 then spend / conversions else 0 in
  let roas := if JS.gt spend 0 then revenue / spend else 0 in
  {| AggregatedRegionalPerformance.region := AggregatedRegionalPerformance.region totals;
     AggregatedRegionalPerformance.country := AggregatedRegionalPerformance.country totals;
     AggregatedRegionalPerformance.impressions := impressions;
     AggregatedRegionalPerformance.clicks := clicks;
     AggregatedRegionalPerformance.conversions := conversions;
     AggregatedRegionalPerformance.spend := spend;
     AggregatedRegionalPerformance.revenue := revenue;
     AggregatedRegionalPerformance.roas := roas;
     AggregatedRegionalPerformance.cpa := cpa;
     AggregatedRegionalPerformance.cpc := cpc;
     AggregatedRegionalPerformance.ctr := ctr;
     AggregatedRegionalPerformance.conversionRate := conversionRate;
     AggregatedRegionalPerformance.latitude := AggregatedRegionalPerformance.latitude totals;
     AggregatedRegionalPerformance.longitude := AggregatedRegionalPerformance.longitude totals |}.

(** [item.latitude !== 0 || item.longitude !== 0]. *)
Definition hasCoordinates (item : AggregatedRegionalPerformance.t) : bool :=
  JS.strict_ne (AggregatedRegionalPerformance.latitude item) 0
  || JS.strict_ne (AggregatedRegionalPerformance.longitude item) 0.

(** [Object.values(regionalMap).map(...).filter(...)]: the list the global
    metrics are computed from. *)
Definition finalRegionalList (cs : list Campaign) : list AggregatedRegionalPerformance.t :=
  filter hasCoordinates (map withRates (JS.values (regionalMap cs))).

(** The comparator [b.revenue - a.revenue]. *)
Definition byRevenueDescending (a b : AggregatedRegionalPerformance.t) : option JS.number :=
  Some (AggregatedRegionalPerformance.revenue b - AggregatedRegionalPerformance.revenue a).

(** [finalRegionalList] once [sort] has reordered it in place. *)
Definition rankedRegionalList (cs : list Campaign) : list AggregatedRegionalPerformance.t :=
  JS.sort byRevenueDescending (finalRegionalList cs).

Definition mapPoint (value : AggregatedRegionalPerformance.t -> JS.number)
  (item : AggregatedRegionalPerformance.t) : BubbleMapDataPoint.t :=
  let color := Geo.color (Geo.getCoordinates (AggregatedRegionalPerformance.region item)) in
  {| BubbleMapDataPoint.region := AggregatedRegionalPerformance.region item;
     BubbleMapDataPoint.country := AggregatedRegionalPerformance.country item;
     BubbleMapDataPoint.value := value item;
     BubbleMapDataPoint.color := if String.eqb color "" then "#94a3b8" else color;
     BubbleMapDataPoint.latitude := AggregatedRegionalPerformance.latitude item;
     BubbleMapDataPoint.longitude := AggregatedRegionalPerformance.longitude item |}.

(** The mean of the per-region [roas] values. *)
Definition averageRoas_of (final : list AggregatedRegionalPerformance.t) : JS.number :=
  if (0 <? List.length final)%nat
  then JS.sum (map AggregatedRegionalPerformance.roas final)
       / inject_Z (Z.of_nat (List.length final))
  else 0.

(** The [useMemo] body. *)
Definition aggregatedData (marketingData : option MarketingData) : RegionViewResult :=
  let cs := match marketingData with Some d => campaigns d | None => [] end in
  match cs with
  | [] => initialRegionResult
  | _ :: _ =>
      let final := finalRegionalList cs in
      let totalRevenue := JS.sum (map AggregatedRegionalPerformance.revenue final) in
      let totalSpend := JS.sum (map AggregatedRegionalPerformance.spend final) in
      let averageRoas := averageRoas_of final in
      let ranked := rankedRegionalList cs in
      let topRegion :=
        match ranked with
        | top :: _ =>
            if String.eqb (AggregatedRegionalPerformance.region top) "" then "N/A"
            else AggregatedRegionalPerformance.region top
        | [] => "N/A"
        end in
      {| totalRevenue := totalRevenue;
         totalSpend := totalSpend;
         averageRoas := averageRoas;
         topRegion := topRegion;
         revenueMapData := map (mapPoint AggregatedRegionalPerformance.revenue) ranked;
         spendMapData := map (mapPoint AggregatedRegionalPerformance.spend) ranked |}
  end.

(** *** Vocabulary of the statements about this page *)

Definition campaignsOf (marketingData : option MarketingData) : list Campaign :=
  match marketingData with Some d => campaigns d | None => [] end.

(** Every count of every regional record is 0 or more. *)
Definition nonNegative (cs : list Campaign) : Prop :=
  forall c r, In c cs -> In r (regional_performance c) ->
    0 <= RegionalPerformance.impressions r
    /\ 0 <= RegionalPerformance.clicks r
    /\ 0 <= RegionalPerformance.conversions r.

(** The counts of an entry of [regionalMap] are 0 or more. *)
Definition countsNonNegative (t : AggregatedRegionalPerformance.t) : Prop :=
  0 <= AggregatedRegionalPerformance.impressions t
  /\ 0 <= AggregatedRegionalPerformance.clicks t
  /\ 0 <= AggregatedRegionalPerformance.conversions t.

(** The key of an item of the final list. *)
Definition keyOfItem (item : AggregatedRegionalPerformance.t) : string :=
  AggregatedRegionalPerformance.region item ++ "-" ++ AggregatedRegionalPerformance.country item.

(** What every entry of [regionalMap] satisfies: it sits under the key of
    its own region and country and carries the position of its region. *)
Definition wellPlaced (k : string) (t : AggregatedRegionalPerformance.t) : Prop :=
  k = keyOfItem t
  /\ AggregatedRegionalPerformance.latitude t
     = Geo.lat (Geo.getCoordinates (AggregatedRegionalPerformance.region t))
  /\ AggregatedRegionalPerformance.longitude t
     = Geo.lon (Geo.getCoordinates (AggregatedRegionalPerformance.region t)).

Definition wellFormed (m : JS.object AggregatedRegionalPerformance.t) : Prop :=
  Forall (fun e => wellPlaced (fst e) (snd e)) m /\ NoDup (map fst m).

Definition record (region country : string)
  (impressions clicks conversions spend revenue : JS.number) : RegionalPerformance.t :=
  {| RegionalPerformance.region := region;
     RegionalPerformance.country := country;
     RegionalPerformance.impressions := impressions;
     RegionalPerformance.clicks := clicks;
     RegionalPerformance.conversions := conversions;
     RegionalPerformance.spend := spend;
     RegionalPerformance.revenue := revenue |}.

(** Scenario 5 of the specification: a region the geo table does not
    have, next to one it has. *)
Definition scenario5 : list Campaign :=
  [ {| regional_performance :=
         [ record "Atlantis" "Nowhere" 1000 100 10 50 200;
           record "Dubai" "UAE" 2000 100 20 100 300 ] |} ].

(** More clicks than impressions. *)
Definition overClicked : list Campaign :=
  [ {| regional_performance := [ record "Dubai" "UAE" 5 10 1 100 300 ] |} ].

End Region.

(** ** Chart widgets (src/components/ui/line-chart.tsx, bubble-map.tsx) *)

Module Widgets.

(** [Math.max(first, ...rest)]. *)
Definition Math_max (first : JS.number) (rest : list JS.number) : JS.number :=
  fold_left Qmax rest first.

(** [Math.max(...values) || 1] for values that start with [first]: 0 is
    falsy. *)
Definition maxValue (first : JS.number) (rest : list JS.number) : JS.number :=
  let m := Math_max first rest in
  if JS.strict_eq m 0 then 1 else m.

End Widgets.

Module LineChart.

(** One data point as drawn: its bar and its label. *)
Record Bar := {
  width : JS.number;
  height : JS.number;
  title : string;
  label : string }.

(** What the component renders: the "no data" box, or the two axis labels
    and the bars. *)
Inductive View :=
| NoData
| Chart (top bottom : string) (bars : list Bar).

Definition bars_of (view : View) : list Bar :=
  match view with NoData => [] | Chart _ _ bars => bars end.

(** The bar of one point, in a chart of [count] points scaled to
    [maxValue]. *)
Definition bar (formatValue : JS.number -> string) (maxValue : JS.number) (count : nat)
  (point : Weekly.LineChartDataPoint.t) : Bar :=
  let shown :=
    match Weekly.LineChartDataPoint.tooltipLabel point with
    | Some t => if String.eqb t "" then Weekly.LineChartDataPoint.label point else t
    | None => Weekly.LineChartDataPoint.label point
    end in
  {| width := 100 / inject_Z (Z.of_nat count);
     height := (Weekly.LineChartDataPoint.value point / maxValue) * 90;
     title := shown ++ ": " ++ formatValue (Weekly.LineChartDataPoint.value point);
     label := Weekly.LineChartDataPoint.label point |}.

(** The component, with its [formatValue] property. *)
Definition LineChart (formatValue : JS.number -> string)
  (data : list Weekly.LineChartDataPoint.t) : View :=
  match map Weekly.LineChartDataPoint.value data with
  | [] => NoData
  | first :: rest =>
      let maxValue := Widgets.maxValue first rest in
      Chart (formatValue maxValue) (formatValue 0)
            (map (bar formatValue maxValue (List.length data)) data)
  end.

End LineChart.

Module BubbleMap.

(** One circle marker with its popup. *)
Record Marker := {
  center : JS.number * JS.number;
  radius : JS.number;
  color : string;
  popupTitle : string;
  popupValue : string }.

Inductive View :=
| NoData
| Map (markers : list Marker).

Definition markers_of (view : View) : list Marker :=
  match view with NoData => [] | Map markers => markers end.

(** [getRadius]: from [minRadius] 5 to [maxRadius] 25. *)
Definition getRadius (maxValue value : JS.number) : JS.number :=
  let minRadius := 5 in
  let maxRadius := 25 in
  minRadius + (value / maxValue) * (maxRadius - minRadius).

(** The marker of one point, on a map scaled to [maxValue]. *)
Definition marker (formatValue : JS.number -> string) (maxValue : JS.number)
  (point : Region.BubbleMapDataPoint.t) : Marker :=
  {| center := (Region.BubbleMapDataPoint.latitude point,
                Region.BubbleMapDataPoint.longitude point);
     radius := getRadius maxValue (Region.BubbleMapDataPoint.value point);
     color := Region.BubbleMapDataPoint.color point;
     popupTitle := Region.BubbleMapDataPoint.region point ++ ", "
                   ++ Region.BubbleMapDataPoint.country point;
     popupValue := formatValue (Region.BubbleMapDataPoint.value point) |}.

(** The component, with its [formatValue] property. *)
Definition BubbleMap (formatValue : JS.number -> string)
  (data : list Region.BubbleMapDataPoint.t) : View :=
  match map Region.BubbleMapDataPoint.value data with
  | [] => NoData
  | first :: rest =>
      Map (map (marker formatValue (Widgets.maxValue first rest)) data)
  end.

End BubbleMap.

(** ** Further vocabulary of the statements *)

Module WeeklyTerms.
Import Weekly.

(** The first record, in the order of the loops, of a week. *)
Definition firstWeek (k : string) (cs : list Campaign) : option WeeklyPerformance.t :=
  find (fun w => String.eqb (WeeklyPerformance.week_start w) k) (allWeeks cs).

(** Every week of the final list has a date the runtime can read, which
    [date] gives. *)
Definition datesRead (getTime : string -> option JS.number) (date : string -> JS.number)
  (cs : list Campaign) : Prop :=
  forall g, In g (finalWeeklyList getTime cs) ->
    getTime (AggregatedWeeklyPerformance.weekStart g)
    = Some (date (AggregatedWeeklyPerformance.weekStart g)).

(** Scenario 1 of the specification: two campaigns with one record each
    for the same week, spending 100 and 50. *)
Definition scenario1 : list Campaign :=
  [ {| weekly_performance := [ week "2024-01-01" 1000 100 10 100 300 ] |};
    {| weekly_performance := [ week "2024-01-01" 500 40 5 50 100 ] |} ].

(** One week reported twice, with two different ends. *)
Definition sameWeekTwoEnds : list Campaign :=
  [ {| weekly_performance :=
         [ {| WeeklyPerformance.week_start := "2024-01-01";
              WeeklyPerformance.week_end := "2024-01-07";
              WeeklyPerformance.impressions := 1000; WeeklyPerformance.clicks := 100;
              WeeklyPerformance.conversions := 10; WeeklyPerformance.spend := 100;
              WeeklyPerformance.revenue := 300 |} ] |};
    {| weekly_performance :=
         [ {| WeeklyPerformance.week_start := "2024-01-01";
              WeeklyPerformance.week_end := "2024-01-31";
              WeeklyPerformance.impressions := 500; WeeklyPerformance.clicks := 40;
              WeeklyPerformance.conversions := 5; WeeklyPerformance.spend := 50;
              WeeklyPerformance.revenue := 100 |} ] |} ].

(** No week is named like a member of [Object.prototype]. *)
Definition ordinaryWeeks (cs : list Campaign) : Prop :=
  forall w, In w (allWeeks cs) -> JS.inherited (WeeklyPerformance.week_start w) = false.

(** No record converts more often than it is clicked. *)
Definition conversionsWithinClicks (cs : list Campaign) : Prop :=
  forall w, In w (allWeeks cs) ->
    WeeklyPerformance.conversions w <= WeeklyPerformance.clicks w.

(** A date reader for the sample weeks: the day of January 2024. *)
Definition januaryDay (s : string) : option JS.number :=
  match JS.parseInt (JS.slice 8 s) with
  | Some d => Some (inject_Z d)
  | None => None
  end.

End WeeklyTerms.

Module RegionTerms.
Import Region.

(** The regional records of a list of campaigns, campaign after campaign. *)
Definition allRecords (cs : list Campaign) : list RegionalPerformance.t :=
  flat_map regional_performance cs.

(** The first record, in the order of the loops, of a key. *)
Definition firstRecord (k : string) (cs : list Campaign) : option RegionalPerformance.t :=
  find (fun r => String.eqb (keyOf r) k) (allRecords cs).

(** The geo table has the region. *)
Definition mapped (region : string) : Prop :=
  JS.get region Geo.REGION_COORDINATES <> None.

(** The geo table has the region of every record. *)
Definition allMapped (cs : list Campaign) : Prop :=
  forall r, In r (allRecords cs) -> mapped (RegionalPerformance.region r).

(** No region is named like a member of [Object.prototype]. *)
Definition ordinaryRegions (cs : list Campaign) : Prop :=
  forall r, In r (allRecords cs) -> JS.inherited (RegionalPerformance.region r) = false.

(** The geo lookup of the region returns the fallback: the table has no
    entry of that name, own or inherited. *)
Definition unmapped (region : string) : Prop :=
  JS.inherited region = false /\ Geo.getCoordinates region = Geo.fallback.

(** No regional record has a negative spend or revenue. *)
Definition moneyNonNegative (cs : list Campaign) : Prop :=
  forall r, In r (allRecords cs) ->
    0 <= RegionalPerformance.spend r /\ 0 <= RegionalPerformance.revenue r.

(** What an entry takes from the record that creates it and never
    changes. *)
Definition identity (t : AggregatedRegionalPerformance.t)
  : string * string * JS.number * JS.number :=
  (AggregatedRegionalPerformance.region t, AggregatedRegionalPerformance.country t,
   AggregatedRegionalPerformance.latitude t, AggregatedRegionalPerformance.longitude t).

(** Two regions of the table. *)
Definition twoCities : list Campaign :=
  [ {| regional_performance :=
         [ record "Dubai" "UAE" 2000 100 20 100 300;
           record "Riyadh" "Saudi Arabia" 1000 50 5 60 500 ] |};
    {| regional_performance := [ record "Dubai" "UAE" 1000 50 10 40 100 ] |} ].

End RegionTerms.

Module DemographicTerms.
Import Demographic.

(** The demographic records of a list of campaigns, each with its
    campaign, in the order of the loops. *)
Definition allBreakdowns (cs : list (Campaign.t JS.number))
  : list (Campaign.t JS.number * DemographicBreakdown.t JS.number) :=
  flat_map (fun c => map (pair c) (Campaign.demographic_breakdown c)) cs.

(** What a campaign's redistribution hands out of an amount: all of it
    when the audience total is positive, nothing otherwise. *)
Definition handedOut (amount : Campaign.t JS.number -> JS.number)
  (c : Campaign.t JS.number) : JS.number :=
  if JS.gt (totalCampaignAudiencePercentage exact c) 0 then amount c else 0.

(** Every record is of one of the two genders the page shows. *)
Definition twoGenders (cs : list (Campaign.t JS.number)) : Prop :=
  forall c b, In c cs -> In b (Campaign.demographic_breakdown c) ->
    DemographicBreakdown.gender b = "Male" \/ DemographicBreakdown.gender b = "Female".

(** No age group of the aggregated list is named like a member of
    [Object.prototype]. *)
Definition ordinaryAgeGroups (cs : list (Campaign.t JS.number)) : Prop :=
  forall g, In g (aggregatedList cs) ->
    JS.inherited (AggregatedDemographicGroup.ageGroup g) = false.

(** Every age-group label of the chart starts with a number, which
    [number] gives. *)
Definition labelsNumbered (number : string -> Z) (cs : list (Campaign.t JS.number)) : Prop :=
  forall a, In a (JS.keys (ageDataMap cs)) -> leadingNumber a = Some (number a).

Definition campaignsOf (marketingData : option MarketingData) : list (Campaign.t JS.number) :=
  match marketingData with Some d => campaigns d | None => [] end.

(** A figure of the engagement of a record. *)
Definition engagement (figure : Performance.t JS.number -> JS.number)
  (cb : Campaign.t JS.number * DemographicBreakdown.t JS.number) : JS.number :=
  figure (DemographicBreakdown.performance (snd cb)).

(** The leading number of a label, 0 when it has none. *)
Definition numberOf (a : string) : Z :=
  match leadingNumber a with Some n => n | None => 0%Z end.

(** Scenario 3 of the specification: audience percentages that are all 0,
    with engagement all the same. *)
Definition scenario3 : Campaign.t JS.number :=
  {| Campaign.spend := 200; Campaign.revenue := 500;
     Campaign.demographic_breakdown :=
       [ breakdown "Male" "18-24" 0 1000 100 10;
         breakdown "Female" "18-24" 0 2000 300 20 ] |}.

End DemographicTerms.

(** The accumulation loop the three dictionary-based aggregations share:
    each record creates or updates the entry of its key. *)
Module Grouping.
Section Grouping.
Context {R V : Type}.
Variable key : R -> string.
Variable init : R -> V.
Variable step : R -> V -> V.

Definition grouped (records : list R) (m : JS.object V) : JS.object V :=
  fold_left (fun m r => JS.upsert (key r) (init r) (step r) m) records m.

(** The records of a key, and the first of them. *)
Definition recordsOf (k : string) (records : list R) : list R :=
  filter (fun r => String.eqb (key r) k) records.

Definition firstOf (k : string) (records : list R) : option R :=
  find (fun r => String.eqb (key r) k) records.

End Grouping.
End Grouping.

Module DeviceTerms.
Import Device.

(** The devices of the groups of a response, in order. *)
Definition devices (cs : RawApiResponse) : list string :=
  map AggregatedDeviceData.device (restructureDevicePerformance cs).

(** One of the three counts the records of a device add up to is
    positive. *)
Definition counted (name : string) (cs : RawApiResponse) : Prop :=
  0 < JS.sum (map DevicePerformance.impressions (statsOf name cs))
  \/ 0 < JS.sum (map DevicePerformance.clicks (statsOf name cs))
  \/ 0 < JS.sum (map DevicePerformance.conversions (statsOf name cs)).

(** No record has a negative revenue. *)
Definition revenueNonNegative (cs : RawApiResponse) : Prop :=
  forall s, In s (allStats cs) -> 0 <= DevicePerformance.revenue s.

(** No record has a negative number of conversions, spend or revenue. *)
Definition figuresNonNegative (cs : RawApiResponse) : Prop :=
  forall s, In s (allStats cs) ->
    0 <= DevicePerformance.conversions s
    /\ 0 <= DevicePerformance.spend s
    /\ 0 <= DevicePerformance.revenue s.

(** The records of [sampleBoth], one campaign per record, with a campaign
    that has no device records in between. *)
Definition sampleBothSplit : RawApiResponse :=
  [ {| device_performance := Some [ stat "  Mobile " 100 10 1 (10.004) (30.016) ] |};
    {| device_performance := None |};
    {| device_performance := Some [ stat "Desktop" 200 40 10 20 (50.5) ] |};
    {| device_performance := Some [ stat "Tablet" 50 5 1 7 9 ] |} ].

End DeviceTerms.


(** ** The bar chart of the device page (app/device-view/page.tsx) *)

Module BarChart.

(** A cell of a row, [number | string]. *)
Inductive Cell :=
| Num (v : JS.number)
| Text (s : string).

(** A row, [Record<string, number | string>]. *)
Definition Row := JS.object Cell.

(** One bar as drawn: its key, its width in percent ([None] is NaN) and
    the text written over it.  The CSS classes are left out. *)
Record Bar := {
  key : string;
  barWidth : option JS.number;
  text : string }.

(** One row as drawn: its [metric] and a bar per chart key. *)
Record Line := {
  metric : option Cell;
  bars : list Bar }.

(** What the component renders: the "no data" box, or the legend and the
    rows. *)
Inductive View :=
| NoData
| Chart (legend : list string) (lines : list Line).

Definition lines_of (view : View) : list Line :=
  match view with NoData => [] | Chart _ lines => lines end.

(** [value || 0]: 0 and the empty string are falsy. *)
Definition orZero (value : option Cell) : Cell :=
  match value with
  | None => Num 0
  | Some (Num v) => if JS.strict_eq v 0 then Num 0 else Num v
  | Some (Text s) => if String.eqb s "" then Num 0 else Text s
  end.

(** [value ?? 0]. *)
Definition orZeroWhenMissing (value : option Cell) : Cell :=
  match value with
  | None => Num 0
  | Some cell => cell
  end.

(** [Math.max(first, ...rest)] when an argument may be NaN: the result is
    then NaN. *)
Definition Math_max (first : option JS.number) (rest : list (option JS.number)) :
  option JS.number :=
  fold_left (fun a x => match a, x with
                        | Some a, Some x => Some (Qmax a x)
                        | _, _ => None
                        end) rest first.

(** [keys || Object.keys(data[0]).filter(k => k !== 'metric')]. *)
Definition chartKeys (keys : option (list string)) (first : Row) : list string :=
  match keys with
  | Some ks => ks
  | None => filter (fun k => negb (String.eqb k "metric")) (JS.keys first)
  end.

Section Runtime.

(** [Number(s)] of a string; [None] is NaN. *)
Variable Number_of_string : string -> option JS.number.

(** The [formatValue] prop, given a number (possibly NaN) or [undefined],
    and the row's [metric]. *)
Variable formatValue : option (option JS.number) -> option Cell -> string.

Definition Number (cell : Cell) : option JS.number :=
  match cell with
  | Num v => Some v
  | Text s => Number_of_string s
  end.

Definition maxValue (chartKeys : list string) (data : list Row) : option JS.number :=
  fold_left
    (fun max item =>
       Math_max max (map (fun key => Number (orZero (JS.get key item))) chartKeys))
    data (Some 0).

(** [typeof value === 'number' ? value : (value ? Number(value) : undefined)]. *)
Definition formattedValue (value : option Cell) : option (option JS.number) :=
  match value with
  | Some (Num v) => Some (Some v)
  | Some (Text s) => if String.eqb s "" then None else Some (Number_of_string s)
  | None => None
  end.

(** [maxValue > 0 ? (barValue / maxValue) * 100 : 0]; a comparison with
    NaN is false. *)
Definition barWidth_of (maxValue barValue : option JS.number) : option JS.number :=
  match maxValue with
  | Some m =>
      if JS.gt m 0
      then match barValue with
           | Some b => Some (b / m * 100)
           | None => None
           end
      else Some 0
  | None => Some 0
  end.

Definition bar (maxValue : option JS.number) (item : Row) (key : string) : Bar :=
  let value := JS.get key item in
  let barValue := Number (orZeroWhenMissing value) in
  {| key := key;
     barWidth := barWidth_of maxValue barValue;
     text := formatValue (formattedValue value) (JS.get "metric" item) |}.

Definition line (chartKeys : list string) (maxValue : option JS.number) (item : Row) : Line :=
  {| metric := JS.get "metric" item;
     bars := map (bar maxValue item) chartKeys |}.

Definition BarChart (keys : option (list string)) (data : list Row) : View :=
  match data with
  | [] => NoData
  | first :: _ =>
      let chartKeys := chartKeys keys first in
      let maxValue := maxValue chartKeys data in
      Chart chartKeys (map (line chartKeys maxValue) data)
  end.

End Runtime.

(** The [chartData] of the device page, from its two groups. *)
Definition chartData (mobileData desktopData : Device.AggregatedDeviceData.t) : list Row :=
  [ [ ("metric", Text "Revenue");
      ("Mobile", Num (Device.AggregatedDeviceData.total_revenue mobileData));
      ("Desktop", Num (Device.AggregatedDeviceData.total_revenue desktopData)) ];
    [ ("metric", Text "Conversions");
      ("Mobile", Num (Device.AggregatedDeviceData.total_conversions mobileData));
      ("Desktop", Num (Device.AggregatedDeviceData.total_conversions desktopData)) ];
    [ ("metric", Text "Total Spend");
      ("Mobile", Num (Device.AggregatedDeviceData.total_spend mobileData));
      ("Desktop", Num (Device.AggregatedDeviceData.total_spend desktopData)) ] ].

(** The chart of the device page,
    [<BarChart data={chartData} formatValue={customChartFormatter} />]:
    it is drawn when the fetch succeeded and both groups were found. *)
Definition pageChart (Number_of_string : string -> option JS.number)
  (customChartFormatter : option (option JS.number) -> option Cell -> string)
  (fetched : Device.Fetched) : option View :=
  match fetched with
  | Device.Failed _ => None
  | Device.Loaded rawData =>
      let deviceData := Device.restructureDevicePerformance rawData in
      match Device.findDevice "Mobile" deviceData, Device.findDevice "Desktop" deviceData with
      | Some mobileData, Some desktopData =>
          Some (BarChart Number_of_string customChartFormatter None
                  (chartData mobileData desktopData))
      | _, _ => None
      end
  end.

End BarChart.

Module BarTerms.

(** Every chart key holds, in every row, a number that is 0 or more. *)
Definition plain (chartKeys : list string) (data : list BarChart.Row) : Prop :=
  forall item key, In item data -> In key chartKeys ->
    exists v, JS.get key item = Some (BarChart.Num v) /\ 0 <= v.

(** The number a chart key holds in a row. *)
Definition held (item : BarChart.Row) (key : string) (v : JS.number) : Prop :=
  JS.get key item = Some (BarChart.Num v).

(** The keys the chart of [data] draws. *)
Definition keysOf (keys : option (list string)) (data : list BarChart.Row) : list string :=
  match data with
  | [] => []
  | first :: _ => BarChart.chartKeys keys first
  end.

(** Two rows of two bars. *)
Definition sample : list BarChart.Row :=
  [ [ ("metric", BarChart.Text "Revenue");
      ("Mobile", BarChart.Num 30); ("Desktop", BarChart.Num 60) ];
    [ ("metric", BarChart.Text "Conversions");
      ("Mobile", BarChart.Num 0); ("Desktop", BarChart.Num 15) ] ].

End BarTerms.

(** ** The doubles of the runtime *)

(** Where a figure is rounded for display the result depends on the
    binary64 value the runtime holds, not on the rational it stands for:
    this module reads [Number.prototype.toFixed] and [parseFloat] on
    doubles, and [DeviceDoubles] below reads the device aggregation with
    them. *)
Module Float64.

Abbreviation double := PrimFloat.float.

(** The real number a double stands for; [None] for NaN and the two
    infinities. *)
Definition value (x : double) : option Q :=
  match FloatOps.Prim2SF x with
  | SpecFloat.S754_zero _ => Some 0
  | SpecFloat.S754_finite negative m e =>
      Some ((if negative then - inject_Z (Zpos m) else inject_Z (Zpos m)) * Qpower 2 e)
  | SpecFloat.S754_infinity _ => None
  | SpecFloat.S754_nan => None
  end.

(** Neither NaN nor an infinity. *)
Definition finite (x : double) : bool :=
  match FloatOps.Prim2SF x with
  | SpecFloat.S754_zero _ => true
  | SpecFloat.S754_finite _ _ _ => true
  | SpecFloat.S754_infinity _ => false
  | SpecFloat.S754_nan => false
  end.

(** [x > y]. *)
Definition gt (x y : double) : bool := PrimFloat.ltb y x.

(** The number 100. *)
Definition hundred : double := Eval cbv in PrimFloat.of_uint63 (Uint63Axioms.of_Z 100).

(** The double nearest to [n / d], a tie going to the even mantissa: what
    reading a decimal numeral gives.  [n] is not negative and [d] is
    positive. *)
Definition nearest (n d : Z) : double :=
  match n, d with
  | Zpos p, Zpos q =>
      FloatOps.SF2Prim
        (SpecFloat.SFdiv FloatOps.prec FloatOps.emax
           (SpecFloat.S754_finite false p 0) (SpecFloat.S754_finite false q 0))
  | _, _ => PrimFloat.zero
  end.

(** [parseFloat] of the numeral [toFixed(2)] writes for [n] hundredths,
    with a minus sign in front when [negative]. *)
Definition readBack (negative : bool) (n : Z) : double :=
  if negative then PrimFloat.opp (nearest n 100) else nearest n 100.

(** [parseFloat(x.toFixed(2))].  [toFixed] works on the real number [x]
    stands for: a negative [x] is written as the minus sign followed by
    the digits of [-x], the digits being those of the integer [n] for which
    [n / 100 - x] is closest to zero (the larger on a tie); NaN, the
    infinities and the numbers from 10^21 on are written as [String(x)]
    writes them, and read back as themselves. *)
Definition toFixed2 (x : double) : double :=
  match value x with
  | None => x
  | Some v =>
      if Qle_bool (1000000000000000000000 # 1) (Qabs v) then x
      else if JS.gt 0 v then readBack true (JS.nearest_hundredth (- v))
      else readBack false (JS.nearest_hundredth v)
  end.

(** [r] is [x] rounded to two decimals: when [x] stands for a real number
    below 10^21 in absolute value, [r] is read back from a whole number of
    hundredths at most half a hundredth away from it. *)
Definition roundedTo2 (x r : double) : Prop :=
  forall v, value x = Some v -> Qabs v < 1000000000000000000000 # 1 ->
    exists (negative : bool) (n : Z),
      (0 <= n)%Z
      /\ r = readBack negative n
      /\ Qabs ((if negative then - (inject_Z n / 100) else inject_Z n / 100) - v) <= 1 # 200.

End Float64.

(** ** Device aggregation in doubles (app/device-view/page.tsx) *)

(** [restructureDevicePerformance] again, with the numbers the runtime
    computes with. *)
Module DeviceDoubles.
Import Float64.

Module DevicePerformance.
(** [device] is [None] when the field is missing or null. *)
Record t := {
  device : option string;
  impressions : double;
  clicks : double;
  conversions : double;
  spend : double;
  revenue : double;
  ctr : double;
  conversion_rate : double }.
End DevicePerformance.

Record Campaign := { device_performance : option (list DevicePerformance.t) }.

Definition RawApiResponse := list Campaign.

(** A value of [aggregatedDataMap]. *)
Module Totals.
Record t := {
  impressions : double;
  clicks : double;
  conversions : double;
  spend : double;
  revenue : double }.
End Totals.

Module AggregatedDeviceData.
Record t := {
  device : string;
  total_impressions : double;
  total_clicks : double;
  total_conversions : double;
  total_spend : double;
  total_revenue : double;
  average_ctr : double;
  average_conversion_rate : double }.
End AggregatedDeviceData.

Definition zeroTotals : Totals.t :=
  {| Totals.impressions := PrimFloat.zero; Totals.clicks := PrimFloat.zero;
     Totals.conversions := PrimFloat.zero; Totals.spend := PrimFloat.zero;
     Totals.revenue := PrimFloat.zero |}.

Definition initialMap : list (string * Totals.t) :=
  [("Mobile", zeroTotals); ("Desktop", zeroTotals)].

(** [stat.device ? stat.device.trim() : ''].  The empty string is falsy. *)
Definition deviceKey (stat : DevicePerformance.t) : string :=
  match DevicePerformance.device stat with
  | Some d => if String.eqb d "" then "" else JS.trim d
  | None => ""
  end.

(** The five [+=] on [current]. *)
Definition addStat (stat : DevicePerformance.t) (current : Totals.t) : Totals.t :=
  {| Totals.impressions :=
       PrimFloat.add (Totals.impressions current) (DevicePerformance.impressions stat);
     Totals.clicks := PrimFloat.add (Totals.clicks current) (DevicePerformance.clicks stat);
     Totals.conversions :=
       PrimFloat.add (Totals.conversions current) (DevicePerformance.conversions stat);
     Totals.spend := PrimFloat.add (Totals.spend current) (DevicePerformance.spend stat);
     Totals.revenue := PrimFloat.add (Totals.revenue current) (DevicePerformance.revenue stat) |}.

(** [aggregatedDataMap.get(key)] followed by the updates of the object it
    returns. *)
Definition updateCurrent (key : string) (f : Totals.t -> Totals.t)
  (m : list (string * Totals.t)) : list (string * Totals.t) :=
  map (fun entry => if String.eqb (fst entry) key then (fst entry, f (snd entry)) else entry) m.

Definition accumulateStat (m : list (string * Totals.t)) (stat : DevicePerformance.t)
  : list (string * Totals.t) :=
  let key := deviceKey stat in
  if String.eqb key "Mobile" || String.eqb key "Desktop"
  then updateCurrent key (addStat stat) m
  else m.

Definition accumulateCampaign (m : list (string * Totals.t)) (campaign : Campaign)
  : list (string * Totals.t) :=
  match device_performance campaign with
  | None => m
  | Some stats => fold_left accumulateStat stats m
  end.

Definition aggregatedDataMap (cs : RawApiResponse) : list (string * Totals.t) :=
  fold_left accumulateCampaign cs initialMap.

(** [data.impressions > 0 ? (data.clicks / data.impressions) * 100 : 0]. *)
Definition percentage (num den : double) : double :=
  if gt den PrimFloat.zero
  then PrimFloat.mul (PrimFloat.div num den) hundred
  else PrimFloat.zero.

(** The body of the last loop: what one entry pushes to [results]. *)
Definition emit (entry : string * Totals.t) : list AggregatedDeviceData.t :=
  let '(device, data) := entry in
  if gt (Totals.impressions data) PrimFloat.zero || gt (Totals.clicks data) PrimFloat.zero
     || gt (Totals.conversions data) PrimFloat.zero
  then
    let average_ctr := percentage (Totals.clicks data) (Totals.impressions data) in
    let average_conversion_rate :=
      percentage (Totals.conversions data) (Totals.clicks data) in
    [ {| AggregatedDeviceData.device := device;
         AggregatedDeviceData.total_impressions := Totals.impressions data;
         AggregatedDeviceData.total_clicks := Totals.clicks data;
         AggregatedDeviceData.total_conversions := Totals.conversions data;
         AggregatedDeviceData.total_spend := toFixed2 (Totals.spend data);
         AggregatedDeviceData.total_revenue := toFixed2 (Totals.revenue data);
         AggregatedDeviceData.average_ctr := toFixed2 average_ctr;
         AggregatedDeviceData.average_conversion_rate :=
           toFixed2 average_conversion_rate |} ]
  else [].

Definition restructureDevicePerformance (cs : RawApiResponse) : list AggregatedDeviceData.t :=
  match cs with
  | [] => []
  | _ :: _ => flat_map emit (aggregatedDataMap cs)
  end.

(** *** Vocabulary of the statements about the doubles *)

(** The records of a response, campaign after campaign. *)
Definition allStats (cs : RawApiResponse) : list DevicePerformance.t :=
  flat_map (fun campaign =>
              match device_performance campaign with
              | Some stats => stats
              | None => []
              end) cs.

(** The records of one device, in the order of the loops. *)
Definition statsOf (name : string) (cs : RawApiResponse) : list DevicePerformance.t :=
  filter (fun stat => String.eqb (deviceKey stat) name) (allStats cs).

(** What the records of one device add up to, from [start]. *)
Definition tally (name : string) (stats : list DevicePerformance.t) (start : Totals.t)
  : Totals.t :=
  fold_left (fun current stat =>
               if String.eqb (deviceKey stat) name then addStat stat current else current)
            stats start.

(** A figure of the records of a device, added up as the loop does: from
    0, record after record. *)
Definition accumulated (figure : DevicePerformance.t -> double) (name : string)
  (cs : RawApiResponse) : double :=
  fold_left (fun sum stat => PrimFloat.add sum (figure stat)) (statsOf name cs) PrimFloat.zero.

(** The double a decimal numeral with [n] thousandths is read as. *)
Definition thousandths (n : Z) : double := nearest n 1000.

Definition stat (device : string) (impressions clicks conversions : Z) (spend revenue : double)
  : DevicePerformance.t :=
  {| DevicePerformance.device := Some device;
     DevicePerformance.impressions := nearest impressions 1;
     DevicePerformance.clicks := nearest clicks 1;
     DevicePerformance.conversions := nearest conversions 1;
     DevicePerformance.spend := spend;
     DevicePerformance.revenue := revenue;
     DevicePerformance.ctr := PrimFloat.zero;
     DevicePerformance.conversion_rate := PrimFloat.zero |}.

(** 23 clicks on 160 impressions, a spend of 1.005 and a revenue of
    10.004 on Mobile; 1 click on 8 impressions on Desktop. *)
Definition sample : RawApiResponse :=
  [ {| device_performance :=
         Some [ stat "Mobile" 160 23 2 (thousandths 1005) (thousandths 10004);
                stat "Desktop" 8 1 0 (thousandths 2500) (thousandths 7125) ] |} ].

End DeviceDoubles.
(** * Facts about the runtime model *)

Module JSFacts.

Lemma gt_true (x y : Q) : JS.gt x y = true <-> y < x.
Proof.
  unfold JS.gt. rewrite (Qgt_alt x y).
  destruct (x ?= y); split; congruence.
Qed.

Lemma gt_false (x y : Q) : JS.gt x y = false <-> x <= y.
Proof.
  unfold JS.gt. rewrite Qle_alt.
  destruct (x ?= y); split; congruence.
Qed.

Lemma strict_eq_true (x y : Q) : JS.strict_eq x y = true <-> x == y.
Proof. apply Qeq_bool_iff. Qed.

Lemma strict_ne_true (x y : Q) : JS.strict_ne x y = true <-> ~ x == y.
Proof.
  unfold JS.strict_ne. rewrite negb_true_iff, <- not_true_iff_false.
  now rewrite Qeq_bool_iff.
Qed.

(** The guarded quotient [den > 0 ? num / den : 0] that every rate is. *)
Lemma rate_nonneg (num den : Q) :
  0 <= num -> 0 <= (if JS.gt den 0 then num / den else 0).
Proof.
  intros Hn. destruct (JS.gt den 0) eqn:E; [|lra].
  apply gt_true in E. apply Qle_shift_div_l; lra.
Qed.

Lemma rate_at_most_one (num den : Q) :
  num <= den -> (if JS.gt den 0 then num / den else 0) <= 1.
Proof.
  intros Hn. destruct (JS.gt den 0) eqn:E; [|lra].
  apply gt_true in E. apply Qle_shift_div_r; lra.
Qed.

Lemma rate_zero_denominator (num den : Q) :
  den == 0 -> (if JS.gt den 0 then num / den else 0) = 0.
Proof.
  intros Hd. destruct (JS.gt den 0) eqn:E; [|reflexivity].
  apply gt_true in E. lra.
Qed.

(** Sums. *)
Lemma fold_plus_acc (xs : list Q) (a : Q) :
  fold_left Qplus xs a == a + JS.sum xs.
Proof.
  unfold JS.sum. revert a.
  induction xs as [|x xs IH]; intros a; simpl.
  - lra.
  - rewrite (IH (a + x)), (IH (0 + x)). lra.
Qed.

Lemma sum_cons (x : Q) (xs : list Q) : JS.sum (x :: xs) == x + JS.sum xs.
Proof. unfold JS.sum at 1. simpl. rewrite fold_plus_acc. lra. Qed.

Lemma sum_app (xs ys : list Q) : JS.sum (xs ++ ys) == JS.sum xs + JS.sum ys.
Proof.
  induction xs as [|x xs IH]; simpl.
  - unfold JS.sum at 2. simpl. lra.
  - rewrite !sum_cons, IH. lra.
Qed.

Lemma sum_permutation (xs ys : list Q) :
  Permutation xs ys -> JS.sum xs == JS.sum ys.
Proof.
  induction 1 as [|x xs ys _ IH|x y xs|xs ys zs _ IH1 _ IH2].
  - reflexivity.
  - rewrite !sum_cons, IH. reflexivity.
  - rewrite !sum_cons. lra.
  - now rewrite IH1.
Qed.

Lemma sum_nonneg (xs : list Q) : Forall (fun x => 0 <= x) xs -> 0 <= JS.sum xs.
Proof.
  induction 1 as [|x xs Hx _ IH].
  - unfold JS.sum. simpl. lra.
  - rewrite sum_cons. lra.
Qed.

(** A loop keeps what each of its steps keeps. *)
Lemma fold_left_keeps {A B : Type} (P : A -> Prop) (f : A -> B -> A) (l : list B) :
  (forall a x, In x l -> P a -> P (f a x)) ->
  forall a, P a -> P (fold_left f l a).
Proof.
  induction l as [|x l IH]; intros Hstep a Ha; simpl.
  - exact Ha.
  - apply IH.
    + intros a' y Hy. apply Hstep. now right.
    + apply Hstep; [now left | exact Ha].
Qed.

(** A loop reaches what one of its steps establishes and the others keep. *)
Lemma fold_left_reaches {A B : Type} (P : A -> Prop) (f : A -> B -> A) (l : list B) (x : B) :
  In x l ->
  (forall a, P (f a x)) ->
  (forall a y, P a -> P (f a y)) ->
  forall a, P (fold_left f l a).
Proof.
  intros Hx Hset Hkeep. induction l as [|y l IH]; intros a; simpl; [destruct Hx|].
  destruct Hx as [->|Hx].
  - apply fold_left_keeps; [|apply Hset]. intros a' y _. apply Hkeep.
  - now apply IH.
Qed.

(** Sorting reorders and nothing else. *)
Lemma sort_insert_permutation {A : Type} (cmp : A -> A -> option JS.number) (a : A) (l : list A) :
  Permutation (JS.sort_insert cmp a l) (a :: l).
Proof.
  induction l as [|b l IH]; simpl.
  - reflexivity.
  - destruct (JS.after cmp a b).
    + rewrite IH. apply perm_swap.
    + reflexivity.
Qed.

Lemma sort_permutation {A : Type} (cmp : A -> A -> option JS.number) (l : list A) :
  Permutation (JS.sort cmp l) l.
Proof.
  induction l as [|a l IH]; simpl.
  - reflexivity.
  - unfold JS.sort in *. simpl. rewrite sort_insert_permutation. now constructor.
Qed.

(** Dictionaries. *)
Section DictionaryFacts.
Context {V : Type}.
Implicit Types (o : JS.object V) (k : string) (v : V).

Lemma get_In k o v : JS.get k o = Some v -> In (k, v) o.
Proof.
  induction o as [|[k' v'] o IH]; simpl; [discriminate|].
  destruct (String.eqb_spec k' k) as [->|_].
  - intros [= ->]. now left.
  - intros H. right. now apply IH.
Qed.

Lemma get_None k o : JS.get k o = None -> ~ In k (map fst o).
Proof.
  induction o as [|[k' v'] o IH]; simpl; [tauto|].
  destruct (String.eqb_spec k' k) as [->|Hne]; [discriminate|].
  intros H [Hk|Hk]; [congruence | now apply IH].
Qed.

Lemma In_get k v o : NoDup (map fst o) -> In (k, v) o -> JS.get k o = Some v.
Proof.
  induction o as [|[k' v'] o IH]; simpl; [tauto|].
  intros Hnd [Heq|Hin]; inversion Hnd as [|? ? Hnot Hnd']; subst.
  - injection Heq as -> ->. now rewrite String.eqb_refl.
  - destruct (String.eqb_spec k' k) as [->|_].
    + exfalso. apply Hnot. now apply (in_map fst) in Hin.
    + now apply IH.
Qed.

Lemma In_set k v o k' v' :
  In (k', v') (JS.set k v o) -> (k' = k /\ v' = v) \/ In (k', v') o.
Proof.
  induction o as [|[k0 v0] o IH]; simpl.
  - intros [[= <- <-]|[]]. now left.
  - destruct (String.eqb_spec k0 k) as [->|_]; simpl.
    + intros [[= <- <-]|Hin]; [now left | right; now right].
    + intros [Heq|Hin]; [right; now left|].
      destruct (IH Hin) as [?|?]; [now left | right; now right].
Qed.

Lemma set_get_same k v o : JS.get k (JS.set k v o) = Some v.
Proof.
  induction o as [|[k0 v0] o IH]; simpl.
  - now rewrite String.eqb_refl.
  - destruct (String.eqb_spec k0 k) as [->|Hne]; simpl.
    + now rewrite String.eqb_refl.
    + apply String.eqb_neq in Hne. now rewrite Hne.
Qed.

Lemma set_get_other k v o k' : k' <> k -> JS.get k' (JS.set k v o) = JS.get k' o.
Proof.
  intros Hne. induction o as [|[k0 v0] o IH]; simpl.
  - apply not_eq_sym, String.eqb_neq in Hne. now rewrite Hne.
  - destruct (String.eqb_spec k0 k) as [->|_]; simpl.
    + apply not_eq_sym, String.eqb_neq in Hne. now rewrite Hne.
    + now rewrite IH.
Qed.

Lemma set_keys k v o :
  map fst (JS.set k v o)
  = match JS.get k o with Some _ => map fst o | None => (map fst o ++ [k])%list end.
Proof.
  induction o as [|[k0 v0] o IH]; simpl; [reflexivity|].
  destruct (String.eqb_spec k0 k) as [->|_]; simpl; [reflexivity|].
  rewrite IH. now destruct (JS.get k o).
Qed.

Lemma set_NoDup k v o : NoDup (map fst o) -> NoDup (map fst (JS.set k v o)).
Proof.
  intros Hnd. rewrite set_keys. destruct (JS.get k o) eqn:E; [exact Hnd|].
  apply get_None in E.
  apply (Permutation_NoDup (l := k :: map fst o)).
  - apply Permutation_cons_append.
  - now constructor.
Qed.

(** The accumulation step creates or updates the entry of its key and
    leaves the others alone. *)
Lemma upsert_get_same k init f o :
  JS.get k (JS.upsert k init f o)
  = Some (f (match JS.get k o with Some v => v | None => init end)).
Proof. unfold JS.upsert. destruct (JS.get k o); apply set_get_same. Qed.

Lemma upsert_get_other k init f o k' :
  k' <> k -> JS.get k' (JS.upsert k init f o) = JS.get k' o.
Proof. intros Hne. unfold JS.upsert. destruct (JS.get k o); now apply set_get_other. Qed.

Lemma upsert_keeps_key k init f o k' :
  JS.get k' o <> None -> JS.get k' (JS.upsert k init f o) <> None.
Proof.
  intros Hk. destruct (string_dec k' k) as [->|Hne].
  - now rewrite upsert_get_same.
  - now rewrite upsert_get_other.
Qed.

Lemma upsert_NoDup k init f o :
  NoDup (map fst o) -> NoDup (map fst (JS.upsert k init f o)).
Proof. intros Hnd. unfold JS.upsert. destruct (JS.get k o); now apply set_NoDup. Qed.

Lemma upsert_Forall (P : string -> V -> Prop) k init f o :
  Forall (fun e => P (fst e) (snd e)) o ->
  P k (f init) ->
  (forall v, P k v -> P k (f v)) ->
  Forall (fun e => P (fst e) (snd e)) (JS.upsert k init f o).
Proof.
  intros Ho Hinit Hstep. rewrite Forall_forall in *.
  intros [k' v'] Hin. simpl. unfold JS.upsert in Hin.
  destruct (JS.get k o) as [v|] eqn:E; apply In_set in Hin as [[-> ->]|Hin].
  - apply Hstep. apply get_In in E. exact (Ho _ E).
  - exact (Ho _ Hin).
  - exact Hinit.
  - exact (Ho _ Hin).
Qed.

Lemma insert_index_permutation (p : string * V) o :
  Permutation (JS.insert_index p o) (p :: o).
Proof.
  induction o as [|q o IH]; simpl; [reflexivity|].
  destruct (JS.array_index (fst p)); [|reflexivity].
  destruct (JS.array_index (fst q)); [|reflexivity].
  destruct (_ <=? _)%Z; [reflexivity|].
  rewrite IH. apply perm_swap.
Qed.

(** Enumeration reorders the own properties and nothing else. *)
Lemma entries_permutation o : Permutation (JS.entries o) o.
Proof.
  unfold JS.entries.
  assert (Hs : forall l : JS.object V, Permutation (fold_right JS.insert_index [] l) l).
  { induction l as [|p l IH]; simpl; [reflexivity|].
    rewrite insert_index_permutation. now constructor. }
  rewrite Hs. clear Hs.
  induction o as [|p o IH]; simpl; [reflexivity|].
  destruct (JS.is_array_index p); simpl.
  - now constructor.
  - rewrite <- Permutation_middle. now constructor.
Qed.

Lemma In_entries (e : string * V) o : In e (JS.entries o) <-> In e o.
Proof.
  split; apply Permutation_in; [|symmetry]; apply entries_permutation.
Qed.

Lemma In_values v o : In v (JS.values o) <-> exists k, In (k, v) o.
Proof.
  unfold JS.values. rewrite in_map_iff. split.
  - intros [[k v'] [<- Hin]]. exists k. now apply In_entries.
  - intros [k Hin]. exists (k, v). split; [reflexivity | now apply In_entries].
Qed.

(** The total of a measure over the entries, through an accumulation
    step that adds [delta] to the measure of its entry. *)
Lemma set_sum (mu : V -> Q) k v o :
  JS.sum (map mu (map snd (JS.set k v o)))
  == JS.sum (map mu (map snd o)) + mu v
     - match JS.get k o with Some v0 => mu v0 | None => 0 end.
Proof.
  induction o as [|[k0 v0] o IH]; cbn [JS.set JS.get map snd].
  - rewrite sum_cons. lra.
  - destruct (String.eqb k0 k); cbn [map snd].
    + rewrite !sum_cons. lra.
    + rewrite !sum_cons, IH. lra.
Qed.

Lemma upsert_sum (mu : V -> Q) k init f o (delta : Q) :
  mu init == 0 ->
  (forall v0, mu (f v0) == mu v0 + delta) ->
  JS.sum (map mu (map snd (JS.upsert k init f o)))
  == JS.sum (map mu (map snd o)) + delta.
Proof.
  intros Hinit Hstep. unfold JS.upsert.
  destruct (JS.get k o) as [v0|] eqn:E; rewrite set_sum, E, Hstep; lra.
Qed.

Lemma values_sum (mu : V -> Q) o :
  JS.sum (map mu (JS.values o)) == JS.sum (map mu (map snd o)).
Proof.
  apply sum_permutation. unfold JS.values.
  apply Permutation_map, Permutation_map, entries_permutation.
Qed.

End DictionaryFacts.

End JSFacts.

(** * Rounding to two decimals *)

Module RoundingFacts.

Lemma nearest_hundredth_close (x : Q) :
  - (1 # 200) < inject_Z (JS.nearest_hundredth x) / 100 - x
  /\ inject_Z (JS.nearest_hundredth x) / 100 - x <= 1 # 200.
Proof.
  unfold JS.nearest_hundredth.
  pose proof (Qfloor_le (x * 100 + (1 # 2))) as Hlo.
  pose proof (Qlt_floor (x * 100 + (1 # 2))) as Hhi.
  rewrite inject_Z_plus in Hhi.
  set (n := inject_Z (Qfloor (x * 100 + (1 # 2)))) in *.
  change (inject_Z 1) with 1 in Hhi.
  split.
  - apply Qlt_minus_iff. apply Qlt_minus_iff in Hhi.
    setoid_replace (n / 100 - x + - - (1 # 200))
      with ((n + 1 + - (x * 100 + (1 # 2))) * (1 # 100)) by field.
    apply Qmult_lt_0_compat; [exact Hhi | reflexivity].
  - apply Qle_minus_iff. apply Qle_minus_iff in Hlo.
    setoid_replace ((1 # 200) + - (n / 100 - x))
      with ((x * 100 + (1 # 2) + - n) * (1 # 100)) by field.
    apply Qmult_le_0_compat; [exact Hlo | discriminate].
Qed.

Lemma toFixed2_small (x : Q) :
  Qabs x < 1000000000000000000000 # 1 ->
  JS.toFixed2 x = if JS.gt 0 x then - (inject_Z (JS.nearest_hundredth (- x)) / 100)
                  else inject_Z (JS.nearest_hundredth x) / 100.
Proof.
  intros Hx. unfold JS.toFixed2.
  destruct (Qle_bool _ (Qabs x)) eqn:E; [|reflexivity].
  apply Qle_bool_iff in E. lra.
Qed.

Lemma nearest_hundredth_nonneg (x : Q) : 0 <= x -> (0 <= JS.nearest_hundredth x)%Z.
Proof.
  intros Hx. unfold JS.nearest_hundredth.
  change 0%Z with (Qfloor 0). apply Qfloor_resp_le. lra.
Qed.

Lemma toFixed2_nonneg (x : Q) : 0 <= x -> 0 <= JS.toFixed2 x.
Proof.
  intros Hx. unfold JS.toFixed2.
  destruct (Qle_bool _ (Qabs x)); [exact Hx|].
  destruct (JS.gt 0 x) eqn:E.
  - apply JSFacts.gt_true in E. lra.
  - apply nearest_hundredth_nonneg in Hx.
    apply Qle_shift_div_l; [reflexivity|].
    rewrite Qmult_0_l. change 0 with (inject_Z 0). now rewrite <- Zle_Qle.
Qed.

(** A percentage that is at most 100 is still at most 100 once rounded. *)
Lemma toFixed2_at_most_100 (x : Q) : 0 <= x -> x <= 100 -> JS.toFixed2 x <= 100.
Proof.
  intros H0 Hx. rewrite toFixed2_small.
  2:{ rewrite Qabs_pos by exact H0. lra. }
  destruct (JS.gt 0 x) eqn:E.
  - apply JSFacts.gt_true in E. lra.
  - apply Qle_shift_div_r; [reflexivity|].
    unfold JS.nearest_hundredth.
    setoid_replace (100 * 100) with (inject_Z 10000) by reflexivity.
    rewrite <- Zle_Qle.
    change 10000%Z with (Qfloor (inject_Z 10000 + (1 # 2))).
    apply Qfloor_resp_le.
    setoid_replace (inject_Z 10000) with (100 * 100) by reflexivity. lra.
Qed.

End RoundingFacts.

(** * Device aggregation *)

Module DeviceFacts.
Import Device.

Lemma accumulateStat_pair (a b : Totals.t) (s : DevicePerformance.t) :
  accumulateStat [("Mobile", a); ("Desktop", b)] s
  = [("Mobile", if String.eqb (deviceKey s) "Mobile" then addStat s a else a);
     ("Desktop", if String.eqb (deviceKey s) "Desktop" then addStat s b else b)].
Proof.
  unfold accumulateStat, updateCurrent. cbn [map fst snd].
  rewrite (String.eqb_sym "Mobile"), (String.eqb_sym "Desktop").
  destruct (String.eqb_spec (deviceKey s) "Mobile") as [->|_]; [reflexivity|].
  now destruct (String.eqb (deviceKey s) "Desktop").
Qed.

Lemma accumulateStats_pair (stats : list DevicePerformance.t) (a b : Totals.t) :
  fold_left accumulateStat stats [("Mobile", a); ("Desktop", b)]
  = [("Mobile", tally "Mobile" stats a); ("Desktop", tally "Desktop" stats b)].
Proof.
  revert a b. induction stats as [|s stats IH]; intros a b; simpl; [reflexivity|].
  now rewrite accumulateStat_pair, IH.
Qed.

Lemma tally_app (name : string) (xs ys : list DevicePerformance.t) (start : Totals.t) :
  tally name (xs ++ ys) start = tally name ys (tally name xs start).
Proof. apply fold_left_app. Qed.

Lemma accumulateCampaigns_pair (cs : RawApiResponse) (a b : Totals.t) :
  fold_left accumulateCampaign cs [("Mobile", a); ("Desktop", b)]
  = [("Mobile", tally "Mobile" (allStats cs) a);
     ("Desktop", tally "Desktop" (allStats cs) b)].
Proof.
  revert a b. induction cs as [|c cs IH]; intros a b; simpl; [reflexivity|].
  unfold accumulateCampaign at 2.
  destruct (device_performance c) as [stats|]; simpl.
  - now rewrite accumulateStats_pair, IH, !tally_app.
  - apply IH.
Qed.

(** The map always holds the two tracked devices, in this order, each with
    the tally of its own records. *)
Lemma aggregatedDataMap_pair (cs : RawApiResponse) :
  aggregatedDataMap cs
  = [("Mobile", tally "Mobile" (allStats cs) zeroTotals);
     ("Desktop", tally "Desktop" (allStats cs) zeroTotals)].
Proof. apply accumulateCampaigns_pair. Qed.

Lemma emit_device (entry : string * Totals.t) (g : AggregatedDeviceData.t) :
  In g (emit entry) ->
  emit entry = [g] /\ AggregatedDeviceData.device g = fst entry.
Proof.
  destruct entry as [name data]. unfold emit.
  destruct (_ || _); simpl; [|tauto].
  intros [<-|[]]. now split.
Qed.

Lemma emit_cases (entry : string * Totals.t) :
  emit entry = [] \/ exists g, emit entry = [g] /\ AggregatedDeviceData.device g = fst entry.
Proof.
  destruct (emit entry) as [|g rest] eqn:E; [now left | right].
  exists g. destruct (emit_device entry g) as [H1 H2]; [rewrite E; now left|].
  rewrite <- E. now split.
Qed.

Lemma restructure_unfold (cs : RawApiResponse) :
  restructureDevicePerformance cs
  = match cs with
    | [] => []
    | _ :: _ => (emit ("Mobile", tally "Mobile" (allStats cs) zeroTotals)
                 ++ emit ("Desktop", tally "Desktop" (allStats cs) zeroTotals))%list
    end.
Proof.
  destruct cs as [|c cs]; [reflexivity|].
  unfold restructureDevicePerformance. rewrite aggregatedDataMap_pair.
  simpl. now rewrite app_nil_r.
Qed.

(** Every group comes from one of the two entries of the map. *)
Lemma In_restructure (cs : RawApiResponse) (g : AggregatedDeviceData.t) :
  In g (restructureDevicePerformance cs) ->
  exists data, In (AggregatedDeviceData.device g, data) (aggregatedDataMap cs)
               /\ emit (AggregatedDeviceData.device g, data) = [g].
Proof.
  unfold restructureDevicePerformance. destruct cs as [|c cs]; [intros []|].
  rewrite in_flat_map. intros [[name data] [Hin Hg]].
  apply emit_device in Hg as [Hg Hd]. simpl in Hd. subst name.
  now exists data.
Qed.

(** Records that are not counted leave the map as it is. *)
Lemma accumulate_recognised_only (stats : list DevicePerformance.t) (m : list (string * Totals.t)) :
  fold_left accumulateStat (filter recognised stats) m = fold_left accumulateStat stats m.
Proof.
  revert m. induction stats as [|s stats IH]; intros m; simpl; [reflexivity|].
  destruct (recognised s) eqn:E; simpl.
  - apply IH.
  - rewrite IH. f_equal. unfold accumulateStat. unfold recognised in E. now rewrite E.
Qed.

Lemma accumulateCampaign_withoutOthers (m : list (string * Totals.t)) (c : Campaign) :
  accumulateCampaign m (withoutOthers c) = accumulateCampaign m c.
Proof.
  unfold accumulateCampaign, withoutOthers. simpl.
  destruct (device_performance c); simpl; [apply accumulate_recognised_only | reflexivity].
Qed.

Lemma restructure_withoutOthers (cs : RawApiResponse) :
  restructureDevicePerformance (map withoutOthers cs) = restructureDevicePerformance cs.
Proof.
  assert (H : forall m, fold_left accumulateCampaign (map withoutOthers cs) m
                        = fold_left accumulateCampaign cs m).
  { induction cs as [|c cs IH]; intros m; simpl; [reflexivity|].
    now rewrite accumulateCampaign_withoutOthers, IH. }
  unfold restructureDevicePerformance, aggregatedDataMap. rewrite H.
  now destruct cs.
Qed.

End DeviceFacts.

(** * Claims about the device aggregation *)

Module DeviceTallies.
Import Device.

(** The tally of a device is the sum, field by field, of its records. *)
Lemma tally_sums (name : string) (stats : list DevicePerformance.t) (start : Totals.t) :
  let mine := filter (fun s => String.eqb (deviceKey s) name) stats in
  Totals.impressions (tally name stats start)
    == Totals.impressions start + JS.sum (map DevicePerformance.impressions mine)
  /\ Totals.clicks (tally name stats start)
    == Totals.clicks start + JS.sum (map DevicePerformance.clicks mine)
  /\ Totals.conversions (tally name stats start)
    == Totals.conversions start + JS.sum (map DevicePerformance.conversions mine)
  /\ Totals.spend (tally name stats start)
    == Totals.spend start + JS.sum (map DevicePerformance.spend mine)
  /\ Totals.revenue (tally name stats start)
    == Totals.revenue start + JS.sum (map DevicePerformance.revenue mine).
Proof.
  revert start. induction stats as [|s stats IH]; intros start; simpl.
  - unfold JS.sum; simpl. repeat split; lra.
  - destruct (String.eqb (deviceKey s) name); simpl.
    + fold (tally name stats (addStat s start)).
      destruct (IH (addStat s start)) as (H1 & H2 & H3 & H4 & H5).
      simpl in H1, H2, H3, H4, H5.
      rewrite !JSFacts.sum_cons, H1, H2, H3, H4, H5.
      repeat split; lra.
    + apply IH.
Qed.

Lemma In_aggregatedDataMap (cs : RawApiResponse) (name : string) (data : Totals.t) :
  In (name, data) (aggregatedDataMap cs) ->
  (name = "Mobile" \/ name = "Desktop") /\ data = tally name (allStats cs) zeroTotals.
Proof.
  rewrite DeviceFacts.aggregatedDataMap_pair.
  intros [[= <- <-]|[[= <- <-]|[]]]; split; auto.
Qed.

End DeviceTallies.

(** C9: the device aggregation returns at most two groups, at most one per
    device, and Mobile comes before Desktop when both are there. *)
Theorem C9_device_output_order (cs : Device.RawApiResponse) :
  let devices :=
    map Device.AggregatedDeviceData.device (Device.restructureDevicePerformance cs) in
  (devices = [] \/ devices = ["Mobile"] \/ devices = ["Desktop"]
   \/ devices = ["Mobile"; "Desktop"])
  /\ (List.length devices <= 2)%nat
  /\ NoDup devices.
Proof.
  intros devices.
  assert (H : devices = [] \/ devices = ["Mobile"] \/ devices = ["Desktop"]
              \/ devices = ["Mobile"; "Desktop"]).
  { subst devices. rewrite DeviceFacts.restructure_unfold.
    destruct cs as [|c cs]; [now left|].
    rewrite map_app.
    destruct (DeviceFacts.emit_cases
                ("Mobile", Device.tally "Mobile" (Device.allStats (c :: cs)) Device.zeroTotals))
      as [->|[g1 [-> H1]]];
    destruct (DeviceFacts.emit_cases
                ("Desktop", Device.tally "Desktop" (Device.allStats (c :: cs)) Device.zeroTotals))
      as [->|[g2 [-> H2]]]; simpl in *; rewrite ?H1, ?H2; auto. }
  split; [exact H|].
  destruct H as [H|[H|[H|H]]]; rewrite H; simpl; split; try lia;
    repeat constructor; simpl; intuition discriminate.
Qed.

(** C5: every group of the device aggregation is for exactly "Mobile" or
    exactly "Desktop" and has a non-zero count of impressions, clicks or
    conversions; a record whose trimmed device is another string (compared
    with case) changes nothing in the output. *)
Theorem C5_device_groups_tracked (cs : Device.RawApiResponse) :
  (forall g, In g (Device.restructureDevicePerformance cs) ->
     (Device.AggregatedDeviceData.device g = "Mobile"
      \/ Device.AggregatedDeviceData.device g = "Desktop")
     /\ (~ Device.AggregatedDeviceData.total_impressions g == 0
         \/ ~ Device.AggregatedDeviceData.total_clicks g == 0
         \/ ~ Device.AggregatedDeviceData.total_conversions g == 0))
  /\ Device.restructureDevicePerformance (map Device.withoutOthers cs)
     = Device.restructureDevicePerformance cs
  /\ (forall s, Device.recognised s = true <->
        exists d, Device.DevicePerformance.device s = Some d
                  /\ (JS.trim d = "Mobile" \/ JS.trim d = "Desktop"))
  /\ Device.restructureDevicePerformance Device.sampleOthers = []
  /\ map Device.AggregatedDeviceData.device
         (Device.restructureDevicePerformance Device.sampleBoth) = ["Mobile"; "Desktop"].
Proof.
  split; [|split; [|split; [|split]]].
  - intros g Hg. apply DeviceFacts.In_restructure in Hg as [data [Hin Hemit]].
    apply DeviceTallies.In_aggregatedDataMap in Hin as [Hname _]. split; [exact Hname|].
    unfold Device.emit in Hemit.
    destruct (JS.gt (Device.Totals.impressions data) 0) eqn:E1;
      [|destruct (JS.gt (Device.Totals.clicks data) 0) eqn:E2;
        [|destruct (JS.gt (Device.Totals.conversions data) 0) eqn:E3]];
      simpl in Hemit; try discriminate;
      injection Hemit as <-; simpl;
      [left; apply JSFacts.gt_true in E1
      |right; left; apply JSFacts.gt_true in E2
      |right; right; apply JSFacts.gt_true in E3]; lra.
  - apply DeviceFacts.restructure_withoutOthers.
  - intros s. unfold Device.recognised, Device.deviceKey.
    rewrite orb_true_iff, !String.eqb_eq.
    destruct (Device.DevicePerformance.device s) as [d|].
    + destruct (String.eqb_spec d "") as [->|Hd].
      * split; [intros [H|H]; discriminate|].
        intros [d [[= <-] [H|H]]]; discriminate.
      * split; [intros H; now exists d|].
        now intros [d' [[= <-] H]].
    + split; [intros [H|H]; discriminate | intros [d [H _]]; discriminate].
  - reflexivity.
  - reflexivity.
Qed.

(** C5 on a sample: " Mobile ", "Desktop" and "Tablet" give the two tracked
    groups, each with impressions. *)
Lemma C5_device_groups_tracked_witness :
  Forall (fun g => (Device.AggregatedDeviceData.device g = "Mobile"
                    \/ Device.AggregatedDeviceData.device g = "Desktop")
                   /\ (~ Device.AggregatedDeviceData.total_impressions g == 0
                       \/ ~ Device.AggregatedDeviceData.total_clicks g == 0
                       \/ ~ Device.AggregatedDeviceData.total_conversions g == 0))
         (Device.restructureDevicePerformance Device.sampleBoth).
Proof.
  apply Forall_forall. intros g Hg.
  destruct (C5_device_groups_tracked Device.sampleBoth) as (Hgroups & _).
  exact (Hgroups g Hg).
Defined.

(** C7: when the comparison is computed (both groups found, no fetch
    error), the delta percentage is |mobile - desktop| / desktop * 100 with
    1 in place of a desktop revenue of 0, and its divisor is never 0. *)
Theorem C7_delta_percent_guarded (rawData : Device.RawApiResponse)
  (mobileData desktopData : Device.AggregatedDeviceData.t) :
  Device.findDevice "Mobile" (Device.restructureDevicePerformance rawData) = Some mobileData ->
  Device.findDevice "Desktop" (Device.restructureDevicePerformance rawData) = Some desktopData ->
  let mobile := Device.AggregatedDeviceData.total_revenue mobileData in
  let desktop := Device.AggregatedDeviceData.total_revenue desktopData in
  exists c,
    Device.DeviceViewPage (Device.Loaded rawData) = Device.Metrics c
    /\ ~ Device.deltaBaseRevenue c == 0
    /\ (desktop == 0 -> Device.deltaPercent c == Qabs (mobile - desktop) / 1 * 100)
    /\ (~ desktop == 0 -> Device.deltaPercent c == Qabs (mobile - desktop) / desktop * 100).
Proof.
  intros Hm Hd mobile desktop.
  exists (Device.compareRevenue mobileData desktopData).
  split.
  - unfold Device.DeviceViewPage. now rewrite Hm, Hd.
  - unfold Device.compareRevenue.
    cbn [Device.deltaBaseRevenue Device.deltaPercent]. fold mobile desktop.
    destruct (JS.strict_eq desktop 0) eqn:E.
    + apply JSFacts.strict_eq_true in E.
      split; [discriminate|]. split; [reflexivity|].
      intros H. now elim H.
    + assert (Hne : ~ desktop == 0).
      { intros H. apply JSFacts.strict_eq_true in H. congruence. }
      split; [exact Hne|]. split; [|reflexivity].
      intros H. now elim Hne.
Qed.

(** C7 on a sample: Mobile 30.02 against Desktop 50.5. *)
Lemma C7_delta_percent_guarded_witness :
  exists c,
    Device.DeviceViewPage (Device.Loaded Device.sampleBoth) = Device.Metrics c
    /\ ~ Device.deltaBaseRevenue c == 0
    /\ Device.deltaPercent c == Qabs (30.02 - 50.5) / 50.5 * 100.
Proof.
  destruct (C7_delta_percent_guarded Device.sampleBoth
              {| Device.AggregatedDeviceData.device := "Mobile";
                 Device.AggregatedDeviceData.total_impressions := 0 + 100;
                 Device.AggregatedDeviceData.total_clicks := 0 + 10;
                 Device.AggregatedDeviceData.total_conversions := 0 + 1;
                 Device.AggregatedDeviceData.total_spend := JS.toFixed2 (0 + 10.004);
                 Device.AggregatedDeviceData.total_revenue := JS.toFixed2 (0 + 30.016);
                 Device.AggregatedDeviceData.average_ctr := JS.toFixed2 ((0 + 10) / (0 + 100) * 100);
                 Device.AggregatedDeviceData.average_conversion_rate :=
                   JS.toFixed2 ((0 + 1) / (0 + 10) * 100) |}
              {| Device.AggregatedDeviceData.device := "Desktop";
                 Device.AggregatedDeviceData.total_impressions := 0 + 200;
                 Device.AggregatedDeviceData.total_clicks := 0 + 40;
                 Device.AggregatedDeviceData.total_conversions := 0 + 10;
                 Device.AggregatedDeviceData.total_spend := JS.toFixed2 (0 + 20);
                 Device.AggregatedDeviceData.total_revenue := JS.toFixed2 (0 + 50.5);
                 Device.AggregatedDeviceData.average_ctr := JS.toFixed2 ((0 + 40) / (0 + 200) * 100);
                 Device.AggregatedDeviceData.average_conversion_rate :=
                   JS.toFixed2 ((0 + 10) / (0 + 40) * 100) |})
    as [c (Hpage & Hbase & _ & Hdelta)].
  - reflexivity.
  - reflexivity.
  - exists c. split; [exact Hpage|]. split; [exact Hbase|].
    rewrite Hdelta; [reflexivity | discriminate].
Defined.

(** * The device aggregation in doubles *)

Module DoubleFacts.
Import Float64.

(** Below 10^21 the value read back is the number rounded to two
    decimals. *)
Lemma toFixed2_double_rounds (x : double) : roundedTo2 x (toFixed2 x).
Proof.
  intros v Hv Hsmall. unfold toFixed2. rewrite Hv.
  destruct (Qle_bool _ (Qabs v)) eqn:E; [apply Qle_bool_iff in E; lra|].
  destruct (JS.gt 0 v) eqn:Hneg.
  - apply JSFacts.gt_true in Hneg.
    destruct (RoundingFacts.nearest_hundredth_close (- v)) as [Hlo Hhi].
    exists true, (JS.nearest_hundredth (- v)).
    split; [apply RoundingFacts.nearest_hundredth_nonneg; lra|].
    split; [reflexivity|].
    apply Qabs_Qle_condition. split; lra.
  - apply JSFacts.gt_false in Hneg.
    destruct (RoundingFacts.nearest_hundredth_close v) as [Hlo Hhi].
    exists false, (JS.nearest_hundredth v).
    split; [now apply RoundingFacts.nearest_hundredth_nonneg|].
    split; [reflexivity|].
    apply Qabs_Qle_condition. split; lra.
Qed.

End DoubleFacts.

Module DeviceDoublesFacts.
Import DeviceDoubles.

Lemma doubles_accumulateStat_pair (a b : Totals.t) (s : DevicePerformance.t) :
  accumulateStat [("Mobile", a); ("Desktop", b)] s
  = [("Mobile", if String.eqb (deviceKey s) "Mobile" then addStat s a else a);
     ("Desktop", if String.eqb (deviceKey s) "Desktop" then addStat s b else b)].
Proof.
  unfold accumulateStat, updateCurrent. cbn [map fst snd].
  rewrite (String.eqb_sym "Mobile"), (String.eqb_sym "Desktop").
  destruct (String.eqb_spec (deviceKey s) "Mobile") as [->|_]; [reflexivity|].
  now destruct (String.eqb (deviceKey s) "Desktop").
Qed.

Lemma doubles_accumulateStats_pair (stats : list DevicePerformance.t) (a b : Totals.t) :
  fold_left accumulateStat stats [("Mobile", a); ("Desktop", b)]
  = [("Mobile", tally "Mobile" stats a); ("Desktop", tally "Desktop" stats b)].
Proof.
  revert a b. induction stats as [|s stats IH]; intros a b; simpl; [reflexivity|].
  now rewrite doubles_accumulateStat_pair, IH.
Qed.

Lemma doubles_accumulateCampaigns_pair (cs : RawApiResponse) (a b : Totals.t) :
  fold_left accumulateCampaign cs [("Mobile", a); ("Desktop", b)]
  = [("Mobile", tally "Mobile" (allStats cs) a);
     ("Desktop", tally "Desktop" (allStats cs) b)].
Proof.
  revert a b. induction cs as [|c cs IH]; intros a b; simpl; [reflexivity|].
  unfold accumulateCampaign at 2.
  destruct (device_performance c) as [stats|]; simpl.
  - rewrite doubles_accumulateStats_pair, IH. unfold tally. now rewrite !fold_left_app.
  - apply IH.
Qed.

(** The map always holds the two tracked devices, in this order, each with
    the tally of its own records. *)
Lemma doubles_aggregatedDataMap_pair (cs : RawApiResponse) :
  aggregatedDataMap cs
  = [("Mobile", tally "Mobile" (allStats cs) zeroTotals);
     ("Desktop", tally "Desktop" (allStats cs) zeroTotals)].
Proof. apply doubles_accumulateCampaigns_pair. Qed.

(** A field of the tally of a device is that field of its records, added
    up from the start, record after record. *)
Lemma tally_field (name : string) (stats : list DevicePerformance.t) (start : Totals.t) :
  let mine := filter (fun s => String.eqb (deviceKey s) name) stats in
  let added (figure : DevicePerformance.t -> Float64.double) (from : Float64.double) :=
    fold_left (fun sum stat => PrimFloat.add sum (figure stat)) mine from in
  tally name stats start
  = {| Totals.impressions := added DevicePerformance.impressions (Totals.impressions start);
       Totals.clicks := added DevicePerformance.clicks (Totals.clicks start);
       Totals.conversions := added DevicePerformance.conversions (Totals.conversions start);
       Totals.spend := added DevicePerformance.spend (Totals.spend start);
       Totals.revenue := added DevicePerformance.revenue (Totals.revenue start) |}.
Proof.
  revert start. induction stats as [|s stats IH]; intros start; simpl.
  - now destruct start.
  - destruct (String.eqb (deviceKey s) name); simpl.
    + fold (tally name stats (addStat s start)). now rewrite IH.
    + apply IH.
Qed.

(** Every group is what [emit] makes of the tally of its device. *)
Lemma doubles_In_restructure (cs : RawApiResponse) (g : AggregatedDeviceData.t) :
  In g (restructureDevicePerformance cs) ->
  emit (AggregatedDeviceData.device g,
        tally (AggregatedDeviceData.device g) (allStats cs) zeroTotals) = [g].
Proof.
  unfold restructureDevicePerformance. destruct cs as [|c cs]; [intros []|].
  rewrite doubles_aggregatedDataMap_pair, in_flat_map. intros [[name data] [Hin Hg]].
  assert (Hdata : data = tally name (allStats (c :: cs)) zeroTotals).
  { destruct Hin as [[= <- <-]|[[= <- <-]|[]]]; reflexivity. }
  subst data.
  assert (Hone : emit (name, tally name (allStats (c :: cs)) zeroTotals) = [g]
                 /\ AggregatedDeviceData.device g = name).
  { unfold emit in Hg |- *. destruct (_ || _); [|destruct Hg].
    destruct Hg as [<-|[]]. now split. }
  destruct Hone as [Hone Hname]. now rewrite Hname.
Qed.

End DeviceDoublesFacts.

(** C10, on the doubles the code computes with: in a group of the device
    aggregation the three counts are the sums of the device's records,
    added up record after record, and [total_spend], [total_revenue],
    [average_ctr] and [average_conversion_rate] are the accumulated spend,
    the accumulated revenue and the two rates times 100, each rounded to
    two decimals: read back from a whole number of hundredths at most half
    a hundredth away from the double it renders. *)
Theorem C10_device_figures_rounded (cs : DeviceDoubles.RawApiResponse)
  (g : DeviceDoubles.AggregatedDeviceData.t) :
  In g (DeviceDoubles.restructureDevicePerformance cs) ->
  let name := DeviceDoubles.AggregatedDeviceData.device g in
  let impressions :=
    DeviceDoubles.accumulated DeviceDoubles.DevicePerformance.impressions name cs in
  let clicks := DeviceDoubles.accumulated DeviceDoubles.DevicePerformance.clicks name cs in
  let conversions :=
    DeviceDoubles.accumulated DeviceDoubles.DevicePerformance.conversions name cs in
  let spend := DeviceDoubles.accumulated DeviceDoubles.DevicePerformance.spend name cs in
  let revenue := DeviceDoubles.accumulated DeviceDoubles.DevicePerformance.revenue name cs in
  let ctr := DeviceDoubles.percentage clicks impressions in
  let conversion_rate := DeviceDoubles.percentage conversions clicks in
  DeviceDoubles.AggregatedDeviceData.total_impressions g = impressions
  /\ DeviceDoubles.AggregatedDeviceData.total_clicks g = clicks
  /\ DeviceDoubles.AggregatedDeviceData.total_conversions g = conversions
  /\ DeviceDoubles.AggregatedDeviceData.total_spend g = Float64.toFixed2 spend
  /\ DeviceDoubles.AggregatedDeviceData.total_revenue g = Float64.toFixed2 revenue
  /\ DeviceDoubles.AggregatedDeviceData.average_ctr g = Float64.toFixed2 ctr
  /\ DeviceDoubles.AggregatedDeviceData.average_conversion_rate g
     = Float64.toFixed2 conversion_rate
  /\ Float64.roundedTo2 spend (DeviceDoubles.AggregatedDeviceData.total_spend g)
  /\ Float64.roundedTo2 revenue (DeviceDoubles.AggregatedDeviceData.total_revenue g)
  /\ Float64.roundedTo2 ctr (DeviceDoubles.AggregatedDeviceData.average_ctr g)
  /\ Float64.roundedTo2 conversion_rate
       (DeviceDoubles.AggregatedDeviceData.average_conversion_rate g).
Proof.
  intros Hg name impressions clicks conversions spend revenue ctr conversion_rate.
  apply DeviceDoublesFacts.doubles_In_restructure in Hg. fold name in Hg.
  rewrite DeviceDoublesFacts.tally_field in Hg.
  cbn [DeviceDoubles.Totals.impressions DeviceDoubles.Totals.clicks
       DeviceDoubles.Totals.conversions DeviceDoubles.Totals.spend
       DeviceDoubles.Totals.revenue DeviceDoubles.zeroTotals] in Hg.
  fold (DeviceDoubles.statsOf name cs) in Hg.
  fold (DeviceDoubles.accumulated DeviceDoubles.DevicePerformance.impressions name cs) in Hg.
  fold (DeviceDoubles.accumulated DeviceDoubles.DevicePerformance.clicks name cs) in Hg.
  fold (DeviceDoubles.accumulated DeviceDoubles.DevicePerformance.conversions name cs) in Hg.
  fold (DeviceDoubles.accumulated DeviceDoubles.DevicePerformance.spend name cs) in Hg.
  fold (DeviceDoubles.accumulated DeviceDoubles.DevicePerformance.revenue name cs) in Hg.
  fold impressions clicks conversions spend revenue in Hg.
  unfold DeviceDoubles.emit in Hg.
  cbn [DeviceDoubles.Totals.impressions DeviceDoubles.Totals.clicks
       DeviceDoubles.Totals.conversions DeviceDoubles.Totals.spend
       DeviceDoubles.Totals.revenue] in Hg.
  fold ctr conversion_rate in Hg.
  destruct (_ || _) in Hg; [|discriminate Hg].
  injection Hg as Hg.
  assert (H1 : DeviceDoubles.AggregatedDeviceData.total_impressions g = impressions)
    by now rewrite <- Hg.
  assert (H2 : DeviceDoubles.AggregatedDeviceData.total_clicks g = clicks)
    by now rewrite <- Hg.
  assert (H3 : DeviceDoubles.AggregatedDeviceData.total_conversions g = conversions)
    by now rewrite <- Hg.
  assert (H4 : DeviceDoubles.AggregatedDeviceData.total_spend g = Float64.toFixed2 spend)
    by now rewrite <- Hg.
  assert (H5 : DeviceDoubles.AggregatedDeviceData.total_revenue g = Float64.toFixed2 revenue)
    by now rewrite <- Hg.
  assert (H6 : DeviceDoubles.AggregatedDeviceData.average_ctr g = Float64.toFixed2 ctr)
    by now rewrite <- Hg.
  assert (H7 : DeviceDoubles.AggregatedDeviceData.average_conversion_rate g
               = Float64.toFixed2 conversion_rate) by now rewrite <- Hg.
  repeat (split; [assumption|]).
  rewrite H4, H5, H6, H7.
  split; [|split; [|split]]; apply DoubleFacts.toFixed2_double_rounds.
Qed.

(** C10 on a sample: the Mobile records spend the double read from 1.005,
    which is below it, and the group says 1; 23 clicks on 160 impressions
    make 14.374999999999998 percent, and the group says 14.37. *)
Lemma C10_device_figures_rounded_witness :
  exists g,
    In g (DeviceDoubles.restructureDevicePerformance DeviceDoubles.sample)
    /\ DeviceDoubles.AggregatedDeviceData.device g = "Mobile"
    /\ DeviceDoubles.accumulated DeviceDoubles.DevicePerformance.spend "Mobile"
         DeviceDoubles.sample = Float64.nearest 1005 1000
    /\ DeviceDoubles.AggregatedDeviceData.total_spend g = Float64.nearest 100 100
    /\ DeviceDoubles.AggregatedDeviceData.average_ctr g = Float64.nearest 1437 100
    /\ Float64.roundedTo2
         (DeviceDoubles.accumulated DeviceDoubles.DevicePerformance.spend "Mobile"
            DeviceDoubles.sample)
         (DeviceDoubles.AggregatedDeviceData.total_spend g).
Proof.
  remember (DeviceDoubles.restructureDevicePerformance DeviceDoubles.sample) as groups eqn:E.
  destruct groups as [|g rest]; [discriminate E|].
  assert (Hg : In g (DeviceDoubles.restructureDevicePerformance DeviceDoubles.sample))
    by (rewrite <- E; now left).
  destruct (C10_device_figures_rounded DeviceDoubles.sample g Hg)
    as (_ & _ & _ & _ & _ & _ & _ & Hspend & _).
  vm_compute in E. injection E as Hgroup _.
  assert (Hname : DeviceDoubles.AggregatedDeviceData.device g = "Mobile")
    by now rewrite Hgroup.
  rewrite Hname in Hspend.
  exists g. split; [now left|]. split; [exact Hname|].
  split; [vm_compute; reflexivity|].
  split; [rewrite Hgroup; vm_compute; reflexivity|].
  split; [rewrite Hgroup; vm_compute; reflexivity|].
  exact Hspend.
Defined.

(** C8: with no campaigns every aggregation returns zero totals and empty
    sequences, whatever the runtime's date parser and number renderings
    are; a failed fetch is aggregated as no campaigns. *)
Theorem C8_empty_campaign_list :
  (forall Date_getTime,
     Weekly.aggregatedData Date_getTime (Some {| Weekly.campaigns := [] |})
     = {| Weekly.totalRevenue := 0; Weekly.totalSpend := 0; Weekly.avgConversionRate := 0;
          Weekly.revenueChartData := []; Weekly.spendChartData := [] |}
     /\ Weekly.aggregatedData Date_getTime None
        = Weekly.aggregatedData Date_getTime (Some {| Weekly.campaigns := [] |}))
  /\ (forall toLocaleString toFixed,
     Demographic.aggregatedData toLocaleString toFixed (Some {| Demographic.campaigns := [] |})
     = {| Demographic.maleMetrics :=
            {| Demographic.totalClicks := 0; Demographic.totalSpend := 0;
               Demographic.totalRevenue := 0 |};
          Demographic.femaleMetrics :=
            {| Demographic.totalClicks := 0; Demographic.totalSpend := 0;
               Demographic.totalRevenue := 0 |};
          Demographic.spendChart := []; Demographic.revenueChart := [];
          Demographic.maleTableData := []; Demographic.femaleTableData := [] |}
     /\ Demographic.aggregatedData toLocaleString toFixed None
        = Demographic.aggregatedData toLocaleString toFixed
            (Some {| Demographic.campaigns := [] |}))
  /\ Device.restructureDevicePerformance [] = []
  /\ Device.DeviceViewPage (Device.Loaded []) = Device.MissingKeyDevice []
  /\ (forall message,
      Device.DeviceViewPage (Device.Failed message) = Device.DataFetchError message)
  /\ Region.aggregatedData (Some {| Region.campaigns := [] |})
     = {| Region.totalRevenue := 0; Region.totalSpend := 0; Region.averageRoas := 0;
          Region.topRegion := "N/A";
          Region.revenueMapData := []; Region.spendMapData := [] |}
  /\ Region.aggregatedData None = Region.aggregatedData (Some {| Region.campaigns := [] |}).
Proof.
  repeat split; reflexivity.
Qed.

(** * Claims about the demographic aggregation *)

Module RedistributionFacts.
Import Demographic.

Lemma total_is_sum (c : Campaign.t JS.number) :
  totalCampaignAudiencePercentage exact c
  = JS.sum (map DemographicBreakdown.percentage_of_audience (Campaign.demographic_breakdown c)).
Proof.
  unfold totalCampaignAudiencePercentage, JS.sum. simpl.
  generalize 0. induction (Campaign.demographic_breakdown c) as [|b l IH]; intros a; simpl.
  - reflexivity.
  - apply IH.
Qed.

Lemma share_step (amount x y total : Q) :
  ~ total == 0 ->
  amount * (x / total) + amount * (y / total) == amount * ((x + y) / total).
Proof. intros Ht. field. exact Ht. Qed.

Lemma share_whole (amount total : Q) : ~ total == 0 -> amount * (total / total) == amount.
Proof. intros Ht. field. exact Ht. Qed.

(** Shares of an amount add up to the amount times the sum of the weights
    over the total. *)
Lemma shares_sum (amount total : Q) (l : list (DemographicBreakdown.t JS.number)) :
  ~ total == 0 ->
  JS.sum (map (fun b => amount * (DemographicBreakdown.percentage_of_audience b / total)) l)
  == amount * (JS.sum (map DemographicBreakdown.percentage_of_audience l) / total).
Proof.
  intros Ht. induction l as [|b l IH]; cbn [map].
  - change (JS.sum []) with 0. field. exact Ht.
  - rewrite !JSFacts.sum_cons, IH. now apply share_step.
Qed.

Lemma distributed_positive (amount : Campaign.t JS.number -> JS.number)
  (c : Campaign.t JS.number) :
  0 < totalCampaignAudiencePercentage exact c ->
  sumOver exact (fun b => amount c * ratio exact c b) c == amount c.
Proof.
  intros Hpos. unfold sumOver. simpl. fold (JS.sum).
  assert (Hgt : JS.gt (totalCampaignAudiencePercentage exact c) 0 = true)
    by now apply JSFacts.gt_true.
  rewrite (map_ext _ (fun b => amount c * (DemographicBreakdown.percentage_of_audience b
                                / totalCampaignAudiencePercentage exact c))).
  2:{ intros b. unfold ratio. simpl. now rewrite Hgt. }
  change (fold_left Qplus ?l 0) with (JS.sum l).
  rewrite shares_sum by lra.
  rewrite <- total_is_sum. apply share_whole. lra.
Qed.

End RedistributionFacts.

Module DoubleRedistribution.

(** In doubles a number that is [=== 0] is not [> 0]. *)
Lemma zero_not_positive (x : PrimFloat.float) :
  PrimFloat.eqb x PrimFloat.zero = true -> PrimFloat.ltb PrimFloat.zero x = false.
Proof.
  rewrite FloatAxioms.eqb_spec, FloatAxioms.ltb_spec.
  change (FloatOps.Prim2SF PrimFloat.zero) with (SpecFloat.S754_zero false).
  destruct (FloatOps.Prim2SF x) as [s|s| |s m e]; try destruct s; simpl;
    intros H; (reflexivity || discriminate H).
Qed.

(** A finite double times 0 is [=== 0]. *)
Lemma finite_times_zero (x : PrimFloat.float) :
  Float64.finite x = true ->
  PrimFloat.eqb (PrimFloat.mul x PrimFloat.zero) PrimFloat.zero = true.
Proof.
  unfold Float64.finite. rewrite FloatAxioms.eqb_spec, FloatAxioms.mul_spec.
  change (FloatOps.Prim2SF PrimFloat.zero) with (SpecFloat.S754_zero false).
  destruct (FloatOps.Prim2SF x) as [s|s| |s m e]; try destruct s; simpl;
    intros H; (reflexivity || discriminate H).
Qed.

End DoubleRedistribution.

(** C1: in exact arithmetic, for every campaign whose audience percentages
    add up to a positive total, the distributed spends add up to the
    campaign's spend and the distributed revenues to its revenue, and when
    the total is 0 every distributed spend and revenue is 0; on the doubles
    the code computes with, the second half holds as well, for every
    campaign whose spend and revenue are finite. *)
Theorem C1_redistribution_in_both_arithmetics :
  (forall c : Demographic.Campaign.t JS.number,
     Demographic.redistributes Demographic.exact c)
  /\ (forall c : Demographic.Campaign.t PrimFloat.float,
      Float64.finite (Demographic.Campaign.spend c) = true ->
      Float64.finite (Demographic.Campaign.revenue c) = true ->
      Demographic.redistributesNothing Demographic.binary64 c).
Proof.
  split.
  - intros c. unfold Demographic.redistributes. split.
    + intros Hgt. simpl in Hgt. apply JSFacts.gt_true in Hgt.
      split; apply JSFacts.strict_eq_true.
      * exact (RedistributionFacts.distributed_positive Demographic.Campaign.spend c Hgt).
      * exact (RedistributionFacts.distributed_positive Demographic.Campaign.revenue c Hgt).
    + intros Hzero b _. simpl in Hzero. apply JSFacts.strict_eq_true in Hzero.
      assert (Hgt : JS.gt (Demographic.totalCampaignAudiencePercentage Demographic.exact c) 0
                    = false) by (apply JSFacts.gt_false; lra).
      unfold Demographic.distributedSpend, Demographic.distributedRevenue, Demographic.ratio.
      simpl. rewrite Hgt.
      split; apply JSFacts.strict_eq_true; lra.
  - intros c Hspend Hrevenue Hzero b _.
    cbn [Demographic.strict_eq Demographic.zero Demographic.binary64] in Hzero |- *.
    apply DoubleRedistribution.zero_not_positive in Hzero.
    unfold Demographic.distributedSpend, Demographic.distributedRevenue, Demographic.ratio.
    cbn [Demographic.gt Demographic.mul Demographic.zero Demographic.binary64].
    rewrite Hzero.
    split; now apply DoubleRedistribution.finite_times_zero.
Qed.

(** C1, Scenario 2: a spend of 200 split 30 / 70 gives 60 and 140; and in
    doubles, audience percentages that are all 0 hand out nothing of a
    spend of 200. *)
Lemma C1_redistribution_in_both_arithmetics_witness :
  Demographic.redistributes Demographic.exact Demographic.scenario2
  /\ Forall2 Qeq
       (map (Demographic.distributedSpend Demographic.exact Demographic.scenario2)
            (Demographic.Campaign.demographic_breakdown Demographic.scenario2))
       [60; 140]
  /\ Forall (fun b => PrimFloat.eqb
                        (Demographic.distributedSpend Demographic.binary64 Doubles.nobody b)
                        PrimFloat.zero = true)
            (Demographic.Campaign.demographic_breakdown Doubles.nobody).
Proof.
  destruct C1_redistribution_in_both_arithmetics as [Hexact Hdoubles].
  split; [exact (Hexact Demographic.scenario2)|].
  split; [repeat constructor|].
  apply Forall_forall. intros b Hb.
  exact (proj1 (Hdoubles Doubles.nobody eq_refl eq_refl eq_refl b Hb)).
Defined.

(** C1 as stated, on the doubles the code computes with: a spend of 3
    split 30 / 70 comes back as 2.9999999999999996. *)
Lemma C1_redistribution_rounds_in_doubles :
  ~ (forall c : Demographic.Campaign.t PrimFloat.float,
       Demographic.redistributes Demographic.binary64 c).
Proof.
  intros H. destruct (H Doubles.split_30_70) as [Hsum _].
  destruct Hsum as [Hspend _]; [reflexivity|].
  vm_compute in Hspend. discriminate.
Qed.

(** * Claims about the regional aggregation *)

Module RegionFacts.
Import Region.

Lemma accumulateRegion_wellFormed m r : wellFormed m -> wellFormed (accumulateRegion m r).
Proof.
  intros [Hall Hnd]. split.
  - apply JSFacts.upsert_Forall; [exact Hall|now repeat split|].
    intros v (Hk & Hlat & Hlon). now repeat split.
  - now apply JSFacts.upsert_NoDup.
Qed.

Lemma regionalMap_wellFormed (cs : list Campaign) : wellFormed (regionalMap cs).
Proof.
  unfold regionalMap. apply JSFacts.fold_left_keeps.
  - intros m c _ Hm. unfold accumulateCampaign. apply JSFacts.fold_left_keeps; [|exact Hm].
    intros m' r _. apply accumulateRegion_wellFormed.
  - split; constructor.
Qed.

Lemma accumulateCampaign_keeps_key m c k :
  JS.get k m <> None -> JS.get k (accumulateCampaign m c) <> None.
Proof.
  unfold accumulateCampaign.
  apply (JSFacts.fold_left_keeps (fun m => JS.get k m <> None)).
  intros m' r _. apply JSFacts.upsert_keeps_key.
Qed.

(** Every record has an entry under its key once the loops are done. *)
Lemma regionalMap_has_key (cs : list Campaign) (c : Campaign) (r : RegionalPerformance.t) :
  In c cs -> In r (regional_performance c) ->
  JS.get (keyOf r) (regionalMap cs) <> None.
Proof.
  intros Hc Hr. unfold regionalMap.
  apply (JSFacts.fold_left_reaches (fun m => JS.get (keyOf r) m <> None)
           accumulateCampaign cs c Hc).
  - intros m. unfold accumulateCampaign.
    apply (JSFacts.fold_left_reaches (fun m => JS.get (keyOf r) m <> None)
             accumulateRegion (regional_performance c) r Hr).
    + intros m'. unfold accumulateRegion. now rewrite JSFacts.upsert_get_same.
    + intros m' r'. apply JSFacts.upsert_keeps_key.
  - intros m c'. apply accumulateCampaign_keeps_key.
Qed.

Lemma withRates_same_place (t : AggregatedRegionalPerformance.t) :
  keyOfItem (withRates t) = keyOfItem t
  /\ AggregatedRegionalPerformance.latitude (withRates t) = AggregatedRegionalPerformance.latitude t
  /\ AggregatedRegionalPerformance.longitude (withRates t) = AggregatedRegionalPerformance.longitude t.
Proof. now repeat split. Qed.

Lemma In_finalRegionalList (cs : list Campaign) (g : AggregatedRegionalPerformance.t) :
  In g (finalRegionalList cs) <->
  exists k t, In (k, t) (regionalMap cs) /\ g = withRates t /\ hasCoordinates g = true.
Proof.
  unfold finalRegionalList. rewrite filter_In, in_map_iff. split.
  - intros [[t [<- Hin]] Hc]. apply JSFacts.In_values in Hin as [k Hin]. now exists k, t.
  - intros (k & t & Hin & -> & Hc). split; [|exact Hc].
    exists t. split; [reflexivity|]. apply JSFacts.In_values. now exists k.
Qed.

Lemma hasCoordinates_true (g : AggregatedRegionalPerformance.t) :
  hasCoordinates g = true <->
  ~ (AggregatedRegionalPerformance.latitude g == 0
     /\ AggregatedRegionalPerformance.longitude g == 0).
Proof.
  unfold hasCoordinates. rewrite orb_true_iff, !JSFacts.strict_ne_true.
  destruct (Qeq_dec (AggregatedRegionalPerformance.latitude g) 0); tauto.
Qed.

(** The table has no region at (0, 0): only the fallback is there. *)
Lemma table_away_from_origin (region : string) (p : Geo.GeoPosition) :
  JS.get region Geo.REGION_COORDINATES = Some p -> ~ (Geo.lat p == 0 /\ Geo.lon p == 0).
Proof.
  intros Hget. apply JSFacts.get_In in Hget.
  assert (Hall : Forall (fun e => Qeq_bool (Geo.lat (snd e)) 0 = false) Geo.REGION_COORDINATES)
    by (repeat constructor).
  rewrite Forall_forall in Hall. specialize (Hall _ Hget). simpl in Hall.
  intros [Hlat _]. apply Qeq_bool_iff in Hlat. congruence.
Qed.

Lemma getCoordinates_origin (region : string) :
  (Geo.lat (Geo.getCoordinates region) == 0 /\ Geo.lon (Geo.getCoordinates region) == 0)
  <-> JS.get region Geo.REGION_COORDINATES = None.
Proof.
  unfold Geo.getCoordinates.
  destruct (JS.get region Geo.REGION_COORDINATES) as [p|] eqn:E.
  - split; [|discriminate]. intros H. now apply table_away_from_origin in E.
  - split; [reflexivity|]. intros _. split; reflexivity.
Qed.

Lemma getCoordinates_fallback (region : string) :
  Geo.getCoordinates region = Geo.fallback <-> JS.get region Geo.REGION_COORDINATES = None.
Proof.
  rewrite <- getCoordinates_origin. split.
  - intros ->. split; reflexivity.
  - intros H. apply getCoordinates_origin in H. unfold Geo.getCoordinates. now rewrite H.
Qed.

End RegionFacts.

(** * Claims about the derived rates *)

(** Adding counts that are 0 or more to an entry, new or not, keeps its
    counts 0 or more. *)
Ltac counts_kept :=
  try (let v := fresh "v" in intros v (? & ? & ?));
  match goal with
  | |- ?nonNegative _ => unfold nonNegative; simpl; repeat split; lra
  end.

Module WeeklyFacts.
Import Weekly.

Lemma weeklyMap_nonNegative (cs : list Campaign) :
  nonNegative cs -> Forall (fun e => countsNonNegative (snd e)) (weeklyMap cs).
Proof.
  intros Hcs. unfold weeklyMap.
  apply (JSFacts.fold_left_keeps (Forall (fun e => countsNonNegative (snd e)))); [|constructor].
  intros m c Hc Hm. unfold accumulateCampaign.
  apply (JSFacts.fold_left_keeps (Forall (fun e => countsNonNegative (snd e)))); [|exact Hm].
  intros m' w Hw Hm'. destruct (Hcs c w Hc Hw) as (H1 & H2 & H3).
  apply (JSFacts.upsert_Forall (fun _ t => countsNonNegative t)); [exact Hm'| |];
    counts_kept.
Qed.

Lemma In_finalWeeklyList getTime (cs : list Campaign) (g : AggregatedWeeklyPerformance.t) :
  In g (finalWeeklyList getTime cs) <-> exists k t, In (k, t) (weeklyMap cs) /\ g = withRates t.
Proof.
  unfold finalWeeklyList, unsortedWeeklyList. split.
  - intros Hg. apply (Permutation_in _ (JSFacts.sort_permutation _ _)) in Hg.
    apply in_map_iff in Hg as [t [<- Hin]].
    apply JSFacts.In_values in Hin as [k Hin]. now exists k, t.
  - intros (k & t & Hin & ->).
    apply (Permutation_in _ (Permutation_sym (JSFacts.sort_permutation _ _))).
    apply in_map. apply JSFacts.In_values. now exists k.
Qed.

(** Sum preservation: a figure summed over the entries of [weeklyMap] is
    the figure summed over all the weekly records. *)
Lemma weeklyMap_sum (mu : Totals.t -> Q) (nu : WeeklyPerformance.t -> Q) :
  (forall w, mu (newTotals w) == 0) ->
  (forall w t, mu (addWeek w t) == mu t + nu w) ->
  forall cs, JS.sum (map mu (map snd (weeklyMap cs))) == JS.sum (map nu (allWeeks cs)).
Proof.
  intros Hnew Hadd.
  assert (Hweeks : forall ws m,
            JS.sum (map mu (map snd (fold_left accumulateWeek ws m)))
            == JS.sum (map mu (map snd m)) + JS.sum (map nu ws)).
  { induction ws as [|w ws IH]; intros m; cbn [fold_left map].
    - change (JS.sum []) with 0. lra.
    - rewrite IH. unfold accumulateWeek at 1.
      rewrite (JSFacts.upsert_sum mu _ _ _ _ (nu w)) by auto.
      rewrite JSFacts.sum_cons. lra. }
  assert (Hcs : forall cs m,
            JS.sum (map mu (map snd (fold_left accumulateCampaign cs m)))
            == JS.sum (map mu (map snd m)) + JS.sum (map nu (allWeeks cs))).
  { induction cs as [|c cs IH]; intros m; cbn [fold_left allWeeks flat_map map].
    - change (JS.sum []) with 0. lra.
    - rewrite IH. unfold accumulateCampaign at 1.
      rewrite Hweeks, map_app, JSFacts.sum_app. fold (allWeeks cs). lra. }
  intros cs. unfold weeklyMap. rewrite Hcs. change (JS.sum (map mu (map snd []))) with 0. lra.
Qed.

Lemma finalWeeklyList_sum getTime (cs : list Campaign)
  (f : AggregatedWeeklyPerformance.t -> Q) :
  JS.sum (map f (finalWeeklyList getTime cs))
  == JS.sum (map (fun t => f (withRates t)) (map snd (weeklyMap cs))).
Proof.
  unfold finalWeeklyList, unsortedWeeklyList.
  rewrite (JSFacts.sum_permutation _ _
             (Permutation_map f (JSFacts.sort_permutation _ _))).
  rewrite map_map. apply JSFacts.values_sum.
Qed.

Lemma finalWeeklyList_clicks getTime (cs : list Campaign) :
  JS.sum (map AggregatedWeeklyPerformance.clicks (finalWeeklyList getTime cs))
  == JS.sum (map WeeklyPerformance.clicks (allWeeks cs)).
Proof.
  rewrite finalWeeklyList_sum. apply (weeklyMap_sum _ WeeklyPerformance.clicks).
  - intros w. reflexivity.
  - intros w t. reflexivity.
Qed.

Lemma finalWeeklyList_conversions getTime (cs : list Campaign) :
  JS.sum (map AggregatedWeeklyPerformance.conversions (finalWeeklyList getTime cs))
  == JS.sum (map WeeklyPerformance.conversions (allWeeks cs)).
Proof.
  rewrite finalWeeklyList_sum. apply (weeklyMap_sum _ WeeklyPerformance.conversions).
  - intros w. reflexivity.
  - intros w t. reflexivity.
Qed.

End WeeklyFacts.

Module DemographicFacts.
Import Demographic.

Lemma demographicMap_nonNegative (cs : list (Campaign.t JS.number)) :
  nonNegative cs -> Forall (fun e => countsNonNegative (snd e)) (demographicMap cs).
Proof.
  intros Hcs. unfold demographicMap.
  apply (JSFacts.fold_left_keeps (Forall (fun e => countsNonNegative (snd e)))); [|constructor].
  intros m c Hc Hm. unfold accumulateCampaign.
  apply (JSFacts.fold_left_keeps (Forall (fun e => countsNonNegative (snd e)))); [|exact Hm].
  intros m' b Hb Hm'. destruct (Hcs c b Hc Hb) as (H1 & H2 & H3).
  apply (JSFacts.upsert_Forall (fun _ t => countsNonNegative t)); [exact Hm'| |];
    counts_kept.
Qed.

Lemma In_aggregatedList (cs : list (Campaign.t JS.number)) (g : AggregatedDemographicGroup.t) :
  In g (aggregatedList cs) <-> exists k t, In (k, t) (demographicMap cs) /\ g = groupOf (k, t).
Proof.
  unfold aggregatedList. rewrite in_map_iff. split.
  - intros [[k t] [<- Hin]]. apply (proj1 (JSFacts.In_entries _ _)) in Hin.
    exists k, t. split; [exact Hin | reflexivity].
  - intros (k & t & Hin & ->). exists (k, t). split; [reflexivity|].
    now apply (proj2 (JSFacts.In_entries _ _)).
Qed.

End DemographicFacts.

Module RegionRates.
Import Region.

Lemma regionalMap_nonNegative (cs : list Campaign) :
  nonNegative cs -> Forall (fun e => countsNonNegative (snd e)) (regionalMap cs).
Proof.
  intros Hcs. unfold regionalMap.
  apply (JSFacts.fold_left_keeps (Forall (fun e => countsNonNegative (snd e)))); [|constructor].
  intros m c Hc Hm. unfold accumulateCampaign.
  apply (JSFacts.fold_left_keeps (Forall (fun e => countsNonNegative (snd e)))); [|exact Hm].
  intros m' r Hr Hm'. destruct (Hcs c r Hc Hr) as (H1 & H2 & H3).
  apply (JSFacts.upsert_Forall (fun _ t => countsNonNegative t)); [exact Hm'| |];
    counts_kept.
Qed.

End RegionRates.

Module RateFacts.

(** The guarded quotient of non-negative counts is within its bounds. *)
Lemma rate_bounds (num den : Q) :
  0 <= num -> JS.rateBounds 1 num den (if JS.gt den 0 then num / den else 0).
Proof.
  intros Hn. split; [|split].
  - now apply JSFacts.rate_nonneg.
  - intros Hd. now rewrite JSFacts.rate_zero_denominator.
  - apply JSFacts.rate_at_most_one.
Qed.

Lemma percent_bounds (num den : Q) :
  0 <= num ->
  JS.rateBounds 100 num den (JS.toFixed2 (if JS.gt den 0 then num / den * 100 else 0)).
Proof.
  intros Hn.
  assert (H0 : 0 <= (if JS.gt den 0 then num / den * 100 else 0)).
  { pose proof (JSFacts.rate_nonneg num den Hn) as H.
    destruct (JS.gt den 0); [|lra]. apply Qmult_le_0_compat; [exact H|discriminate]. }
  split; [|split].
  - now apply RoundingFacts.toFixed2_nonneg.
  - intros Hd. destruct (JS.gt den 0) eqn:E; [|reflexivity].
    apply JSFacts.gt_true in E. lra.
  - intros Hle. apply RoundingFacts.toFixed2_at_most_100; [exact H0|].
    pose proof (JSFacts.rate_at_most_one num den Hle) as H.
    destruct (JS.gt den 0); [|lra].
    setoid_replace 100 with (1 * 100) at 2 by reflexivity.
    apply Qmult_le_compat_r; [exact H|discriminate].
Qed.

End RateFacts.

(** C4, the bounds that hold: with counts that are 0 or more, every group's ctr and
    conversionRate is 0 or more, is 0 when its denominator is 0, and is at
    most 1 when its numerator does not exceed its denominator; the device
    aggregation gives the two rates as percentages, with 100 in place
    of 1. *)
Theorem C4_rates_within_bounds :
  (forall Date_getTime cs, Weekly.nonNegative cs ->
     forall g, In g (Weekly.finalWeeklyList Date_getTime cs) ->
       JS.rateBounds 1 (Weekly.AggregatedWeeklyPerformance.clicks g)
         (Weekly.AggregatedWeeklyPerformance.impressions g)
         (Weekly.AggregatedWeeklyPerformance.ctr g)
       /\ JS.rateBounds 1 (Weekly.AggregatedWeeklyPerformance.conversions g)
         (Weekly.AggregatedWeeklyPerformance.clicks g)
         (Weekly.AggregatedWeeklyPerformance.conversionRate g))
  /\ (forall cs, Demographic.nonNegative cs ->
     forall g, In g (Demographic.aggregatedList cs) ->
       JS.rateBounds 1 (Demographic.AggregatedDemographicGroup.clicks g)
         (Demographic.AggregatedDemographicGroup.impressions g)
         (Demographic.AggregatedDemographicGroup.ctr g)
       /\ JS.rateBounds 1 (Demographic.AggregatedDemographicGroup.conversions g)
         (Demographic.AggregatedDemographicGroup.clicks g)
         (Demographic.AggregatedDemographicGroup.conversionRate g))
  /\ (forall cs, Region.nonNegative cs ->
     forall g, In g (Region.finalRegionalList cs) ->
       JS.rateBounds 1 (Region.AggregatedRegionalPerformance.clicks g)
         (Region.AggregatedRegionalPerformance.impressions g)
         (Region.AggregatedRegionalPerformance.ctr g)
       /\ JS.rateBounds 1 (Region.AggregatedRegionalPerformance.conversions g)
         (Region.AggregatedRegionalPerformance.clicks g)
         (Region.AggregatedRegionalPerformance.conversionRate g))
  /\ (forall cs, Device.nonNegative cs ->
     forall g, In g (Device.restructureDevicePerformance cs) ->
       JS.rateBounds 100 (Device.AggregatedDeviceData.total_clicks g)
         (Device.AggregatedDeviceData.total_impressions g)
         (Device.AggregatedDeviceData.average_ctr g)
       /\ JS.rateBounds 100 (Device.AggregatedDeviceData.total_conversions g)
         (Device.AggregatedDeviceData.total_clicks g)
         (Device.AggregatedDeviceData.average_conversion_rate g)).
Proof.
  split; [|split; [|split]].
  - intros getTime cs Hcs g Hg.
    apply WeeklyFacts.In_finalWeeklyList in Hg as (k & t & Hin & ->).
    pose proof (WeeklyFacts.weeklyMap_nonNegative cs Hcs) as Hall.
    rewrite Forall_forall in Hall. destruct (Hall _ Hin) as (H1 & H2 & H3).
    split; apply RateFacts.rate_bounds; assumption.
  - intros cs Hcs g Hg.
    apply DemographicFacts.In_aggregatedList in Hg as (k & t & Hin & ->).
    pose proof (DemographicFacts.demographicMap_nonNegative cs Hcs) as Hall.
    rewrite Forall_forall in Hall. destruct (Hall _ Hin) as (H1 & H2 & H3).
    split; apply RateFacts.rate_bounds; assumption.
  - intros cs Hcs g Hg.
    apply RegionFacts.In_finalRegionalList in Hg as (k & t & Hin & -> & _).
    pose proof (RegionRates.regionalMap_nonNegative cs Hcs) as Hall.
    rewrite Forall_forall in Hall. destruct (Hall _ Hin) as (H1 & H2 & H3).
    split; apply RateFacts.rate_bounds; assumption.
  - intros cs Hcs g Hg.
    apply DeviceFacts.In_restructure in Hg as [data [Hin Hemit]].
    apply DeviceTallies.In_aggregatedDataMap in Hin as [_ Hdata].
    destruct (DeviceTallies.tally_sums (Device.AggregatedDeviceData.device g)
                (Device.allStats cs) Device.zeroTotals) as (H1 & H2 & H3 & _).
    rewrite <- Hdata in H1, H2, H3.
    assert (Hnn : forall f : Device.DevicePerformance.t -> JS.number,
               (forall s, In s (Device.allStats cs) -> 0 <= f s) ->
               0 <= JS.sum (map f (filter
                   (fun s => String.eqb (Device.deviceKey s) (Device.AggregatedDeviceData.device g))
                   (Device.allStats cs)))).
    { intros f Hf. apply JSFacts.sum_nonneg. apply Forall_forall.
      intros x Hx. apply in_map_iff in Hx as [s [<- Hs]].
      apply filter_In in Hs as [Hs _]. now apply Hf. }
    assert (C1 : 0 <= Device.Totals.clicks data).
    { rewrite H2. change (Device.Totals.clicks Device.zeroTotals) with 0.
      rewrite Qplus_0_l. apply Hnn. intros s Hs. now apply Hcs. }
    assert (C2 : 0 <= Device.Totals.conversions data).
    { rewrite H3. change (Device.Totals.conversions Device.zeroTotals) with 0.
      rewrite Qplus_0_l. apply Hnn. intros s Hs. now apply Hcs. }
    unfold Device.emit in Hemit. destruct (_ || _) in Hemit; [|discriminate].
    injection Hemit as <-.
    split; apply RateFacts.percent_bounds; assumption.
Qed.

Lemma regionOverClicked_nonNegative : Region.nonNegative Region.overClicked.
Proof.
  intros c r [<-|[]] [<-|[]]. simpl. repeat split; discriminate.
Qed.

(** C4 on a sample: 10 clicks on 5 impressions, a ctr that is 0 or more. *)
Lemma C4_rates_within_bounds_witness :
  Forall (fun g => 0 <= Region.AggregatedRegionalPerformance.ctr g
                   /\ 0 <= Region.AggregatedRegionalPerformance.conversionRate g)
         (Region.finalRegionalList Region.overClicked).
Proof.
  apply Forall_forall. intros g Hg.
  destruct C4_rates_within_bounds as (_ & _ & Hregion & _).
  destruct (Hregion Region.overClicked regionOverClicked_nonNegative g Hg)
    as [(H1 & _) (H2 & _)].
  now split.
Defined.

(** C4 as stated fails where clicks exceed impressions: 10 clicks on 5
    impressions give a ctr of 2. *)
Lemma C4_rate_above_one :
  ~ (forall cs, Region.nonNegative cs ->
       forall g, In g (Region.finalRegionalList cs) ->
         0 <= Region.AggregatedRegionalPerformance.ctr g
         /\ Region.AggregatedRegionalPerformance.ctr g <= 1).
Proof.
  intros H.
  pose proof (H Region.overClicked regionOverClicked_nonNegative) as Hall.
  apply Forall_forall in Hall.
  vm_compute in Hall. inversion Hall as [|g l [_ Hle] _]. now apply Hle.
Qed.



(** * Claims about the age groups *)

Module AgeGroupFacts.
Import Demographic.

(** No piece of a split contains the separator. *)
Lemma split_pieces (sep : ascii) (s piece : string) :
  In piece (JS.split sep s) -> ~ In sep (list_ascii_of_string piece).
Proof.
  revert piece. induction s as [|c s IH]; intros piece; simpl.
  - intros [<-|[]]. simpl. tauto.
  - destruct (Ascii.eqb_spec c sep) as [->|Hne].
    + intros [<-|Hin]; [simpl; tauto | now apply IH].
    + destruct (JS.split sep s) as [|h t] eqn:E.
      * intros [<-|[]]. simpl. intros [H|[]]. congruence.
      * intros [<-|Hin].
        -- simpl. intros [H|H]; [congruence|]. revert H. apply IH. now left.
        -- apply IH. now right.
Qed.

Lemma groupOf_ageGroup (entry : string * Totals.t) :
  ~ In "-"%char (list_ascii_of_string (AggregatedDemographicGroup.ageGroup (groupOf entry))).
Proof.
  destruct entry as [key totals]. unfold groupOf.
  cbn [AggregatedDemographicGroup.ageGroup].
  destruct (nth_in_or_default 1 (JS.split "-" key) "") as [Hin| ->].
  - now apply split_pieces in Hin.
  - simpl. tauto.
Qed.

(** Sorting by a numeric key puts the keys in ascending order. *)
Section SortedByKey.
Context {A : Type} (cmp : A -> A -> option JS.number) (key : A -> Z).

Lemma sort_insert_In (a x : A) (l : list A) :
  In x (JS.sort_insert cmp a l) -> x = a \/ In x l.
Proof.
  intros H. apply (Permutation_in _ (JSFacts.sort_insert_permutation cmp a l)) in H.
  destruct H; auto.
Qed.

Lemma sort_insert_sorted (a : A) (l : list A) :
  (forall b, In b l -> JS.after cmp a b = true <-> (key b < key a)%Z) ->
  StronglySorted (fun x y => (key x <= key y)%Z) l ->
  StronglySorted (fun x y => (key x <= key y)%Z) (JS.sort_insert cmp a l).
Proof.
  intros Hcmp Hs. induction Hs as [|b l Hs IH Hb]; simpl.
  - repeat constructor.
  - destruct (JS.after cmp a b) eqn:E.
    + apply (Hcmp b (or_introl eq_refl)) in E.
      constructor.
      * apply IH. intros b' Hb'. apply Hcmp. now right.
      * apply Forall_forall. intros x Hx. apply sort_insert_In in Hx as [->|Hx]; [lia|].
        rewrite Forall_forall in Hb. now apply Hb.
    + assert (Hle : (key a <= key b)%Z).
      { destruct (Z_lt_le_dec (key b) (key a)) as [Hlt|Hle]; [|exact Hle].
        apply (Hcmp b (or_introl eq_refl)) in Hlt. congruence. }
      constructor; [now constructor|].
      constructor; [exact Hle|].
      rewrite Forall_forall in *. intros x Hx. specialize (Hb x Hx). lia.
Qed.

Lemma sort_sorted (l : list A) :
  (forall a b, In a l -> In b l -> JS.after cmp a b = true <-> (key b < key a)%Z) ->
  StronglySorted (fun x y => (key x <= key y)%Z) (JS.sort cmp l).
Proof.
  induction l as [|a l IH]; intros Hcmp; unfold JS.sort; simpl.
  - constructor.
  - apply sort_insert_sorted.
    + intros b Hb. apply Hcmp; [now left | right].
      exact (Permutation_in _ (JSFacts.sort_permutation cmp l) Hb).
    + apply IH. intros x y Hx Hy. apply Hcmp; now right.
Qed.

End SortedByKey.

(** When every age-group key starts with a number, the two chart series
    are in ascending order of that number. *)
Lemma ageGroups_ascending (cs : list (Campaign.t JS.number)) (number : string -> Z) :
  (forall a, In a (JS.keys (ageDataMap cs)) -> leadingNumber a = Some (number a)) ->
  StronglySorted (fun a b => (number a <= number b)%Z) (ageGroups cs).
Proof.
  intros Hnum. unfold ageGroups. apply sort_sorted.
  intros a b Ha Hb. unfold JS.after, byLeadingNumber.
  rewrite (Hnum a Ha), (Hnum b Hb), JSFacts.gt_true.
  unfold Qminus. rewrite <- inject_Z_opp, <- inject_Z_plus.
  change 0 with (inject_Z 0). rewrite <- Zlt_Qlt. lia.
Qed.

End AgeGroupFacts.

(** C2 (what the code does): the age group of a group is the piece of its
    key between the first and the second hyphen, so it never contains a
    hyphen: for the records "25-34" and "18-24" the table rows and the two
    chart series carry "25" and "18". *)
Theorem C2_age_group_cut_at_hyphen :
  (forall cs g, In g (Demographic.aggregatedList cs) ->
     ~ In "-"%char (list_ascii_of_string (Demographic.AggregatedDemographicGroup.ageGroup g)))
  /\ (forall toLocaleString toFixed,
      let result := Demographic.aggregatedData toLocaleString toFixed
                      (Some {| Demographic.campaigns := [Demographic.hyphenated] |}) in
      map Demographic.TableRow.ageGroup (Demographic.maleTableData result) = ["25"; "18"]
      /\ map Demographic.TableRow.ageGroup (Demographic.femaleTableData result) = ["18"]
      /\ map Demographic.ChartDataPoint.label (Demographic.spendChart result) = ["18"; "25"]
      /\ map Demographic.ChartDataPoint.label (Demographic.revenueChart result) = ["18"; "25"]).
Proof.
  split.
  - intros cs g Hg. apply DemographicFacts.In_aggregatedList in Hg as (k & t & _ & ->).
    apply AgeGroupFacts.groupOf_ageGroup.
  - intros toLocaleString toFixed result. repeat split; reflexivity.
Qed.

(** * The accumulation loop *)

Module GroupingFacts.
Import Grouping.

(** Nested loops over campaigns and their records are one loop over the
    records. *)
Lemma fold_left_flat_map {A B C : Type} (f : A -> C -> A) (g : B -> list C)
  (l : list B) (a : A) :
  fold_left (fun a b => fold_left f (g b) a) l a = fold_left f (flat_map g l) a.
Proof.
  revert a. induction l as [|b l IH]; intros a; simpl; [reflexivity|].
  now rewrite fold_left_app, IH.
Qed.

Section GroupingFacts.
Context {R V : Type}.
Variable key : R -> string.
Variable init : R -> V.
Variable step : R -> V -> V.

Abbreviation grouped := (grouped key init step).
Abbreviation recordsOf := (recordsOf key).
Abbreviation firstOf := (firstOf key).

Lemma grouped_cons (r : R) (records : list R) (m : JS.object V) :
  grouped (r :: records) m = grouped records (JS.upsert (key r) (init r) (step r) m).
Proof. reflexivity. Qed.

Lemma grouped_NoDup (records : list R) (m : JS.object V) :
  NoDup (map fst m) -> NoDup (map fst (grouped records m)).
Proof.
  revert m. induction records as [|r records IH]; intros m Hm; [exact Hm|].
  rewrite grouped_cons. apply IH. now apply JSFacts.upsert_NoDup.
Qed.

(** A key has an entry exactly when it had one or a record brings it. *)
Lemma grouped_has_key (records : list R) (m : JS.object V) (k : string) :
  JS.get k (grouped records m) <> None
  <-> JS.get k m <> None \/ firstOf k records <> None.
Proof.
  revert m. induction records as [|r records IH]; intros m.
  - simpl. tauto.
  - rewrite grouped_cons, IH. unfold Grouping.firstOf. simpl.
    destruct (String.eqb_spec (key r) k) as [->|Hne].
    + rewrite JSFacts.upsert_get_same. split; intros _; [right|left]; discriminate.
    + rewrite JSFacts.upsert_get_other by congruence. tauto.
Qed.

(** What an entry keeps: a view of the entry that no update changes is the
    view of the entry the first record of its key created. *)
Lemma grouped_first {X : Type} (view : V -> X) (records : list R) (m : JS.object V)
  (k : string) :
  (forall r v, view (step r v) = view v) ->
  JS.get k m = None ->
  forall t, JS.get k (grouped records m) = Some t ->
    exists r, firstOf k records = Some r /\ view t = view (init r).
Proof.
  intros Hview. revert m.
  assert (Hkept : forall records m t0 t,
            JS.get k m = Some t0 -> JS.get k (grouped records m) = Some t ->
            view t = view t0).
  { induction records0 as [|r rs IH]; intros m t0 t H0 Ht.
    - simpl in Ht. congruence.
    - rewrite grouped_cons in Ht.
      destruct (string_dec k (key r)) as [->|Hne].
      + rewrite (IH _ _ _ (JSFacts.upsert_get_same _ _ _ _) Ht), H0. apply Hview.
      + apply (IH _ t0 _) in Ht; [exact Ht|].
        now rewrite JSFacts.upsert_get_other. }
  induction records as [|r records IH]; intros m Hnone t Ht.
  - simpl in Ht. congruence.
  - rewrite grouped_cons in Ht. unfold Grouping.firstOf. simpl.
    destruct (String.eqb_spec (key r) k) as [<-|Hne].
    + exists r. split; [reflexivity|].
      rewrite (Hkept _ _ _ _ (JSFacts.upsert_get_same _ _ _ _) Ht), Hnone. apply Hview.
    + apply (IH _) in Ht; [exact Ht|].
      rewrite JSFacts.upsert_get_other by congruence. exact Hnone.
Qed.

(** What an entry adds up: a measure that starts at 0 and grows by the
    record's figure is, in the end, the sum of the figures of the records
    of the key. *)
Lemma grouped_sum (mu : V -> Q) (nu : R -> Q) (records : list R) (m : JS.object V)
  (k : string) :
  (forall r, mu (init r) == 0) ->
  (forall r v, mu (step r v) == mu v + nu r) ->
  forall t, JS.get k (grouped records m) = Some t ->
    mu t == match JS.get k m with Some t0 => mu t0 | None => 0 end
            + JS.sum (map nu (recordsOf k records)).
Proof.
  intros Hinit Hstep. revert m.
  induction records as [|r records IH]; intros m t Ht.
  - simpl in Ht. rewrite Ht. change (JS.sum _) with 0. lra.
  - rewrite grouped_cons in Ht. rewrite (IH _ _ Ht). unfold Grouping.recordsOf. simpl.
    destruct (String.eqb_spec (key r) k) as [<-|Hne].
    + rewrite JSFacts.upsert_get_same. cbn [map]. rewrite JSFacts.sum_cons, Hstep.
      destruct (JS.get (key r) m); [|rewrite Hinit]; lra.
    + rewrite JSFacts.upsert_get_other by congruence. lra.
Qed.

(** The measure over all the entries is the sum over all the records. *)
Lemma grouped_total (mu : V -> Q) (nu : R -> Q) (records : list R) (m : JS.object V) :
  (forall r, mu (init r) == 0) ->
  (forall r v, mu (step r v) == mu v + nu r) ->
  JS.sum (map mu (map snd (grouped records m)))
  == JS.sum (map mu (map snd m)) + JS.sum (map nu records).
Proof.
  intros Hinit Hstep. revert m.
  induction records as [|r records IH]; intros m.
  - simpl. change (JS.sum []) with 0. lra.
  - rewrite grouped_cons, IH, (JSFacts.upsert_sum mu _ _ _ _ (nu r)) by auto.
    cbn [map]. rewrite JSFacts.sum_cons. lra.
Qed.

(** What every entry satisfies when creation and update give it. *)
Lemma grouped_Forall (P : string -> V -> Prop) (records : list R) (m : JS.object V) :
  Forall (fun e => P (fst e) (snd e)) m ->
  (forall r, In r records -> P (key r) (step r (init r))) ->
  (forall r v, In r records -> P (key r) v -> P (key r) (step r v)) ->
  Forall (fun e => P (fst e) (snd e)) (grouped records m).
Proof.
  revert m. induction records as [|r records IH]; intros m Hm Hnew Hupd; [exact Hm|].
  rewrite grouped_cons. apply IH.
  - apply JSFacts.upsert_Forall; [exact Hm | apply Hnew; now left|].
    intros v. apply Hupd. now left.
  - intros r' Hr'. apply Hnew. now right.
  - intros r' v Hr'. apply Hupd. now right.
Qed.

End GroupingFacts.

(** A lookup over the keys of a dictionary visits every entry once. *)
Lemma sum_over_keys {V : Type} (mu : V -> Q) (default : V) (o : JS.object V) :
  NoDup (map fst o) ->
  JS.sum (map (fun k => mu (match JS.get k o with Some v => v | None => default end))
              (map fst o))
  == JS.sum (map mu (map snd o)).
Proof.
  intros Hnd.
  assert (H : map (fun k => mu (match JS.get k o with Some v => v | None => default end))
                  (map fst o) = map mu (map snd o)).
  { rewrite !map_map. apply map_ext_in. intros [k v] Hin. simpl.
    now rewrite (JSFacts.In_get k v o Hnd Hin). }
  now rewrite H.
Qed.

Lemma keys_permutation {V : Type} (o : JS.object V) : Permutation (JS.keys o) (map fst o).
Proof. apply Permutation_map, JSFacts.entries_permutation. Qed.

Lemma values_permutation {V : Type} (o : JS.object V) : Permutation (JS.values o) (map snd o).
Proof. apply Permutation_map, JSFacts.entries_permutation. Qed.

End GroupingFacts.

(** * The weekly aggregation, week by week *)

Module WeeklyGroups.
Import Weekly WeeklyTerms.

Lemma weeklyMap_grouped (cs : list Campaign) :
  weeklyMap cs
  = Grouping.grouped WeeklyPerformance.week_start newTotals addWeek (allWeeks cs) [].
Proof. apply GroupingFacts.fold_left_flat_map. Qed.

Lemma weeklyMap_NoDup (cs : list Campaign) : NoDup (map fst (weeklyMap cs)).
Proof. rewrite weeklyMap_grouped. apply GroupingFacts.grouped_NoDup. constructor. Qed.

(** Every entry sits under its own [weekStart]. *)
Lemma weeklyMap_keys (cs : list Campaign) :
  Forall (fun e => fst e = Totals.weekStart (snd e)) (weeklyMap cs).
Proof.
  rewrite weeklyMap_grouped.
  apply (GroupingFacts.grouped_Forall _ _ _ (fun k t => k = Totals.weekStart t));
    [constructor | reflexivity | auto].
Qed.

Lemma In_weeklyMap_get (cs : list Campaign) (g : AggregatedWeeklyPerformance.t) getTime :
  In g (finalWeeklyList getTime cs) ->
  exists t, JS.get (AggregatedWeeklyPerformance.weekStart g) (weeklyMap cs) = Some t
            /\ g = withRates t.
Proof.
  intros Hg. apply WeeklyFacts.In_finalWeeklyList in Hg as (k & t & Hin & ->).
  exists t. split; [|reflexivity].
  pose proof (weeklyMap_keys cs) as Hkeys. rewrite Forall_forall in Hkeys.
  specialize (Hkeys _ Hin). simpl in Hkeys. subst k.
  apply JSFacts.In_get; [apply weeklyMap_NoDup | exact Hin].
Qed.

Lemma weekStarts_permutation getTime (cs : list Campaign) :
  Permutation (map AggregatedWeeklyPerformance.weekStart (finalWeeklyList getTime cs))
              (map fst (weeklyMap cs)).
Proof.
  unfold finalWeeklyList, unsortedWeeklyList.
  rewrite (Permutation_map _ (JSFacts.sort_permutation _ _)).
  rewrite map_map.
  rewrite (Permutation_map _ (GroupingFacts.values_permutation _)).
  rewrite map_map. pose proof (weeklyMap_keys cs) as Hkeys.
  induction Hkeys as [|e l He _ IH]; simpl; [reflexivity|].
  rewrite <- He. now constructor.
Qed.

End WeeklyGroups.

(** X1: when no week is named like a member of [Object.prototype], the
    final weekly list has exactly one group per distinct [week_start] of
    the records: no week twice, every week of a record there, and no
    other. *)
Theorem weekly_one_group_per_week getTime (cs : list Weekly.Campaign) :
  WeeklyTerms.ordinaryWeeks cs ->
  let weeks := map Weekly.AggregatedWeeklyPerformance.weekStart
                   (Weekly.finalWeeklyList getTime cs) in
  NoDup weeks
  /\ (forall k, In k weeks
                <-> In k (map Weekly.WeeklyPerformance.week_start (Weekly.allWeeks cs))).
Proof.
  intros _ weeks. subst weeks.
  pose proof (WeeklyGroups.weekStarts_permutation getTime cs) as Hperm.
  split.
  - apply (Permutation_NoDup (Permutation_sym Hperm)). apply WeeklyGroups.weeklyMap_NoDup.
  - intros k. transitivity (In k (map fst (Weekly.weeklyMap cs))).
    { split; apply Permutation_in; [|symmetry]; exact Hperm. }
    transitivity (JS.get k (Weekly.weeklyMap cs) <> None).
    { split.
      - intros Hin Hnone. now apply JSFacts.get_None in Hnone.
      - intros Hget. destruct (JS.get k (Weekly.weeklyMap cs)) as [t|] eqn:E; [|congruence].
        apply JSFacts.get_In in E. now apply (in_map fst) in E. }
    rewrite WeeklyGroups.weeklyMap_grouped, GroupingFacts.grouped_has_key.
    unfold Grouping.firstOf. split.
    + intros [H|H]; [now elim H|].
      destruct (find _ _) as [w|] eqn:E; [|congruence].
      apply find_some in E as [Hw Hk]. apply String.eqb_eq in Hk. subst k.
      now apply in_map.
    + intros Hin. right. apply in_map_iff in Hin as [w [<- Hw]].
      destruct (find _ _) eqn:E; [discriminate|].
      apply (find_none _ _ E) in Hw. now rewrite String.eqb_refl in Hw.
Qed.

Lemma scenario1_ordinaryWeeks : WeeklyTerms.ordinaryWeeks WeeklyTerms.scenario1.
Proof. intros w [<-|[<-|[]]]; reflexivity. Qed.

(** X1 on Scenario 1: two records of the same week, one group. *)
Lemma weekly_one_group_per_week_witness :
  map Weekly.AggregatedWeeklyPerformance.weekStart
      (Weekly.finalWeeklyList (fun _ => None) WeeklyTerms.scenario1) = ["2024-01-01"]
  /\ NoDup (map Weekly.AggregatedWeeklyPerformance.weekStart
               (Weekly.finalWeeklyList (fun _ => None) WeeklyTerms.scenario1)).
Proof.
  split; [reflexivity|].
  exact (proj1 (weekly_one_group_per_week (fun _ => None) WeeklyTerms.scenario1
                  scenario1_ordinaryWeeks)).
Defined.

(** X2: the figures of a weekly group are the sums of the figures of the
    records of its week, across all campaigns. *)
Theorem weekly_group_sums getTime (cs : list Weekly.Campaign)
  (g : Weekly.AggregatedWeeklyPerformance.t) :
  In g (Weekly.finalWeeklyList getTime cs) ->
  let mine := Grouping.recordsOf Weekly.WeeklyPerformance.week_start
                (Weekly.AggregatedWeeklyPerformance.weekStart g) (Weekly.allWeeks cs) in
  Weekly.AggregatedWeeklyPerformance.impressions g
    == JS.sum (map Weekly.WeeklyPerformance.impressions mine)
  /\ Weekly.AggregatedWeeklyPerformance.clicks g
    == JS.sum (map Weekly.WeeklyPerformance.clicks mine)
  /\ Weekly.AggregatedWeeklyPerformance.conversions g
    == JS.sum (map Weekly.WeeklyPerformance.conversions mine)
  /\ Weekly.AggregatedWeeklyPerformance.spend g
    == JS.sum (map Weekly.WeeklyPerformance.spend mine)
  /\ Weekly.AggregatedWeeklyPerformance.revenue g
    == JS.sum (map Weekly.WeeklyPerformance.revenue mine).
Proof.
  intros Hg mine. apply WeeklyGroups.In_weeklyMap_get in Hg as (t & Hget & ->).
  rewrite WeeklyGroups.weeklyMap_grouped in Hget.
  assert (H : forall (mu : Weekly.Totals.t -> Q) (nu : Weekly.WeeklyPerformance.t -> Q),
             (forall r, mu (Weekly.newTotals r) == 0) ->
             (forall r v, mu (Weekly.addWeek r v) == mu v + nu r) ->
             mu t == JS.sum (map nu mine)).
  { intros mu nu H0 H1.
    rewrite (GroupingFacts.grouped_sum _ _ _ mu nu _ _ _ H0 H1 t Hget).
    subst mine. cbn [JS.get]. apply Qplus_0_l. }
  repeat split; apply H; intros; reflexivity.
Qed.

(** X2 on Scenario 1: spends of 100 and 50 in the same week give one group
    with a spend of 150. *)
Lemma weekly_group_sums_witness :
  Forall (fun g => Weekly.AggregatedWeeklyPerformance.spend g == 150)
         (Weekly.finalWeeklyList (fun _ => None) WeeklyTerms.scenario1)
  /\ List.length (Weekly.finalWeeklyList (fun _ => None) WeeklyTerms.scenario1) = 1%nat.
Proof.
  split; [|reflexivity].
  apply Forall_forall. intros g Hg.
  destruct (weekly_group_sums (fun _ => None) WeeklyTerms.scenario1 g Hg)
    as (_ & _ & _ & Hspend & _).
  rewrite Hspend. destruct Hg as [<-|[]]. reflexivity.
Defined.

(** X3: a weekly group keeps the [week_end] of the first record of its
    week; later records of the week do not change it. *)
Theorem weekly_first_week_end getTime (cs : list Weekly.Campaign)
  (g : Weekly.AggregatedWeeklyPerformance.t) :
  In g (Weekly.finalWeeklyList getTime cs) ->
  exists w,
    WeeklyTerms.firstWeek (Weekly.AggregatedWeeklyPerformance.weekStart g) cs = Some w
    /\ Weekly.AggregatedWeeklyPerformance.weekEnd g = Weekly.WeeklyPerformance.week_end w.
Proof.
  intros Hg. apply WeeklyGroups.In_weeklyMap_get in Hg as (t & Hget & ->).
  rewrite WeeklyGroups.weeklyMap_grouped in Hget.
  apply (GroupingFacts.grouped_first _ _ _ Weekly.Totals.weekEnd) in Hget
    as (w & Hfirst & Hend); [|reflexivity|reflexivity].
  exists w. split; [exact Hfirst | exact Hend].
Qed.

(** X3 on a week reported with two ends: the first one stays. *)
Lemma weekly_first_week_end_witness :
  Forall (fun g => Weekly.AggregatedWeeklyPerformance.weekEnd g = "2024-01-07")
         (Weekly.finalWeeklyList (fun _ => None) WeeklyTerms.sameWeekTwoEnds).
Proof.
  apply Forall_forall. intros g Hg.
  destruct (weekly_first_week_end (fun _ => None) WeeklyTerms.sameWeekTwoEnds g Hg)
    as (w & Hfirst & Hend).
  rewrite Hend. destruct Hg as [<-|[]]. vm_compute in Hfirst. now injection Hfirst as <-.
Defined.

(** * Sorting by a rank *)

Module SortFacts.
Section SortedByRank.
Context {A : Type} (cmp : A -> A -> option JS.number) (rank : A -> Q).

Lemma sort_insert_ranked (a : A) (l : list A) :
  (forall b, In b l -> JS.after cmp a b = true <-> rank b < rank a) ->
  StronglySorted (fun x y => rank x <= rank y) l ->
  StronglySorted (fun x y => rank x <= rank y) (JS.sort_insert cmp a l).
Proof.
  intros Hcmp Hs. induction Hs as [|b l Hs IH Hb]; simpl.
  - repeat constructor.
  - destruct (JS.after cmp a b) eqn:E.
    + apply (Hcmp b (or_introl eq_refl)) in E.
      constructor.
      * apply IH. intros b' Hb'. apply Hcmp. now right.
      * apply Forall_forall. intros x Hx.
        apply (Permutation_in _ (JSFacts.sort_insert_permutation cmp a l)) in Hx.
        destruct Hx as [<-|Hx]; [lra|].
        rewrite Forall_forall in Hb. now apply Hb.
    + assert (Hle : rank a <= rank b).
      { destruct (Qlt_le_dec (rank b) (rank a)) as [Hlt|Hle]; [|exact Hle].
        apply (Hcmp b (or_introl eq_refl)) in Hlt. congruence. }
      constructor; [now constructor|].
      constructor; [exact Hle|].
      rewrite Forall_forall in *. intros x Hx. specialize (Hb x Hx). lra.
Qed.

(** A comparator that says "after" exactly for the greater rank sorts by
    rank. *)
Lemma sort_ranked (l : list A) :
  (forall a b, In a l -> In b l -> JS.after cmp a b = true <-> rank b < rank a) ->
  StronglySorted (fun x y => rank x <= rank y) (JS.sort cmp l).
Proof.
  induction l as [|a l IH]; intros Hcmp; unfold JS.sort; simpl.
  - constructor.
  - apply sort_insert_ranked.
    + intros b Hb. apply Hcmp; [now left | right].
      exact (Permutation_in _ (JSFacts.sort_permutation cmp l) Hb).
    + apply IH. intros x y Hx Hy. apply Hcmp; now right.
Qed.

End SortedByRank.

Lemma sum_le {A : Type} (f g : A -> Q) (l : list A) :
  (forall x, In x l -> f x <= g x) -> JS.sum (map f l) <= JS.sum (map g l).
Proof.
  induction l as [|x l IH]; intros H; simpl.
  - apply Qle_refl.
  - rewrite !JSFacts.sum_cons.
    apply Qplus_le_compat; [apply H; now left | apply IH; intros y Hy; apply H; now right].
Qed.

End SortFacts.

(** X4: when the runtime reads the date of every week, the final weekly
    list is in ascending order of date. *)
Theorem weekly_chronological (getTime : string -> option JS.number)
  (date : string -> JS.number) (cs : list Weekly.Campaign) :
  WeeklyTerms.datesRead getTime date cs ->
  StronglySorted
    (fun a b => date (Weekly.AggregatedWeeklyPerformance.weekStart a)
                <= date (Weekly.AggregatedWeeklyPerformance.weekStart b))
    (Weekly.finalWeeklyList getTime cs).
Proof.
  intros Hdates. unfold Weekly.finalWeeklyList.
  apply (SortFacts.sort_ranked _
           (fun g => date (Weekly.AggregatedWeeklyPerformance.weekStart g))).
  intros a b Ha Hb.
  assert (Hin : forall g, In g (Weekly.unsortedWeeklyList cs) ->
            getTime (Weekly.AggregatedWeeklyPerformance.weekStart g)
            = Some (date (Weekly.AggregatedWeeklyPerformance.weekStart g))).
  { intros g Hg. apply Hdates. unfold Weekly.finalWeeklyList.
    exact (Permutation_in _ (Permutation_sym (JSFacts.sort_permutation _ _)) Hg). }
  unfold JS.after, Weekly.byWeekStart. rewrite (Hin a Ha), (Hin b Hb), JSFacts.gt_true.
  split; intros H; lra.
Qed.

(** X4 on two weeks given out of order. *)
Lemma weekly_chronological_witness :
  map Weekly.AggregatedWeeklyPerformance.weekStart
      (Weekly.finalWeeklyList WeeklyTerms.januaryDay
         [ {| Weekly.weekly_performance :=
                [ Weekly.week "2024-01-08" 1000 90 45 50 400;
                  Weekly.week "2024-01-01" 1000 10 1 100 200 ] |} ])
  = ["2024-01-01"; "2024-01-08"]
  /\ StronglySorted
       (fun a b => (match WeeklyTerms.januaryDay (Weekly.AggregatedWeeklyPerformance.weekStart a)
                    with Some d => d | None => 0 end)
                   <= (match WeeklyTerms.januaryDay (Weekly.AggregatedWeeklyPerformance.weekStart b)
                       with Some d => d | None => 0 end))
       (Weekly.finalWeeklyList WeeklyTerms.januaryDay
          [ {| Weekly.weekly_performance :=
                 [ Weekly.week "2024-01-08" 1000 90 45 50 400;
                   Weekly.week "2024-01-01" 1000 10 1 100 200 ] |} ]).
Proof.
  split; [reflexivity|].
  apply (weekly_chronological WeeklyTerms.januaryDay
           (fun s => match WeeklyTerms.januaryDay s with Some d => d | None => 0 end)).
  intros g [<-|[<-|[]]]; reflexivity.
Defined.

(** X5: when no week is named like a member of [Object.prototype], the
    weekly [totalRevenue] and [totalSpend] are the revenue and the spend
    of all the weekly records of all the campaigns (in exact
    arithmetic). *)
Theorem weekly_totals_preserved getTime (md : option Weekly.MarketingData) :
  WeeklyTerms.ordinaryWeeks (Weekly.campaignsOf md) ->
  Weekly.totalRevenue (Weekly.aggregatedData getTime md)
    == JS.sum (map Weekly.WeeklyPerformance.revenue (Weekly.allWeeks (Weekly.campaignsOf md)))
  /\ Weekly.totalSpend (Weekly.aggregatedData getTime md)
    == JS.sum (map Weekly.WeeklyPerformance.spend (Weekly.allWeeks (Weekly.campaignsOf md))).
Proof.
  assert (H : forall cs f nu,
            (forall w, f (Weekly.withRates (Weekly.newTotals w)) == 0) ->
            (forall w t, f (Weekly.withRates (Weekly.addWeek w t))
                         == f (Weekly.withRates t) + nu w) ->
            JS.sum (map f (Weekly.finalWeeklyList getTime cs))
            == JS.sum (map nu (Weekly.allWeeks cs))).
  { intros cs f nu H0 H1. rewrite WeeklyFacts.finalWeeklyList_sum.
    now apply (WeeklyFacts.weeklyMap_sum (fun t => f (Weekly.withRates t)) nu). }
  intros _. unfold Weekly.aggregatedData, Weekly.campaignsOf.
  destruct md as [[[|c cs]]|]; cbn [Weekly.campaigns Weekly.totalRevenue Weekly.totalSpend
                                    Weekly.initialWeeklyResult];
    try (split; reflexivity).
  split; apply H; intros; reflexivity.
Qed.

Lemma twoWeeks_ordinaryWeeks :
  WeeklyTerms.ordinaryWeeks (Weekly.campaignsOf (Some Weekly.twoWeeks)).
Proof. intros w [<-|[<-|[]]]; reflexivity. Qed.

(** X5 on two weeks: revenues of 200 and 400 make 600, spends of 100 and
    50 make 150. *)
Lemma weekly_totals_preserved_witness :
  Weekly.totalRevenue (Weekly.aggregatedData (fun _ => None) (Some Weekly.twoWeeks)) == 600
  /\ Weekly.totalSpend (Weekly.aggregatedData (fun _ => None) (Some Weekly.twoWeeks)) == 150.
Proof.
  destruct (weekly_totals_preserved (fun _ => None) (Some Weekly.twoWeeks)
              twoWeeks_ordinaryWeeks) as [Hrevenue Hspend].
  split; [rewrite Hrevenue | rewrite Hspend]; reflexivity.
Defined.

(** X6: with counts that are 0 or more and no record converting more
    often than it is clicked, the weekly [avgConversionRate] is between 0
    and 1. *)
Theorem weekly_average_rate_bounds getTime (md : option Weekly.MarketingData) :
  Weekly.nonNegative (Weekly.campaignsOf md) ->
  WeeklyTerms.conversionsWithinClicks (Weekly.campaignsOf md) ->
  0 <= Weekly.avgConversionRate (Weekly.aggregatedData getTime md)
  /\ Weekly.avgConversionRate (Weekly.aggregatedData getTime md) <= 1.
Proof.
  intros Hnn Hwithin.
  set (final := Weekly.finalWeeklyList getTime (Weekly.campaignsOf md)).
  set (totalConversions := JS.sum (map Weekly.AggregatedWeeklyPerformance.conversions final)).
  set (totalClicks := JS.sum (map Weekly.AggregatedWeeklyPerformance.clicks final)).
  assert (Heq : Weekly.avgConversionRate (Weekly.aggregatedData getTime md)
                = (if JS.gt totalClicks 0 then totalConversions / totalClicks else 0)).
  { subst totalClicks totalConversions final. unfold Weekly.aggregatedData, Weekly.campaignsOf.
    destruct md as [[[|c cs]]|]; reflexivity. }
  assert (H0 : 0 <= totalConversions).
  { subst totalConversions final. rewrite WeeklyFacts.finalWeeklyList_conversions.
    apply JSFacts.sum_nonneg, Forall_forall. intros x Hx.
    apply in_map_iff in Hx as [w [<- Hw]].
    apply in_flat_map in Hw as [c [Hc Hw]]. now destruct (Hnn c w Hc Hw) as (_ & _ & H). }
  assert (H1 : totalConversions <= totalClicks).
  { subst totalConversions totalClicks final.
    rewrite WeeklyFacts.finalWeeklyList_conversions, WeeklyFacts.finalWeeklyList_clicks.
    apply SortFacts.sum_le. exact Hwithin. }
  rewrite Heq. split; [now apply JSFacts.rate_nonneg | now apply JSFacts.rate_at_most_one].
Qed.

Lemma twoWeeks_nonNegative : Weekly.nonNegative (Weekly.campaigns Weekly.twoWeeks).
Proof. intros c w [<-|[]] [<-|[<-|[]]]; simpl; repeat split; discriminate. Qed.

(** X6 on two weeks converting at 10% and 50%: 46 conversions on 100
    clicks. *)
Lemma weekly_average_rate_bounds_witness :
  0 <= Weekly.avgConversionRate (Weekly.aggregatedData (fun _ => None) (Some Weekly.twoWeeks))
  /\ Weekly.avgConversionRate (Weekly.aggregatedData (fun _ => None) (Some Weekly.twoWeeks)) <= 1.
Proof.
  apply (weekly_average_rate_bounds (fun _ => None) (Some Weekly.twoWeeks)).
  - exact twoWeeks_nonNegative.
  - intros w [<-|[<-|[]]]; discriminate.
Defined.

(** * The regional aggregation, key by key *)

Module RegionGroups.
Import Region RegionTerms.

Lemma regionalMap_grouped (cs : list Campaign) :
  regionalMap cs = Grouping.grouped keyOf newEntry addRegion (allRecords cs) [].
Proof. apply GroupingFacts.fold_left_flat_map. Qed.

(** The entry of a key is as the first record of the key made it. *)
Lemma regionalMap_first (cs : list Campaign) (k : string) (t : AggregatedRegionalPerformance.t) :
  JS.get k (regionalMap cs) = Some t ->
  exists first, firstRecord k cs = Some first /\ identity t = identity (newEntry first).
Proof.
  rewrite regionalMap_grouped. intros Hget.
  apply (GroupingFacts.grouped_first _ _ _ identity) in Hget; [exact Hget| |reflexivity].
  reflexivity.
Qed.

Lemma In_regionalMap_get (cs : list Campaign) (k : string) (t : AggregatedRegionalPerformance.t) :
  In (k, t) (regionalMap cs) ->
  k = keyOfItem t /\ JS.get (keyOfItem t) (regionalMap cs) = Some t.
Proof.
  intros Hin. destruct (RegionFacts.regionalMap_wellFormed cs) as [Hall Hnd].
  rewrite Forall_forall in Hall. destruct (Hall _ Hin) as (Hk & _). cbn [fst snd] in Hk.
  split; [exact Hk|]. subst k. now apply JSFacts.In_get.
Qed.

Lemma mapped_hasCoordinates (t : AggregatedRegionalPerformance.t) (first : RegionalPerformance.t) :
  identity t = identity (newEntry first) ->
  hasCoordinates (withRates t) = true <-> mapped (RegionalPerformance.region first).
Proof.
  intros Hid. injection Hid as Hregion Hcountry Hlat Hlon.
  rewrite RegionFacts.hasCoordinates_true.
  destruct (RegionFacts.withRates_same_place t) as (_ & -> & ->).
  rewrite Hlat, Hlon. cbn [newEntry AggregatedRegionalPerformance.latitude
                           AggregatedRegionalPerformance.longitude].
  rewrite RegionFacts.getCoordinates_origin. reflexivity.
Qed.

Lemma allMapped_keeps_all (cs : list Campaign) :
  allMapped cs ->
  finalRegionalList cs = map withRates (JS.values (regionalMap cs)).
Proof.
  intros Hall. unfold finalRegionalList.
  apply forallb_filter_id. apply forallb_forall. intros g Hg.
  apply in_map_iff in Hg as [t [<- Ht]]. apply JSFacts.In_values in Ht as [k Hin].
  apply In_regionalMap_get in Hin as [_ Hget].
  apply regionalMap_first in Hget as (first & Hfirst & Hid).
  apply (mapped_hasCoordinates _ _ Hid). apply Hall.
  unfold firstRecord in Hfirst. now apply find_some in Hfirst as [Hfirst _].
Qed.

(** Where a group of the final list comes from. *)
Lemma final_group_identity (cs : list Campaign) (g : AggregatedRegionalPerformance.t) :
  In g (finalRegionalList cs) ->
  exists first,
    firstRecord (keyOfItem g) cs = Some first
    /\ AggregatedRegionalPerformance.region g = RegionalPerformance.region first
    /\ AggregatedRegionalPerformance.country g = RegionalPerformance.country first
    /\ JS.get (RegionalPerformance.region first) Geo.REGION_COORDINATES
       = Some (Geo.getCoordinates (RegionalPerformance.region first))
    /\ AggregatedRegionalPerformance.latitude g
       = Geo.lat (Geo.getCoordinates (RegionalPerformance.region first))
    /\ AggregatedRegionalPerformance.longitude g
       = Geo.lon (Geo.getCoordinates (RegionalPerformance.region first)).
Proof.
  intros Hg.
  apply RegionFacts.In_finalRegionalList in Hg as (k & t & Hin & -> & Hcoord).
  destruct (In_regionalMap_get cs _ t Hin) as [_ Hget].
  destruct (RegionFacts.withRates_same_place t) as (Hk & Hlat & Hlon).
  rewrite Hk.
  destruct (regionalMap_first cs _ t Hget) as (first & Hfirst & Hid).
  exists first. split; [exact Hfirst|].
  apply (mapped_hasCoordinates t first Hid) in Hcoord.
  injection Hid as Hregion Hcountry Hla Hlo.
  split; [exact Hregion|]. split; [exact Hcountry|]. split.
  - unfold mapped in Hcoord. unfold Geo.getCoordinates.
    now destruct (JS.get _ Geo.REGION_COORDINATES).
  - rewrite Hlat, Hlon. now split.
Qed.

(** The figures of an entry are the sums over the records of its key. *)
Lemma entry_sums (cs : list Campaign) (k : string) (t : AggregatedRegionalPerformance.t) :
  JS.get k (regionalMap cs) = Some t ->
  let mine := Grouping.recordsOf keyOf k (allRecords cs) in
  AggregatedRegionalPerformance.impressions t
    == JS.sum (map RegionalPerformance.impressions mine)
  /\ AggregatedRegionalPerformance.clicks t == JS.sum (map RegionalPerformance.clicks mine)
  /\ AggregatedRegionalPerformance.conversions t
    == JS.sum (map RegionalPerformance.conversions mine)
  /\ AggregatedRegionalPerformance.spend t == JS.sum (map RegionalPerformance.spend mine)
  /\ AggregatedRegionalPerformance.revenue t == JS.sum (map RegionalPerformance.revenue mine).
Proof.
  intros Hget mine. subst mine. rewrite regionalMap_grouped in Hget.
  assert (H : forall (mu : AggregatedRegionalPerformance.t -> Q)
                     (nu : RegionalPerformance.t -> Q),
             (forall r, mu (newEntry r) == 0) ->
             (forall r v, mu (addRegion r v) == mu v + nu r) ->
             mu t == JS.sum (map nu (Grouping.recordsOf keyOf k (allRecords cs)))).
  { intros mu nu H0 H1.
    rewrite (GroupingFacts.grouped_sum _ _ _ mu nu _ _ _ H0 H1 t Hget).
    cbn [JS.get]. apply Qplus_0_l. }
  repeat split; apply H; intros; reflexivity.
Qed.

(** The groups of the final list have their own keys. *)
Lemma final_group_entry (cs : list Campaign) (g : AggregatedRegionalPerformance.t) :
  In g (finalRegionalList cs) ->
  exists t, JS.get (keyOfItem g) (regionalMap cs) = Some t
            /\ g = withRates t /\ hasCoordinates (withRates t) = true.
Proof.
  intros Hg.
  apply RegionFacts.In_finalRegionalList in Hg as (k & t & Hin & -> & Hcoord).
  destruct (In_regionalMap_get cs _ t Hin) as [_ Hget].
  destruct (RegionFacts.withRates_same_place t) as (Hk & _).
  exists t. rewrite Hk. now repeat split.
Qed.

End RegionGroups.

(** C6: no group of the final regional list, and so no point of the two
    map series, sits at (0, 0).  The key of every record has an entry in
    [regionalMap], made at the first record of the key, whose figures are
    the sums over all the records of the key: every region is accumulated.
    When the geo lookup of that first record's region returns the fallback
    (0, 0), the entry sits at (0, 0) and no group of the final list has its
    key: the region is accumulated and left out. *)
Theorem C6_unmapped_regions_left_out (cs : list Region.Campaign) :
  (forall g, In g (Region.finalRegionalList cs) ->
     ~ (Region.AggregatedRegionalPerformance.latitude g == 0
        /\ Region.AggregatedRegionalPerformance.longitude g == 0))
  /\ (forall c r, In c cs -> In r (Region.regional_performance c) ->
      let mine := Grouping.recordsOf Region.keyOf (Region.keyOf r) (RegionTerms.allRecords cs) in
      exists first t,
        RegionTerms.firstRecord (Region.keyOf r) cs = Some first
        /\ JS.get (Region.keyOf r) (Region.regionalMap cs) = Some t
        /\ Region.AggregatedRegionalPerformance.impressions t
           == JS.sum (map Region.RegionalPerformance.impressions mine)
        /\ Region.AggregatedRegionalPerformance.clicks t
           == JS.sum (map Region.RegionalPerformance.clicks mine)
        /\ Region.AggregatedRegionalPerformance.conversions t
           == JS.sum (map Region.RegionalPerformance.conversions mine)
        /\ Region.AggregatedRegionalPerformance.spend t
           == JS.sum (map Region.RegionalPerformance.spend mine)
        /\ Region.AggregatedRegionalPerformance.revenue t
           == JS.sum (map Region.RegionalPerformance.revenue mine)
        /\ (RegionTerms.unmapped (Region.RegionalPerformance.region first) ->
            Region.AggregatedRegionalPerformance.latitude t == 0
            /\ Region.AggregatedRegionalPerformance.longitude t == 0
            /\ forall g, In g (Region.finalRegionalList cs) ->
                         Region.keyOfItem g <> Region.keyOf r))
  /\ (forall p,
      In p (Region.revenueMapData (Region.aggregatedData (Some {| Region.campaigns := cs |})))
      \/ In p (Region.spendMapData (Region.aggregatedData (Some {| Region.campaigns := cs |}))) ->
      ~ (Region.BubbleMapDataPoint.latitude p == 0
         /\ Region.BubbleMapDataPoint.longitude p == 0)).
Proof.
  assert (Hfinal : forall g, In g (Region.finalRegionalList cs) ->
            ~ (Region.AggregatedRegionalPerformance.latitude g == 0
               /\ Region.AggregatedRegionalPerformance.longitude g == 0)).
  { intros g Hg. apply RegionFacts.In_finalRegionalList in Hg as (_ & _ & _ & _ & Hc).
    now apply RegionFacts.hasCoordinates_true. }
  split; [exact Hfinal|]. split.
  2:{ intros p Hp. unfold Region.aggregatedData in Hp. cbn [Region.campaigns] in Hp.
      destruct cs as [|c cs]; [destruct Hp as [[]|[]]|].
      cbn [Region.revenueMapData Region.spendMapData] in Hp.
      rewrite !in_map_iff in Hp.
      destruct Hp as [[g [<- Hg]]|[g [<- Hg]]];
        apply (Permutation_in _ (JSFacts.sort_permutation _ _)) in Hg;
        exact (Hfinal g Hg). }
  intros c r Hc Hr mine.
  destruct (JS.get (Region.keyOf r) (Region.regionalMap cs)) as [t|] eqn:E.
  2:{ now apply (RegionFacts.regionalMap_has_key cs c r) in Hc. }
  destruct (RegionGroups.regionalMap_first cs _ t E) as (first & Hfirst & Hid).
  destruct (RegionGroups.entry_sums cs _ t E) as (H1 & H2 & H3 & H4 & H5).
  exists first, t. split; [exact Hfirst|]. split; [reflexivity|].
  split; [exact H1|]. split; [exact H2|]. split; [exact H3|].
  split; [exact H4|]. split; [exact H5|].
  intros [_ Hfallback].
  pose proof (RegionGroups.mapped_hasCoordinates t first Hid) as Hiff.
  injection Hid as _ _ Hlat Hlon.
  cbn [Region.newEntry Region.AggregatedRegionalPerformance.latitude
       Region.AggregatedRegionalPerformance.longitude] in Hlat, Hlon.
  rewrite Hfallback in Hlat, Hlon.
  split; [rewrite Hlat; reflexivity|]. split; [rewrite Hlon; reflexivity|].
  intros g Hg Hsame.
  apply RegionGroups.final_group_entry in Hg as (t' & Hget' & -> & Hcoord).
  rewrite Hsame, E in Hget'. injection Hget' as <-.
  apply Hiff in Hcoord. apply Hcoord.
  now apply RegionFacts.getCoordinates_fallback.
Qed.

(** C6 on Scenario 5: the record of "Atlantis" has its entry, with its
    1000 impressions and its revenue of 200, and no group of the final
    list has its key. *)
Lemma C6_unmapped_regions_left_out_witness :
  exists t,
    JS.get "Atlantis-Nowhere" (Region.regionalMap Region.scenario5) = Some t
    /\ Region.AggregatedRegionalPerformance.impressions t == 1000
    /\ Region.AggregatedRegionalPerformance.revenue t == 200
    /\ Forall (fun g => Region.keyOfItem g <> "Atlantis-Nowhere")
              (Region.finalRegionalList Region.scenario5).
Proof.
  destruct (C6_unmapped_regions_left_out Region.scenario5) as (_ & Hkeys & _).
  destruct (Hkeys {| Region.regional_performance :=
                       [ Region.record "Atlantis" "Nowhere" 1000 100 10 50 200;
                         Region.record "Dubai" "UAE" 2000 100 20 100 300 ] |}
                  (Region.record "Atlantis" "Nowhere" 1000 100 10 50 200))
    as (first & t & Hfirst & Hget & Himp & _ & _ & _ & Hrev & Hout).
  - now left.
  - now left.
  - exists t. split; [exact Hget|].
    split; [rewrite Himp; reflexivity|]. split; [rewrite Hrev; reflexivity|].
    apply Forall_forall. apply Hout.
    vm_compute in Hfirst. injection Hfirst as <-. split; reflexivity.
Defined.

(** X7: when no region is named like a member of [Object.prototype], a
    record's key has a group in the final regional list exactly when the
    geo table has the region of the first record of that key. *)
Theorem region_group_iff_mapped (cs : list Region.Campaign) (c : Region.Campaign)
  (r : Region.RegionalPerformance.t) :
  RegionTerms.ordinaryRegions cs ->
  In c cs -> In r (Region.regional_performance c) ->
  exists first,
    RegionTerms.firstRecord (Region.keyOf r) cs = Some first
    /\ ((exists g, In g (Region.finalRegionalList cs)
                   /\ Region.keyOfItem g = Region.keyOf r)
        <-> RegionTerms.mapped (Region.RegionalPerformance.region first)).
Proof.
  intros _ Hc Hr.
  destruct (JS.get (Region.keyOf r) (Region.regionalMap cs)) as [t|] eqn:E.
  2:{ now apply (RegionFacts.regionalMap_has_key cs c r) in Hc. }
  destruct (RegionGroups.regionalMap_first cs _ t E) as (first & Hfirst & Hid).
  exists first. split; [exact Hfirst|].
  rewrite <- (RegionGroups.mapped_hasCoordinates t first Hid).
  split.
  - intros (g & Hg & Hsame).
    apply RegionGroups.final_group_entry in Hg as (t' & Hget' & -> & Hcoord).
    rewrite Hsame, E in Hget'. now injection Hget' as ->.
  - intros Hcoord. exists (Region.withRates t). split.
    + apply RegionFacts.In_finalRegionalList. exists (Region.keyOf r), t.
      split; [now apply JSFacts.get_In|]. now split.
    + destruct (RegionFacts.withRates_same_place t) as (-> & _).
      pose proof (JSFacts.get_In _ _ _ E) as Hin.
      destruct (RegionGroups.In_regionalMap_get cs _ t Hin) as [Hkey _]. now symmetry.
Qed.

Lemma scenario5_ordinaryRegions : RegionTerms.ordinaryRegions Region.scenario5.
Proof. intros r [<-|[<-|[]]]; reflexivity. Qed.

(** X7 on Scenario 5: "Dubai" has its group, "Atlantis" has none. *)
Lemma region_group_iff_mapped_witness :
  (exists g, In g (Region.finalRegionalList Region.scenario5)
             /\ Region.keyOfItem g = "Dubai-UAE")
  /\ ~ (exists g, In g (Region.finalRegionalList Region.scenario5)
                  /\ Region.keyOfItem g = "Atlantis-Nowhere").
Proof.
  pose (c := {| Region.regional_performance :=
                  [ Region.record "Atlantis" "Nowhere" 1000 100 10 50 200;
                    Region.record "Dubai" "UAE" 2000 100 20 100 300 ] |}).
  split.
  - destruct (region_group_iff_mapped Region.scenario5 c
                (Region.record "Dubai" "UAE" 2000 100 20 100 300)
                scenario5_ordinaryRegions)
      as (first & Hfirst & Hiff); [now left | right; now left|].
    apply Hiff. vm_compute in Hfirst. injection Hfirst as <-. discriminate.
  - destruct (region_group_iff_mapped Region.scenario5 c
                (Region.record "Atlantis" "Nowhere" 1000 100 10 50 200)
                scenario5_ordinaryRegions)
      as (first & Hfirst & Hiff); [now left | now left|].
    intros H. apply Hiff in H. vm_compute in Hfirst. injection Hfirst as <-.
    now apply H.
Defined.

(** X8: when no region is named like a member of [Object.prototype], a
    group of the final regional list carries the region and the country of
    the first record of its key and the table position of that region, and
    its figures are the sums over the records of the key. *)
Theorem region_group_sums (cs : list Region.Campaign)
  (g : Region.AggregatedRegionalPerformance.t) :
  RegionTerms.ordinaryRegions cs ->
  In g (Region.finalRegionalList cs) ->
  let mine := Grouping.recordsOf Region.keyOf (Region.keyOfItem g) (RegionTerms.allRecords cs) in
  (exists first,
     RegionTerms.firstRecord (Region.keyOfItem g) cs = Some first
     /\ Region.AggregatedRegionalPerformance.region g = Region.RegionalPerformance.region first
     /\ Region.AggregatedRegionalPerformance.country g = Region.RegionalPerformance.country first
     /\ JS.get (Region.RegionalPerformance.region first) Geo.REGION_COORDINATES
        = Some (Geo.getCoordinates (Region.RegionalPerformance.region first))
     /\ Region.AggregatedRegionalPerformance.latitude g
        = Geo.lat (Geo.getCoordinates (Region.RegionalPerformance.region first))
     /\ Region.AggregatedRegionalPerformance.longitude g
        = Geo.lon (Geo.getCoordinates (Region.RegionalPerformance.region first)))
  /\ Region.AggregatedRegionalPerformance.impressions g
     == JS.sum (map Region.RegionalPerformance.impressions mine)
  /\ Region.AggregatedRegionalPerformance.clicks g
     == JS.sum (map Region.RegionalPerformance.clicks mine)
  /\ Region.AggregatedRegionalPerformance.conversions g
     == JS.sum (map Region.RegionalPerformance.conversions mine)
  /\ Region.AggregatedRegionalPerformance.spend g
     == JS.sum (map Region.RegionalPerformance.spend mine)
  /\ Region.AggregatedRegionalPerformance.revenue g
     == JS.sum (map Region.RegionalPerformance.revenue mine).
Proof.
  intros _ Hg mine. split; [now apply RegionGroups.final_group_identity|].
  apply RegionGroups.final_group_entry in Hg as (t & Hget & -> & _).
  exact (RegionGroups.entry_sums cs _ t Hget).
Qed.

Lemma twoCities_ordinaryRegions : RegionTerms.ordinaryRegions RegionTerms.twoCities.
Proof. intros r [<-|[<-|[<-|[]]]]; reflexivity. Qed.

(** X8 on two campaigns reporting "Dubai": 2000 and 1000 impressions give
    3000. *)
Lemma region_group_sums_witness :
  exists g, In g (Region.finalRegionalList RegionTerms.twoCities)
            /\ Region.keyOfItem g = "Dubai-UAE"
            /\ Region.AggregatedRegionalPerformance.impressions g == 3000
            /\ Region.AggregatedRegionalPerformance.revenue g == 400.
Proof.
  remember (Region.finalRegionalList RegionTerms.twoCities) as final eqn:E.
  destruct final as [|g l]; [discriminate E|].
  assert (Hg : In g (Region.finalRegionalList RegionTerms.twoCities))
    by (rewrite <- E; now left).
  destruct (region_group_sums RegionTerms.twoCities g twoCities_ordinaryRegions Hg)
    as (_ & Himp & _ & _ & _ & Hrev).
  exists g. split; [now left|].
  vm_compute in E. injection E as -> _.
  split; [reflexivity|]. split; [rewrite Himp | rewrite Hrev]; reflexivity.
Defined.

(** * The regional ranking, totals and map series *)

(** X9: the ranked regional list is in descending order of revenue, so
    the group that names [topRegion] has the most revenue of the final
    list. *)
Theorem region_top_has_most_revenue (md : option Region.MarketingData)
  (g : Region.AggregatedRegionalPerformance.t) :
  In g (Region.finalRegionalList (Region.campaignsOf md)) ->
  StronglySorted
    (fun a b => Region.AggregatedRegionalPerformance.revenue b
                <= Region.AggregatedRegionalPerformance.revenue a)
    (Region.rankedRegionalList (Region.campaignsOf md))
  /\ exists top,
       hd_error (Region.rankedRegionalList (Region.campaignsOf md)) = Some top
       /\ Region.AggregatedRegionalPerformance.revenue g
          <= Region.AggregatedRegionalPerformance.revenue top
       /\ Region.topRegion (Region.aggregatedData md)
          = (if String.eqb (Region.AggregatedRegionalPerformance.region top) "" then "N/A"
             else Region.AggregatedRegionalPerformance.region top).
Proof.
  intros Hg.
  assert (Hsorted : StronglySorted
            (fun a b => - Region.AggregatedRegionalPerformance.revenue a
                        <= - Region.AggregatedRegionalPerformance.revenue b)
            (Region.rankedRegionalList (Region.campaignsOf md))).
  { unfold Region.rankedRegionalList. apply SortFacts.sort_ranked.
    intros a b _ _. unfold JS.after, Region.byRevenueDescending.
    rewrite JSFacts.gt_true. split; intros H; lra. }
  assert (Hdesc : StronglySorted
            (fun a b => Region.AggregatedRegionalPerformance.revenue b
                        <= Region.AggregatedRegionalPerformance.revenue a)
            (Region.rankedRegionalList (Region.campaignsOf md))).
  { induction Hsorted as [|a l _ IH Hall]; constructor; [exact IH|].
    rewrite Forall_forall in *. intros x Hx. specialize (Hall x Hx). lra. }
  split; [exact Hdesc|].
  assert (Hin : In g (Region.rankedRegionalList (Region.campaignsOf md))).
  { exact (Permutation_in _ (Permutation_sym (JSFacts.sort_permutation _ _)) Hg). }
  assert (Hcs : Region.campaignsOf md <> []).
  { intros Hnil. rewrite Hnil in Hg. exact Hg. }
  assert (Htop : Region.topRegion (Region.aggregatedData md)
                 = match Region.rankedRegionalList (Region.campaignsOf md) with
                   | top :: _ =>
                       if String.eqb (Region.AggregatedRegionalPerformance.region top) ""
                       then "N/A" else Region.AggregatedRegionalPerformance.region top
                   | [] => "N/A"
                   end).
  { unfold Region.aggregatedData, Region.campaignsOf in *.
    destruct md as [[[|c cs]]|]; try (now elim Hcs). reflexivity. }
  rewrite Htop.
  destruct (Region.rankedRegionalList (Region.campaignsOf md)) as [|top rest];
    [destruct Hin|].
  exists top. split; [reflexivity|]. split; [|reflexivity].
  destruct Hin as [<-|Hin]; [lra|].
  apply StronglySorted_inv in Hdesc as [_ Hall].
  rewrite Forall_forall in Hall. now apply Hall.
Qed.

(** X9 on two cities: "Riyadh", with 500 of revenue against 400, is the
    top region. *)
Lemma region_top_has_most_revenue_witness :
  Region.topRegion (Region.aggregatedData (Some {| Region.campaigns := RegionTerms.twoCities |}))
  = "Riyadh"
  /\ Forall (fun g => Region.AggregatedRegionalPerformance.revenue g <= 500)
            (Region.finalRegionalList RegionTerms.twoCities).
Proof.
  split; [reflexivity|].
  apply Forall_forall. intros g Hg.
  destruct (region_top_has_most_revenue
              (Some {| Region.campaigns := RegionTerms.twoCities |}) g Hg)
    as (_ & top & Htop & Hle & _).
  vm_compute in Htop. injection Htop as <-. exact Hle.
Defined.

(** X10: when the geo table has the region of every record, nothing is
    filtered out: [totalRevenue] and [totalSpend] are the revenue and the
    spend of all the regional records. *)
Theorem region_totals_when_all_mapped (md : option Region.MarketingData) :
  RegionTerms.allMapped (Region.campaignsOf md) ->
  Region.totalRevenue (Region.aggregatedData md)
    == JS.sum (map Region.RegionalPerformance.revenue
                   (RegionTerms.allRecords (Region.campaignsOf md)))
  /\ Region.totalSpend (Region.aggregatedData md)
    == JS.sum (map Region.RegionalPerformance.spend
                   (RegionTerms.allRecords (Region.campaignsOf md))).
Proof.
  intros Hall.
  assert (H : forall f nu,
            (forall r, f (Region.withRates (Region.newEntry r)) == 0) ->
            (forall r t, f (Region.withRates (Region.addRegion r t))
                         == f (Region.withRates t) + nu r) ->
            JS.sum (map f (Region.finalRegionalList (Region.campaignsOf md)))
            == JS.sum (map nu (RegionTerms.allRecords (Region.campaignsOf md)))).
  { intros f nu H0 H1. rewrite (RegionGroups.allMapped_keeps_all _ Hall), map_map.
    rewrite JSFacts.values_sum, RegionGroups.regionalMap_grouped.
    rewrite (GroupingFacts.grouped_total _ _ _ (fun t => f (Region.withRates t)) nu) by auto.
    change (JS.sum (map _ (map snd []))) with 0. apply Qplus_0_l. }
  unfold Region.aggregatedData. fold (Region.campaignsOf md).
  destruct (Region.campaignsOf md) as [|c cs] eqn:E.
  - split; reflexivity.
  - cbn [Region.totalRevenue Region.totalSpend]. rewrite <- E in *.
    split; apply H; intros; reflexivity.
Qed.

Lemma twoCities_allMapped : RegionTerms.allMapped RegionTerms.twoCities.
Proof. intros r [<-|[<-|[<-|[]]]]; discriminate. Qed.

(** X10 on two cities: revenues of 300, 500 and 100 add up to 900. *)
Lemma region_totals_when_all_mapped_witness :
  Region.totalRevenue
    (Region.aggregatedData (Some {| Region.campaigns := RegionTerms.twoCities |})) == 900.
Proof.
  destruct (region_totals_when_all_mapped
              (Some {| Region.campaigns := RegionTerms.twoCities |}) twoCities_allMapped)
    as [Hrev _].
  rewrite Hrev. reflexivity.
Defined.

(** X11: when no region is named like a member of [Object.prototype],
    the final regional list has at most one group per key, and the two map
    series show the same regions in the same order, each point at the
    table position of its region and in the table colour of that
    region. *)
Theorem region_map_points_from_table (cs : list Region.Campaign) :
  RegionTerms.ordinaryRegions cs ->
  let result := Region.aggregatedData (Some {| Region.campaigns := cs |}) in
  NoDup (map Region.keyOfItem (Region.finalRegionalList cs))
  /\ map Region.BubbleMapDataPoint.region (Region.revenueMapData result)
     = map Region.BubbleMapDataPoint.region (Region.spendMapData result)
  /\ map Region.BubbleMapDataPoint.country (Region.revenueMapData result)
     = map Region.BubbleMapDataPoint.country (Region.spendMapData result)
  /\ forall p, In p (Region.revenueMapData result) \/ In p (Region.spendMapData result) ->
       exists pos,
         JS.get (Region.BubbleMapDataPoint.region p) Geo.REGION_COORDINATES = Some pos
         /\ Region.BubbleMapDataPoint.latitude p = Geo.lat pos
         /\ Region.BubbleMapDataPoint.longitude p = Geo.lon pos
         /\ Region.BubbleMapDataPoint.color p = Geo.color pos.
Proof.
  intros _ result. split; [|split; [|split]].
  - unfold Region.finalRegionalList.
    assert (Hnd : NoDup (map Region.keyOfItem (map Region.withRates
                                                 (JS.values (Region.regionalMap cs))))).
    { rewrite map_map.
      apply (Permutation_NoDup (l := map fst (Region.regionalMap cs)));
        [|apply (proj2 (RegionFacts.regionalMap_wellFormed cs))].
      rewrite (Permutation_map _ (GroupingFacts.values_permutation _)), map_map.
      destruct (RegionFacts.regionalMap_wellFormed cs) as [Hall _].
      induction Hall as [|e l (He & _) _ IH]; simpl; [reflexivity|].
      rewrite He. now constructor. }
    revert Hnd. generalize (map Region.withRates (JS.values (Region.regionalMap cs))).
    induction l as [|g l IH]; simpl; intros Hnd; [constructor|].
    inversion Hnd as [|? ? Hnot Hnd']; subst.
    destruct (Region.hasCoordinates g); [|now apply IH].
    simpl. constructor; [|now apply IH].
    intros Hin. apply Hnot. apply in_map_iff in Hin as [x [Hx Hin]].
    apply filter_In in Hin as [Hin _]. apply in_map_iff. now exists x.
  - subst result. unfold Region.aggregatedData. cbn [Region.campaigns].
    destruct cs; [reflexivity|]. cbn [Region.revenueMapData Region.spendMapData].
    now rewrite !map_map.
  - subst result. unfold Region.aggregatedData. cbn [Region.campaigns].
    destruct cs; [reflexivity|]. cbn [Region.revenueMapData Region.spendMapData].
    now rewrite !map_map.
  - intros p Hp.
    assert (Hg : exists g f, In g (Region.finalRegionalList cs) /\ p = Region.mapPoint f g).
    { subst result. unfold Region.aggregatedData in Hp. cbn [Region.campaigns] in Hp.
      destruct cs as [|c cs]; [destruct Hp as [[]|[]]|].
      cbn [Region.revenueMapData Region.spendMapData] in Hp. rewrite !in_map_iff in Hp.
      destruct Hp as [[g [<- Hg]]|[g [<- Hg]]];
        apply (Permutation_in _ (JSFacts.sort_permutation _ _)) in Hg; eauto. }
    destruct Hg as (g & f & Hg & ->).
    destruct (RegionGroups.final_group_identity cs g Hg)
      as (first & _ & Hregion & _ & Hget & Hlat & Hlon).
    exists (Geo.getCoordinates (Region.RegionalPerformance.region first)).
    unfold Region.mapPoint. cbn [Region.BubbleMapDataPoint.region
      Region.BubbleMapDataPoint.latitude Region.BubbleMapDataPoint.longitude
      Region.BubbleMapDataPoint.color].
    rewrite Hregion. repeat split; try assumption.
    assert (Hcolors : Forall (fun e => String.eqb (Geo.color (snd e)) "" = false)
                             Geo.REGION_COORDINATES) by (repeat constructor).
    rewrite Forall_forall in Hcolors.
    specialize (Hcolors _ (JSFacts.get_In _ _ _ Hget)). cbn [snd] in Hcolors.
    now rewrite Hcolors.
Qed.

(** X11 on two cities: both series show "Riyadh" then "Dubai", "Riyadh"
    at its place in the table. *)
Lemma region_map_points_from_table_witness :
  let result := Region.aggregatedData (Some {| Region.campaigns := RegionTerms.twoCities |}) in
  map Region.BubbleMapDataPoint.region (Region.spendMapData result) = ["Riyadh"; "Dubai"]
  /\ map Region.BubbleMapDataPoint.region (Region.revenueMapData result)
     = map Region.BubbleMapDataPoint.region (Region.spendMapData result)
  /\ Forall (fun p => exists pos,
                JS.get (Region.BubbleMapDataPoint.region p) Geo.REGION_COORDINATES = Some pos
                /\ Region.BubbleMapDataPoint.latitude p = Geo.lat pos
                /\ Region.BubbleMapDataPoint.longitude p = Geo.lon pos)
            (Region.revenueMapData result).
Proof.
  intros result.
  destruct (region_map_points_from_table RegionTerms.twoCities twoCities_ordinaryRegions)
    as (_ & Hregions & _ & Hpoints).
  split; [reflexivity|]. split; [exact Hregions|].
  apply Forall_forall. intros p Hp.
  destruct (Hpoints p (or_introl Hp)) as (pos & Hget & Hlat & Hlon & _).
  exists pos. now repeat split.
Defined.

(** X12: for a name that is not the name of a member of
    [Object.prototype], the geo lookup answers (0, 0) exactly when the
    table does not have the name, and then with the fallback colour: no
    region of the table sits at (0, 0). *)
Theorem geo_origin_iff_unknown (region : string) :
  JS.inherited region = false ->
  ((Geo.lat (Geo.getCoordinates region) == 0 /\ Geo.lon (Geo.getCoordinates region) == 0)
   <-> JS.get region Geo.REGION_COORDINATES = None)
  /\ (JS.get region Geo.REGION_COORDINATES = None ->
      Geo.getCoordinates region = {| Geo.lat := 0; Geo.lon := 0; Geo.color := "#94a3b8" |})
  /\ (forall pos, JS.get region Geo.REGION_COORDINATES = Some pos ->
      Geo.getCoordinates region = pos
      /\ - (90) <= Geo.lat pos <= 90 /\ - (180) <= Geo.lon pos <= 180).
Proof.
  intros _.
  split; [apply RegionFacts.getCoordinates_origin|]. split.
  - intros H. unfold Geo.getCoordinates. now rewrite H.
  - intros pos H. split; [unfold Geo.getCoordinates; now rewrite H|].
    assert (Hall : Forall (fun e => Qle_bool (- (90)) (Geo.lat (snd e))
                                    && Qle_bool (Geo.lat (snd e)) 90
                                    && Qle_bool (- (180)) (Geo.lon (snd e))
                                    && Qle_bool (Geo.lon (snd e)) 180 = true)
                          Geo.REGION_COORDINATES) by (repeat constructor).
    rewrite Forall_forall in Hall. specialize (Hall _ (JSFacts.get_In _ _ _ H)).
    cbn [snd] in Hall. rewrite !andb_true_iff, !Qle_bool_iff in Hall. tauto.
Qed.

(** X12 on "Atlantis", which the table does not have, and on "Tokyo",
    which it has. *)
Lemma geo_origin_iff_unknown_witness :
  Geo.getCoordinates "Atlantis" = {| Geo.lat := 0; Geo.lon := 0; Geo.color := "#94a3b8" |}
  /\ ~ (Geo.lat (Geo.getCoordinates "Tokyo") == 0 /\ Geo.lon (Geo.getCoordinates "Tokyo") == 0).
Proof.
  split.
  - destruct (geo_origin_iff_unknown "Atlantis" eq_refl) as (_ & Hfallback & _).
    now apply Hfallback.
  - destruct (geo_origin_iff_unknown "Tokyo" eq_refl) as (Hiff & _).
    intros H. apply Hiff in H. discriminate H.
Defined.

(** * The demographic aggregation, key by key *)

Module DemographicGroups.
Import Demographic DemographicTerms.

Lemma fold_left_map_arg {A B C : Type} (f : A -> C -> A) (g : B -> C) (l : list B) (a : A) :
  fold_left f (map g l) a = fold_left (fun a x => f a (g x)) l a.
Proof. revert a. induction l as [|x l IH]; intros a; simpl; [reflexivity | apply IH]. Qed.

Lemma demographicMap_grouped (cs : list (Campaign.t JS.number)) :
  demographicMap cs
  = Grouping.grouped (fun cb => keyOf (snd cb)) (fun _ => zeroTotals)
      (fun cb => addBreakdown (fst cb) (snd cb)) (allBreakdowns cs) [].
Proof.
  unfold demographicMap, Grouping.grouped, allBreakdowns.
  rewrite <- GroupingFacts.fold_left_flat_map.
  generalize (@nil (string * Totals.t)).
  induction cs as [|c cs IH]; intros m; simpl; [reflexivity|].
  rewrite IH. f_equal. unfold accumulateCampaign. now rewrite fold_left_map_arg.
Qed.

Lemma ageDataMap_grouped (cs : list (Campaign.t JS.number)) :
  ageDataMap cs
  = Grouping.grouped AggregatedDemographicGroup.ageGroup
      (fun _ => {| AgeData.spend := 0; AgeData.revenue := 0 |}) addRow (aggregatedList cs) [].
Proof. reflexivity. Qed.

(** Summing per campaign is summing over all the records. *)
Lemma sum_allBreakdowns (nu : Campaign.t JS.number -> DemographicBreakdown.t JS.number -> Q)
  (cs : list (Campaign.t JS.number)) :
  JS.sum (map (fun cb => nu (fst cb) (snd cb)) (allBreakdowns cs))
  == JS.sum (map (fun c => JS.sum (map (nu c) (Campaign.demographic_breakdown c))) cs).
Proof.
  induction cs as [|c cs IH]; simpl; [reflexivity|].
  rewrite map_app, JSFacts.sum_app, JSFacts.sum_cons, IH, map_map. reflexivity.
Qed.

(** What a campaign hands out, record by record, is what it hands out. *)
Lemma distributed_sum (amount : Campaign.t JS.number -> JS.number) (c : Campaign.t JS.number) :
  JS.sum (map (fun b => amount c * ratio exact c b) (Campaign.demographic_breakdown c))
  == handedOut amount c.
Proof.
  unfold handedOut.
  destruct (JS.gt (totalCampaignAudiencePercentage exact c) 0) eqn:E.
  - apply JSFacts.gt_true in E.
    exact (RedistributionFacts.distributed_positive amount c E).
  - rewrite (map_ext _ (fun _ => amount c * 0)).
    2:{ intros b. unfold ratio. simpl. now rewrite E. }
    induction (Campaign.demographic_breakdown c) as [|b l IH]; simpl; [reflexivity|].
    rewrite JSFacts.sum_cons, IH. lra.
Qed.

Lemma sum_ext_eq {A : Type} (f g : A -> Q) (l : list A) :
  (forall x, f x == g x) -> JS.sum (map f l) == JS.sum (map g l).
Proof.
  intros H. induction l as [|x l IH]; simpl; [reflexivity|].
  now rewrite !JSFacts.sum_cons, H, IH.
Qed.

(** The figures over all the groups. *)
Lemma aggregatedList_total (f : AggregatedDemographicGroup.t -> Q) (mu : Totals.t -> Q)
  (nu : Campaign.t JS.number -> DemographicBreakdown.t JS.number -> Q)
  (cs : list (Campaign.t JS.number)) :
  (forall e, f (groupOf e) = mu (snd e)) ->
  mu zeroTotals == 0 ->
  (forall c b t, mu (addBreakdown c b t) == mu t + nu c b) ->
  JS.sum (map f (aggregatedList cs))
  == JS.sum (map (fun cb => nu (fst cb) (snd cb)) (allBreakdowns cs)).
Proof.
  intros Hf H0 H1. unfold aggregatedList. rewrite map_map.
  rewrite (JSFacts.sum_permutation _ _
             (Permutation_map _ (JSFacts.entries_permutation _))).
  rewrite (map_ext _ (fun e => mu (snd e)) Hf).
  rewrite <- (map_map snd mu), demographicMap_grouped.
  rewrite (GroupingFacts.grouped_total _ _ _ mu (fun cb => nu (fst cb) (snd cb))); auto.
  change (JS.sum (map mu (map snd []))) with 0. apply Qplus_0_l.
Qed.

Lemma aggregatedList_handedOut (f : AggregatedDemographicGroup.t -> Q) (mu : Totals.t -> Q)
  (amount : Campaign.t JS.number -> JS.number) (cs : list (Campaign.t JS.number)) :
  (forall e, f (groupOf e) = mu (snd e)) ->
  mu zeroTotals == 0 ->
  (forall c b t, mu (addBreakdown c b t) == mu t + amount c * ratio exact c b) ->
  JS.sum (map f (aggregatedList cs)) == JS.sum (map (handedOut amount) cs).
Proof.
  intros Hf H0 H1.
  rewrite (aggregatedList_total f mu (fun c b => amount c * ratio exact c b)) by assumption.
  rewrite (sum_allBreakdowns (fun c b => amount c * ratio exact c b)).
  apply sum_ext_eq. intros c. apply distributed_sum.
Qed.

(** The first piece of a key is its gender when the gender has no
    hyphen. *)
Lemma split_head (g rest : string) :
  ~ In "-"%char (list_ascii_of_string g) ->
  nth 0 (JS.split "-" (g ++ "-" ++ rest)) "" = g.
Proof.
  induction g as [|c g IH]; intros Hno.
  - reflexivity.
  - assert (IH' := IH (fun H => Hno (or_intror H))).
    simpl in IH' |- *.
    destruct (Ascii.eqb_spec c "-") as [->|Hne]; [exfalso; apply Hno; now left|].
    destruct (JS.split "-" (g ++ String "-" rest)) as [|h t]; simpl in *; congruence.
Qed.

(** Every key of [demographicMap] is the key of a record. *)
Lemma demographicMap_keys (cs : list (Campaign.t JS.number)) :
  Forall (fun e => exists cb, In cb (allBreakdowns cs) /\ fst e = keyOf (snd cb))
         (demographicMap cs).
Proof.
  rewrite demographicMap_grouped.
  assert (H : Forall (fun e => (fun k (_ : Totals.t) =>
                        exists cb, In cb (allBreakdowns cs) /\ k = keyOf (snd cb))
                                 (fst e) (snd e))
                     (Grouping.grouped (fun cb => keyOf (snd cb)) (fun _ => zeroTotals)
                        (fun cb => addBreakdown (fst cb) (snd cb)) (allBreakdowns cs) [])).
  { apply (GroupingFacts.grouped_Forall _ _ _
             (fun k (_ : Totals.t) => exists cb, In cb (allBreakdowns cs) /\ k = keyOf (snd cb)));
      [constructor| |]; intros; eauto. }
  exact H.
Qed.

Lemma In_allBreakdowns (cs : list (Campaign.t JS.number)) cb :
  In cb (allBreakdowns cs)
  <-> In (fst cb) cs /\ In (snd cb) (Campaign.demographic_breakdown (fst cb)).
Proof.
  unfold allBreakdowns. rewrite in_flat_map. split.
  - intros [c [Hc Hin]]. apply in_map_iff in Hin as [b [<- Hb]]. now split.
  - intros [Hc Hb]. exists (fst cb). split; [exact Hc|].
    apply in_map_iff. exists (snd cb). split; [now destruct cb | exact Hb].
Qed.

(** With the two genders only, every group is in one of the two tables. *)
Lemma gender_of_group (cs : list (Campaign.t JS.number)) (g : AggregatedDemographicGroup.t) :
  twoGenders cs -> In g (aggregatedList cs) ->
  AggregatedDemographicGroup.gender g = "Male" \/ AggregatedDemographicGroup.gender g = "Female".
Proof.
  intros Htwo Hg. apply DemographicFacts.In_aggregatedList in Hg as (k & t & Hin & ->).
  pose proof (demographicMap_keys cs) as Hkeys. rewrite Forall_forall in Hkeys.
  destruct (Hkeys _ Hin) as (cb & Hcb & Hk). cbn [fst] in Hk. subst k.
  apply In_allBreakdowns in Hcb as [Hc Hb].
  unfold groupOf, keyOf. cbn [AggregatedDemographicGroup.gender].
  destruct (Htwo _ _ Hc Hb) as [->| ->]; [left|right]; apply split_head;
    simpl; intuition discriminate.
Qed.

Lemma sum_two_tables (f : AggregatedDemographicGroup.t -> Q)
  (l : list AggregatedDemographicGroup.t) :
  (forall g, In g l -> AggregatedDemographicGroup.gender g = "Male"
                       \/ AggregatedDemographicGroup.gender g = "Female") ->
  JS.sum (map f (filter (fun row => String.eqb (AggregatedDemographicGroup.gender row) "Male") l))
  + JS.sum (map f (filter (fun row => String.eqb (AggregatedDemographicGroup.gender row) "Female") l))
  == JS.sum (map f l).
Proof.
  induction l as [|g l IH]; intros H; simpl.
  - reflexivity.
  - specialize (IH (fun x Hx => H x (or_intror Hx))).
    destruct (H g (or_introl eq_refl)) as [Hg|Hg]; rewrite Hg; simpl;
      rewrite !JSFacts.sum_cons; lra.
Qed.

End DemographicGroups.

(** X13: over all the demographic groups, impressions, clicks and
    conversions add up to those of all the records, and spend and revenue
    to those of the campaigns whose audience percentages have a positive
    total (exact arithmetic). *)
Theorem demographic_totals_preserved (cs : list (Demographic.Campaign.t JS.number)) :
  let groups := Demographic.aggregatedList cs in
  let records := DemographicTerms.allBreakdowns cs in
  JS.sum (map Demographic.AggregatedDemographicGroup.impressions groups)
    == JS.sum (map (DemographicTerms.engagement Demographic.Performance.impressions) records)
  /\ JS.sum (map Demographic.AggregatedDemographicGroup.clicks groups)
    == JS.sum (map (DemographicTerms.engagement Demographic.Performance.clicks) records)
  /\ JS.sum (map Demographic.AggregatedDemographicGroup.conversions groups)
    == JS.sum (map (DemographicTerms.engagement Demographic.Performance.conversions) records)
  /\ JS.sum (map Demographic.AggregatedDemographicGroup.spend groups)
    == JS.sum (map (DemographicTerms.handedOut Demographic.Campaign.spend) cs)
  /\ JS.sum (map Demographic.AggregatedDemographicGroup.revenue groups)
    == JS.sum (map (DemographicTerms.handedOut Demographic.Campaign.revenue) cs).
Proof.
  intros groups records. subst groups records.
  split; [|split; [|split; [|split]]].
  - apply (DemographicGroups.aggregatedList_total _ Demographic.Totals.impressions
             (fun _ b => Demographic.Performance.impressions
                           (Demographic.DemographicBreakdown.performance b)));
      [now intros [k t] | reflexivity | reflexivity].
  - apply (DemographicGroups.aggregatedList_total _ Demographic.Totals.clicks
             (fun _ b => Demographic.Performance.clicks
                           (Demographic.DemographicBreakdown.performance b)));
      [now intros [k t] | reflexivity | reflexivity].
  - apply (DemographicGroups.aggregatedList_total _ Demographic.Totals.conversions
             (fun _ b => Demographic.Performance.conversions
                           (Demographic.DemographicBreakdown.performance b)));
      [now intros [k t] | reflexivity | reflexivity].
  - apply (DemographicGroups.aggregatedList_handedOut _ Demographic.Totals.spend);
      [now intros [k t] | reflexivity | reflexivity].
  - apply (DemographicGroups.aggregatedList_handedOut _ Demographic.Totals.revenue);
      [now intros [k t] | reflexivity | reflexivity].
Qed.

(** X14: when every record is "Male" or "Female", the male and the female
    card metrics together are the totals: clicks of all the records, spend
    and revenue of the campaigns with a positive audience total. *)
Theorem demographic_gender_metrics_cover toLocaleString toFixed
  (md : option Demographic.MarketingData) :
  DemographicTerms.twoGenders (DemographicTerms.campaignsOf md) ->
  let result := Demographic.aggregatedData toLocaleString toFixed md in
  let cs := DemographicTerms.campaignsOf md in
  Demographic.totalClicks (Demographic.maleMetrics result)
  + Demographic.totalClicks (Demographic.femaleMetrics result)
    == JS.sum (map (DemographicTerms.engagement Demographic.Performance.clicks)
                   (DemographicTerms.allBreakdowns cs))
  /\ Demographic.totalSpend (Demographic.maleMetrics result)
     + Demographic.totalSpend (Demographic.femaleMetrics result)
    == JS.sum (map (DemographicTerms.handedOut Demographic.Campaign.spend) cs)
  /\ Demographic.totalRevenue (Demographic.maleMetrics result)
     + Demographic.totalRevenue (Demographic.femaleMetrics result)
    == JS.sum (map (DemographicTerms.handedOut Demographic.Campaign.revenue) cs).
Proof.
  intros Htwo result cs. subst result.
  unfold Demographic.aggregatedData. fold (DemographicTerms.campaignsOf md). fold cs.
  destruct cs as [|c cs'] eqn:E.
  - repeat split; reflexivity.
  - rewrite <- E.
    cbn [Demographic.maleMetrics Demographic.femaleMetrics Demographic.calculateMetrics
         Demographic.totalClicks Demographic.totalSpend Demographic.totalRevenue].
    unfold Demographic.maleData, Demographic.femaleData.
    rewrite !DemographicGroups.sum_two_tables
      by (intros g Hg; now apply (DemographicGroups.gender_of_group cs)).
    split; [|split].
    + apply (DemographicGroups.aggregatedList_total _ Demographic.Totals.clicks
               (fun _ b => Demographic.Performance.clicks
                             (Demographic.DemographicBreakdown.performance b)));
        [now intros [k t] | reflexivity | reflexivity].
    + apply (DemographicGroups.aggregatedList_handedOut _ Demographic.Totals.spend);
        [now intros [k t] | reflexivity | reflexivity].
    + apply (DemographicGroups.aggregatedList_handedOut _ Demographic.Totals.revenue);
        [now intros [k t] | reflexivity | reflexivity].
Qed.

Lemma scenario2_twoGenders : DemographicTerms.twoGenders [Demographic.scenario2].
Proof. intros c b [<-|[]] [<-|[<-|[]]]; simpl; auto. Qed.

(** X14 on Scenario 2: 100 and 300 clicks, a spend of 200. *)
Lemma demographic_gender_metrics_cover_witness :
  let result := Demographic.aggregatedData (fun _ => "") (fun _ _ => "")
                  (Some {| Demographic.campaigns := [Demographic.scenario2] |}) in
  Demographic.totalClicks (Demographic.maleMetrics result)
  + Demographic.totalClicks (Demographic.femaleMetrics result) == 400
  /\ Demographic.totalSpend (Demographic.maleMetrics result)
     + Demographic.totalSpend (Demographic.femaleMetrics result) == 200.
Proof.
  intros result.
  destruct (demographic_gender_metrics_cover (fun _ => "") (fun _ _ => "")
              (Some {| Demographic.campaigns := [Demographic.scenario2] |})
              scenario2_twoGenders) as (Hclicks & Hspend & _).
  subst result. split; [exact Hclicks | exact Hspend].
Defined.

Module ChartFacts.
Import Demographic DemographicTerms.

Lemma ageDataMap_NoDup (cs : list (Campaign.t JS.number)) : NoDup (map fst (ageDataMap cs)).
Proof. rewrite DemographicGroups.ageDataMap_grouped. apply GroupingFacts.grouped_NoDup. constructor. Qed.

Lemma ageGroups_permutation (cs : list (Campaign.t JS.number)) :
  Permutation (ageGroups cs) (map fst (ageDataMap cs)).
Proof.
  unfold ageGroups. rewrite JSFacts.sort_permutation. apply GroupingFacts.keys_permutation.
Qed.

(** A series adds up to its figure over the age groups, which is the
    figure over the groups. *)
Lemma series_sum (figure : AgeData.t -> Q) (f : AggregatedDemographicGroup.t -> Q)
  (cs : list (Campaign.t JS.number)) :
  figure {| AgeData.spend := 0; AgeData.revenue := 0 |} == 0 ->
  (forall row d, figure (addRow row d) == figure d + f row) ->
  JS.sum (map (fun group => figure (ageData cs group)) (ageGroups cs))
  == JS.sum (map f (aggregatedList cs)).
Proof.
  intros H0 H1.
  rewrite (JSFacts.sum_permutation _ _ (Permutation_map _ (ageGroups_permutation cs))).
  unfold ageData.
  rewrite (GroupingFacts.sum_over_keys figure _ _ (ageDataMap_NoDup cs)).
  rewrite DemographicGroups.ageDataMap_grouped.
  rewrite (GroupingFacts.grouped_total _ _ _ figure f) by auto.
  change (JS.sum (map figure (map snd []))) with 0. apply Qplus_0_l.
Qed.

End ChartFacts.

(** X15: when no age group of the aggregated list is named like a member
    of [Object.prototype], the spend and revenue chart series have one
    point per distinct age group of the groups, the same labels in the same
    order, and add up to the spend and the revenue of all the groups (those
    of the campaigns with a positive audience total; in exact
    arithmetic). *)
Theorem demographic_chart_totals toLocaleString toFixed
  (cs : list (Demographic.Campaign.t JS.number)) :
  DemographicTerms.ordinaryAgeGroups cs ->
  let result := Demographic.aggregatedData toLocaleString toFixed
                  (Some {| Demographic.campaigns := cs |}) in
  let labels := map Demographic.ChartDataPoint.label (Demographic.spendChart result) in
  NoDup labels
  /\ (forall a, In a labels
                <-> In a (map Demographic.AggregatedDemographicGroup.ageGroup
                              (Demographic.aggregatedList cs)))
  /\ map Demographic.ChartDataPoint.label (Demographic.revenueChart result) = labels
  /\ JS.sum (map Demographic.ChartDataPoint.value (Demographic.spendChart result))
     == JS.sum (map (DemographicTerms.handedOut Demographic.Campaign.spend) cs)
  /\ JS.sum (map Demographic.ChartDataPoint.value (Demographic.revenueChart result))
     == JS.sum (map (DemographicTerms.handedOut Demographic.Campaign.revenue) cs).
Proof.
  intros _ result labels.
  assert (Hs : Demographic.spendChart result = Demographic.spendChart_of cs).
  { subst result. unfold Demographic.aggregatedData. cbn [Demographic.campaigns].
    now destruct cs. }
  assert (Hr : Demographic.revenueChart result = Demographic.revenueChart_of cs).
  { subst result. unfold Demographic.aggregatedData. cbn [Demographic.campaigns].
    now destruct cs. }
  assert (Hl : labels = Demographic.ageGroups cs).
  { subst labels. rewrite Hs. unfold Demographic.spendChart_of. rewrite map_map.
    apply map_id. }
  rewrite Hr, Hs, Hl. clear Hs Hr Hl labels result.
  split; [|split; [|split; [|split]]].
  - apply (Permutation_NoDup (Permutation_sym (ChartFacts.ageGroups_permutation cs))).
    apply ChartFacts.ageDataMap_NoDup.
  - intros a. transitivity (In a (map fst (Demographic.ageDataMap cs))).
    { split; apply Permutation_in; [|symmetry]; apply ChartFacts.ageGroups_permutation. }
    transitivity (JS.get a (Demographic.ageDataMap cs) <> None).
    { split.
      - intros Hin Hnone. now apply JSFacts.get_None in Hnone.
      - intros Hget. destruct (JS.get a (Demographic.ageDataMap cs)) as [t|] eqn:E;
          [|congruence].
        apply JSFacts.get_In in E. now apply (in_map fst) in E. }
    rewrite DemographicGroups.ageDataMap_grouped, GroupingFacts.grouped_has_key.
    unfold Grouping.firstOf. split.
    + intros [H|H]; [now elim H|].
      destruct (find _ _) as [g|] eqn:E; [|congruence].
      apply find_some in E as [Hg Hk]. apply String.eqb_eq in Hk. subst a.
      now apply in_map.
    + intros Hin. right. apply in_map_iff in Hin as [g [<- Hg]].
      destruct (find _ _) eqn:E; [discriminate|].
      apply (find_none _ _ E) in Hg. now rewrite String.eqb_refl in Hg.
  - unfold Demographic.revenueChart_of. rewrite map_map. apply map_id.
  - unfold Demographic.spendChart_of. rewrite map_map.
    cbn [Demographic.ChartDataPoint.value].
    rewrite (ChartFacts.series_sum Demographic.AgeData.spend
               Demographic.AggregatedDemographicGroup.spend);
      [|reflexivity|reflexivity].
    apply (DemographicGroups.aggregatedList_handedOut _ Demographic.Totals.spend);
      [now intros [k t] | reflexivity | reflexivity].
  - unfold Demographic.revenueChart_of. rewrite map_map.
    cbn [Demographic.ChartDataPoint.value].
    rewrite (ChartFacts.series_sum Demographic.AgeData.revenue
               Demographic.AggregatedDemographicGroup.revenue);
      [|reflexivity|reflexivity].
    apply (DemographicGroups.aggregatedList_handedOut _ Demographic.Totals.revenue);
      [now intros [k t] | reflexivity | reflexivity].
Qed.

Lemma hyphenated_ordinaryAgeGroups :
  DemographicTerms.ordinaryAgeGroups [Demographic.hyphenated].
Proof. intros g [<-|[<-|[<-|[]]]]; reflexivity. Qed.

(** X15 on three records of two age groups: two points, which add up to
    the spend of 100. *)
Lemma demographic_chart_totals_witness :
  let result := Demographic.aggregatedData (fun _ => "") (fun _ _ => "")
                  (Some {| Demographic.campaigns := [Demographic.hyphenated] |}) in
  List.length (Demographic.spendChart result) = 2%nat
  /\ JS.sum (map Demographic.ChartDataPoint.value (Demographic.spendChart result)) == 100.
Proof.
  intros result. split; [reflexivity|].
  destruct (demographic_chart_totals (fun _ => "") (fun _ _ => "") [Demographic.hyphenated]
              hyphenated_ordinaryAgeGroups) as (_ & _ & _ & Hspend & _).
  subst result. rewrite Hspend. reflexivity.
Defined.

(** X16: when every chart label starts with a number, the two chart
    series are in ascending order of that number. *)
Theorem demographic_chart_ascending toLocaleString toFixed
  (cs : list (Demographic.Campaign.t JS.number)) (number : string -> Z) :
  DemographicTerms.labelsNumbered number cs ->
  let result := Demographic.aggregatedData toLocaleString toFixed
                  (Some {| Demographic.campaigns := cs |}) in
  StronglySorted (fun a b => (number a <= number b)%Z)
    (map Demographic.ChartDataPoint.label (Demographic.spendChart result))
  /\ StronglySorted (fun a b => (number a <= number b)%Z)
    (map Demographic.ChartDataPoint.label (Demographic.revenueChart result)).
Proof.
  intros Hnum result.
  assert (Hs : map Demographic.ChartDataPoint.label (Demographic.spendChart result)
               = match cs with [] => [] | _ => Demographic.ageGroups cs end).
  { subst result. unfold Demographic.aggregatedData. cbn [Demographic.campaigns].
    destruct cs; [reflexivity|]. cbn [Demographic.spendChart].
    unfold Demographic.spendChart_of. rewrite map_map. apply map_id. }
  assert (Hr : map Demographic.ChartDataPoint.label (Demographic.revenueChart result)
               = match cs with [] => [] | _ => Demographic.ageGroups cs end).
  { subst result. unfold Demographic.aggregatedData. cbn [Demographic.campaigns].
    destruct cs; [reflexivity|]. cbn [Demographic.revenueChart].
    unfold Demographic.revenueChart_of. rewrite map_map. apply map_id. }
  rewrite Hs, Hr.
  destruct cs as [|c cs]; [split; constructor|].
  split; now apply AgeGroupFacts.ageGroups_ascending.
Qed.

(** X16 on the age groups "25-34" and "18-24": the labels come out as
    "18", "25". *)
Lemma demographic_chart_ascending_witness :
  map Demographic.ChartDataPoint.label
      (Demographic.spendChart
         (Demographic.aggregatedData (fun _ => "") (fun _ _ => "")
            (Some {| Demographic.campaigns := [Demographic.hyphenated] |})))
  = ["18"; "25"]
  /\ StronglySorted (fun a b => (DemographicTerms.numberOf a <= DemographicTerms.numberOf b)%Z)
       (map Demographic.ChartDataPoint.label
          (Demographic.spendChart
             (Demographic.aggregatedData (fun _ => "") (fun _ _ => "")
                (Some {| Demographic.campaigns := [Demographic.hyphenated] |})))).
Proof.
  split; [reflexivity|].
  apply (demographic_chart_ascending (fun _ => "") (fun _ _ => "")
           [Demographic.hyphenated] DemographicTerms.numberOf).
  intros a [<-|[<-|[]]]; reflexivity.
Defined.

(** X17: an entry of [demographicMap] adds up the records of its key:
    engagement as reported, spend and revenue as distributed. *)
Theorem demographic_group_sums (cs : list (Demographic.Campaign.t JS.number))
  (k : string) (t : Demographic.Totals.t) :
  In (k, t) (JS.entries (Demographic.demographicMap cs)) ->
  let g := Demographic.groupOf (k, t) in
  let mine := Grouping.recordsOf (fun cb => Demographic.keyOf (snd cb)) k
                (DemographicTerms.allBreakdowns cs) in
  mine <> []
  /\ Demographic.AggregatedDemographicGroup.impressions g
     == JS.sum (map (DemographicTerms.engagement Demographic.Performance.impressions) mine)
  /\ Demographic.AggregatedDemographicGroup.clicks g
     == JS.sum (map (DemographicTerms.engagement Demographic.Performance.clicks) mine)
  /\ Demographic.AggregatedDemographicGroup.conversions g
     == JS.sum (map (DemographicTerms.engagement Demographic.Performance.conversions) mine)
  /\ Demographic.AggregatedDemographicGroup.spend g
     == JS.sum (map (fun cb => Demographic.distributedSpend Demographic.exact (fst cb) (snd cb))
                    mine)
  /\ Demographic.AggregatedDemographicGroup.revenue g
     == JS.sum (map (fun cb => Demographic.distributedRevenue Demographic.exact (fst cb) (snd cb))
                    mine).
Proof.
  intros Hin g mine. apply (proj1 (JSFacts.In_entries _ _)) in Hin.
  assert (Hnd : NoDup (map fst (Demographic.demographicMap cs))).
  { rewrite DemographicGroups.demographicMap_grouped.
    apply GroupingFacts.grouped_NoDup. constructor. }
  pose proof (JSFacts.In_get _ _ _ Hnd Hin) as Hget.
  rewrite DemographicGroups.demographicMap_grouped in Hget.
  split.
  - assert (Hkey : JS.get k (Grouping.grouped (fun cb => Demographic.keyOf (snd cb))
                               (fun _ => Demographic.zeroTotals)
                               (fun cb => Demographic.addBreakdown (fst cb) (snd cb))
                               (DemographicTerms.allBreakdowns cs) []) <> None)
      by congruence.
    apply GroupingFacts.grouped_has_key in Hkey as [Hkey|Hkey]; [now elim Hkey|].
    subst mine. unfold Grouping.firstOf in Hkey. unfold Grouping.recordsOf.
    destruct (find _ _) as [cb|] eqn:E; [|congruence].
    apply find_some in E as [Hcb Hk]. intros Hnil.
    assert (Hmem : In cb (filter (fun r => String.eqb (Demographic.keyOf (snd r)) k)
                            (DemographicTerms.allBreakdowns cs)))
      by (apply filter_In; now split).
    rewrite Hnil in Hmem. exact Hmem.
  - assert (H : forall (mu : Demographic.Totals.t -> Q) nu,
               mu Demographic.zeroTotals == 0 ->
               (forall cb v, mu (Demographic.addBreakdown (fst cb) (snd cb) v) == mu v + nu cb) ->
               mu t == JS.sum (map nu mine)).
    { intros mu nu H0 H1.
      rewrite (GroupingFacts.grouped_sum _ _ _ mu nu _ _ _ (fun _ => H0) H1 t Hget).
      subst mine. cbn [JS.get]. apply Qplus_0_l. }
    subst g. unfold Demographic.groupOf.
    cbn [Demographic.AggregatedDemographicGroup.impressions
         Demographic.AggregatedDemographicGroup.clicks
         Demographic.AggregatedDemographicGroup.conversions
         Demographic.AggregatedDemographicGroup.spend
         Demographic.AggregatedDemographicGroup.revenue].
    repeat split; apply H; intros; reflexivity.
Qed.

(** X17 on Scenario 3: with audience percentages of 0 the male group
    still counts its 1000 impressions, and has no spend. *)
Lemma demographic_group_sums_witness :
  exists t,
    In ("Male-18-24", t) (JS.entries (Demographic.demographicMap [DemographicTerms.scenario3]))
    /\ Demographic.Totals.impressions t == 1000
    /\ Demographic.Totals.spend t == 0.
Proof.
  remember (JS.entries (Demographic.demographicMap [DemographicTerms.scenario3])) as es eqn:E.
  destruct es as [|[k t] rest]; [discriminate E|].
  assert (Hin : In (k, t) (JS.entries (Demographic.demographicMap [DemographicTerms.scenario3])))
    by (rewrite <- E; now left).
  destruct (demographic_group_sums [DemographicTerms.scenario3] k t Hin)
    as (_ & Himp & _ & _ & Hspend & _).
  vm_compute in E. injection E as -> -> _.
  exists {| Demographic.Totals.impressions := 1000; Demographic.Totals.clicks := 100;
            Demographic.Totals.conversions := 10; Demographic.Totals.spend := 0;
            Demographic.Totals.revenue := 0 |}.
  split; [now left|]. split; reflexivity.
Defined.

(** * The device aggregation and its page *)

Module DevicePageFacts.
Import Device DeviceTerms.

Lemma emit_nonempty (name : string) (data : Totals.t) :
  (exists g, In g (emit (name, data)))
  <-> (0 < Totals.impressions data \/ 0 < Totals.clicks data \/ 0 < Totals.conversions data).
Proof.
  unfold emit. rewrite <- !JSFacts.gt_true, <- !orb_true_iff, orb_assoc.
  destruct (_ || _); simpl; split.
  - reflexivity.
  - intros _. eexists. now left.
  - intros [g []].
  - discriminate.
Qed.

Lemma tally_counts (name : string) (cs : RawApiResponse) :
  let data := tally name (allStats cs) zeroTotals in
  (0 < Totals.impressions data \/ 0 < Totals.clicks data \/ 0 < Totals.conversions data)
  <-> counted name cs.
Proof.
  intros data. unfold counted, statsOf.
  destruct (DeviceTallies.tally_sums name (allStats cs) zeroTotals) as (H1 & H2 & H3 & _).
  fold data in H1, H2, H3.
  change (Totals.impressions zeroTotals) with 0 in H1.
  change (Totals.clicks zeroTotals) with 0 in H2.
  change (Totals.conversions zeroTotals) with 0 in H3.
  rewrite Qplus_0_l in H1, H2, H3. now rewrite H1, H2, H3.
Qed.

Lemma devices_cases (cs : RawApiResponse) :
  restructureDevicePerformance cs = []
  \/ (exists m, restructureDevicePerformance cs = [m] /\ AggregatedDeviceData.device m = "Mobile")
  \/ (exists d, restructureDevicePerformance cs = [d] /\ AggregatedDeviceData.device d = "Desktop")
  \/ (exists m d, restructureDevicePerformance cs = [m; d]
                  /\ AggregatedDeviceData.device m = "Mobile"
                  /\ AggregatedDeviceData.device d = "Desktop").
Proof.
  rewrite DeviceFacts.restructure_unfold. destruct cs as [|c cs]; [now left|].
  destruct (DeviceFacts.emit_cases
              ("Mobile", tally "Mobile" (allStats (c :: cs)) zeroTotals)) as [->|[m [-> Hm]]];
  destruct (DeviceFacts.emit_cases
              ("Desktop", tally "Desktop" (allStats (c :: cs)) zeroTotals)) as [->|[d [-> Hd]]];
  simpl in *; eauto 10.
Qed.

Lemma total_revenue_nonneg (cs : RawApiResponse) (g : AggregatedDeviceData.t) :
  revenueNonNegative cs -> In g (restructureDevicePerformance cs) ->
  0 <= AggregatedDeviceData.total_revenue g.
Proof.
  intros Hnn Hg. apply DeviceFacts.In_restructure in Hg as [data [Hin Hemit]].
  apply DeviceTallies.In_aggregatedDataMap in Hin as [_ Hdata].
  destruct (DeviceTallies.tally_sums (AggregatedDeviceData.device g)
              (allStats cs) zeroTotals) as (_ & _ & _ & _ & H5).
  rewrite <- Hdata in H5. change (Totals.revenue zeroTotals) with 0 in H5.
  rewrite Qplus_0_l in H5.
  unfold emit in Hemit. destruct (_ || _) in Hemit; [|discriminate].
  injection Hemit as <-. cbn [AggregatedDeviceData.total_revenue].
  apply RoundingFacts.toFixed2_nonneg. rewrite H5.
  apply JSFacts.sum_nonneg, Forall_forall. intros x Hx.
  apply in_map_iff in Hx as [s [<- Hs]]. apply filter_In in Hs as [Hs _]. now apply Hnn.
Qed.

Lemma share_bounds (m d : Q) :
  0 <= m -> 0 <= d ->
  0 <= (if JS.gt (m + d) 0 then m / (m + d) * 100 else 0)
  /\ (if JS.gt (m + d) 0 then m / (m + d) * 100 else 0) <= 100.
Proof.
  intros Hm Hd. destruct (JS.gt (m + d) 0) eqn:E; [|split; lra].
  apply JSFacts.gt_true in E.
  assert (H0 : 0 <= m / (m + d)) by (apply Qle_shift_div_l; lra).
  assert (H1 : m / (m + d) <= 1) by (apply Qle_shift_div_r; lra).
  split; lra.
Qed.

Lemma delta_nonneg (m d : Q) :
  0 <= d -> 0 <= Qabs (m - d) / (if JS.strict_eq d 0 then 1 else d) * 100.
Proof.
  intros Hd. pose proof (Qabs_nonneg (m - d)) as Ha.
  assert (Hb : 0 < (if JS.strict_eq d 0 then 1 else d)).
  { destruct (JS.strict_eq d 0) eqn:E; [reflexivity|].
    destruct (Qlt_le_dec 0 d) as [H|H]; [exact H|].
    assert (Hz : d == 0) by lra. apply JSFacts.strict_eq_true in Hz. congruence. }
  assert (H0 : 0 <= Qabs (m - d) / (if JS.strict_eq d 0 then 1 else d))
    by (apply Qle_shift_div_l; lra).
  lra.
Qed.

End DevicePageFacts.

(** X18: the device aggregation, given at least one campaign, has a group
    for "Mobile" (for "Desktop") exactly when the impressions, the clicks
    or the conversions of the records of that device add up to more than
    0. *)
Theorem device_group_iff_counted (cs : Device.RawApiResponse) (name : string) :
  cs <> [] -> name = "Mobile" \/ name = "Desktop" ->
  In name (DeviceTerms.devices cs) <-> DeviceTerms.counted name cs.
Proof.
  intros Hcs Hname. rewrite <- DevicePageFacts.tally_counts, <- DevicePageFacts.emit_nonempty.
  unfold DeviceTerms.devices. rewrite DeviceFacts.restructure_unfold.
  destruct cs as [|c cs]; [now elim Hcs|]. rewrite in_map_iff. split.
  - intros [g [Hd Hg]]. apply in_app_or in Hg as [Hg|Hg];
      destruct (DeviceFacts.emit_device _ _ Hg) as [_ Hdev]; cbn [fst] in Hdev;
      destruct Hname as [->| ->]; try (exists g; exact Hg); congruence.
  - intros [g Hg]. exists g.
    destruct (DeviceFacts.emit_device _ _ Hg) as [_ Hdev]. cbn [fst] in Hdev.
    split; [exact Hdev|]. apply in_or_app. destruct Hname as [->| ->]; auto.
Qed.

(** X18 on a sample: "Mobile" is counted and present. *)
Lemma device_group_iff_counted_witness :
  In "Mobile" (DeviceTerms.devices Device.sampleBoth)
  /\ ~ In "Mobile" (DeviceTerms.devices Device.sampleOthers).
Proof.
  split.
  - apply (device_group_iff_counted Device.sampleBoth "Mobile");
      [discriminate | now left | left; reflexivity].
  - intros H.
    apply (device_group_iff_counted Device.sampleOthers "Mobile") in H;
      [|discriminate | now left].
    destruct H as [H|[H|H]]; discriminate H.
Defined.

(** X19: the device aggregation only looks at the records, campaign after
    campaign: two responses with at least one campaign each and the same
    records in the same order give the same groups, however the records
    are spread over campaigns. *)
Theorem device_groups_from_records (cs cs' : Device.RawApiResponse) :
  cs <> [] -> cs' <> [] -> Device.allStats cs = Device.allStats cs' ->
  Device.restructureDevicePerformance cs = Device.restructureDevicePerformance cs'.
Proof.
  intros Hcs Hcs' Hsame. rewrite !DeviceFacts.restructure_unfold, Hsame.
  destruct cs; [now elim Hcs|]. destruct cs'; [now elim Hcs'|]. reflexivity.
Qed.

(** X19 on a sample: one campaign with three records, or four campaigns. *)
Lemma device_groups_from_records_witness :
  Device.restructureDevicePerformance Device.sampleBoth
  = Device.restructureDevicePerformance DeviceTerms.sampleBothSplit.
Proof.
  apply device_groups_from_records; [discriminate | discriminate | reflexivity].
Defined.

(** X20: what the device page shows after a successful fetch: the
    comparison when the aggregation gives the Mobile group then the Desktop
    group, and otherwise the warning, with the devices that were found, of
    which there is then at most one; never the fetch error. *)
Theorem device_page_branches (raw : Device.RawApiResponse) :
  match Device.DeviceViewPage (Device.Loaded raw) with
  | Device.DataFetchError e => False
  | Device.MissingKeyDevice available =>
      available = DeviceTerms.devices raw
      /\ (available = [] \/ available = ["Mobile"] \/ available = ["Desktop"])
  | Device.Metrics c =>
      exists m d,
        Device.restructureDevicePerformance raw = [m; d]
        /\ Device.AggregatedDeviceData.device m = "Mobile"
        /\ Device.AggregatedDeviceData.device d = "Desktop"
        /\ c = Device.compareRevenue m d
  end.
Proof.
  unfold Device.DeviceViewPage, Device.findDevice.
  destruct (DevicePageFacts.devices_cases raw)
    as [H|[(m & H & Hm)|[(d & H & Hd)|(m & d & H & Hm & Hd)]]];
    unfold DeviceTerms.devices; rewrite H; simpl; rewrite ?Hm, ?Hd; simpl.
  - auto.
  - auto.
  - auto.
  - exists m, d. auto.
Qed.

(** X21: when no record has a negative revenue, the comparison the page
    shows has a Mobile revenue share between 0 and 100 and a delta
    percentage of 0 or more, and names Mobile the leader exactly when its
    revenue is the greater. *)
Theorem device_comparison_bounds (raw : Device.RawApiResponse) (c : Device.Comparison) :
  DeviceTerms.revenueNonNegative raw ->
  Device.DeviceViewPage (Device.Loaded raw) = Device.Metrics c ->
  0 <= Device.mobileRevenuePercent c
  /\ Device.mobileRevenuePercent c <= 100
  /\ 0 <= Device.deltaPercent c
  /\ (Device.isMobileLeader c = true <-> 0 < Device.revenueComparison c).
Proof.
  intros Hnn Hpage.
  pose proof (Hcases := DevicePageFacts.devices_cases raw).
  unfold Device.DeviceViewPage, Device.findDevice in Hpage.
  destruct Hcases
    as [H|[(m & H & Hm)|[(d & H & Hd)|(m & d & H & Hm & Hd)]]];
    rewrite H in Hpage; simpl in Hpage; rewrite ?Hm, ?Hd in Hpage; simpl in Hpage;
    try discriminate.
  injection Hpage as <-.
  assert (H0 : 0 <= Device.AggregatedDeviceData.total_revenue m).
  { apply (DevicePageFacts.total_revenue_nonneg raw); [exact Hnn | rewrite H; now left]. }
  assert (H1 : 0 <= Device.AggregatedDeviceData.total_revenue d).
  { apply (DevicePageFacts.total_revenue_nonneg raw); [exact Hnn | rewrite H; right; now left]. }
  unfold Device.compareRevenue.
  cbn [Device.mobileRevenuePercent Device.deltaPercent Device.isMobileLeader
       Device.revenueComparison].
  destruct (DevicePageFacts.share_bounds _ _ H0 H1) as [Hlo Hhi].
  split; [exact Hlo|]. split; [exact Hhi|]. split.
  - now apply DevicePageFacts.delta_nonneg.
  - rewrite JSFacts.gt_true. split; intros Hlt; lra.
Qed.

Lemma sampleBoth_revenueNonNegative : DeviceTerms.revenueNonNegative Device.sampleBoth.
Proof. intros s [<-|[<-|[<-|[]]]]; discriminate. Qed.

(** X21 on a sample: Mobile 30.02 against Desktop 50.5, about 37% of the
    revenue, and Desktop leads. *)
Lemma device_comparison_bounds_witness :
  exists c,
    Device.DeviceViewPage (Device.Loaded Device.sampleBoth) = Device.Metrics c
    /\ 0 <= Device.mobileRevenuePercent c <= 100
    /\ Device.isMobileLeader c = false.
Proof.
  remember (Device.DeviceViewPage (Device.Loaded Device.sampleBoth)) as page eqn:E.
  destruct page as [e|available|c]; [discriminate E|discriminate E|].
  exists c. split; [reflexivity|].
  destruct (device_comparison_bounds Device.sampleBoth c sampleBoth_revenueNonNegative
              (eq_sym E)) as (Hlo & Hhi & _ & _).
  split; [now split|].
  vm_compute in E. now injection E as ->.
Defined.

(** * The chart widgets *)

Module WidgetFacts.

Lemma Math_max_from (first : Q) (rest : list Q) : first <= Widgets.Math_max first rest.
Proof.
  unfold Widgets.Math_max. revert first.
  induction rest as [|y rest IH]; intros first; simpl; [apply Qle_refl|].
  apply Qle_trans with (Qmax first y); [apply Q.le_max_l | apply IH].
Qed.

Lemma Math_max_ge (first : Q) (rest : list Q) (x : Q) :
  In x (first :: rest) -> x <= Widgets.Math_max first rest.
Proof.
  revert first. induction rest as [|y rest IH]; intros first Hx.
  - destruct Hx as [->|[]]. apply Qle_refl.
  - destruct Hx as [->|[->|Hx]].
    + apply Math_max_from.
    + apply Qle_trans with (Qmax first x); [apply Q.le_max_r|].
      apply (Math_max_from (Qmax first x) rest).
    + apply (IH (Qmax first y)). now right.
Qed.

Lemma Math_max_in (first : Q) (rest : list Q) :
  exists x, In x (first :: rest) /\ Widgets.Math_max first rest == x.
Proof.
  unfold Widgets.Math_max. revert first.
  induction rest as [|y rest IH]; intros first; simpl.
  - exists first. split; [now left | reflexivity].
  - destruct (IH (Qmax first y)) as (x & [<-|Hx] & Hmax).
    + destruct (Q.max_dec first y) as [H|H].
      * exists first. split; [now left | now rewrite Hmax].
      * exists y. split; [right; now left | now rewrite Hmax].
    + exists x. split; [right; now right | exact Hmax].
Qed.

(** With values that are 0 or more, [maxValue] is positive and no value
    exceeds it. *)
Lemma maxValue_bounds (first : Q) (rest : list Q) :
  (forall x, In x (first :: rest) -> 0 <= x) ->
  0 < Widgets.maxValue first rest
  /\ (forall x, In x (first :: rest) -> x <= Widgets.maxValue first rest).
Proof.
  intros Hnn. unfold Widgets.maxValue.
  assert (Hm : 0 <= Widgets.Math_max first rest).
  { apply Qle_trans with first; [apply Hnn; now left | apply Math_max_ge; now left]. }
  destruct (JS.strict_eq (Widgets.Math_max first rest) 0) eqn:E.
  - apply JSFacts.strict_eq_true in E. split; [reflexivity|].
    intros x Hx. apply Math_max_ge in Hx. lra.
  - split; [|intros x Hx; now apply Math_max_ge].
    destruct (Qlt_le_dec 0 (Widgets.Math_max first rest)) as [H|H]; [exact H|].
    assert (Hz : Widgets.Math_max first rest == 0) by lra.
    apply JSFacts.strict_eq_true in Hz. congruence.
Qed.

(** With a positive value among them, [maxValue] is one of the values. *)
Lemma maxValue_reached (first : Q) (rest : list Q) :
  (exists x, In x (first :: rest) /\ 0 < x) ->
  exists x, In x (first :: rest) /\ Widgets.maxValue first rest == x.
Proof.
  intros (x & Hx & Hpos). unfold Widgets.maxValue.
  destruct (JS.strict_eq (Widgets.Math_max first rest) 0) eqn:E.
  - apply JSFacts.strict_eq_true in E. apply Math_max_ge in Hx. lra.
  - apply Math_max_in.
Qed.

Lemma scaled_bounds (v m scale : Q) :
  0 <= v -> v <= m -> 0 < m -> 0 <= scale ->
  0 <= v / m * scale /\ v / m * scale <= scale.
Proof.
  intros Hv Hle Hm Hs.
  assert (H0 : 0 <= v / m) by (apply Qle_shift_div_l; lra).
  assert (H1 : v / m <= 1) by (apply Qle_shift_div_r; lra).
  split; [now apply Qmult_le_0_compat|].
  setoid_replace scale with (1 * scale) at 2 by ring.
  now apply Qmult_le_compat_r.
Qed.

Lemma scaled_full (v m scale : Q) : 0 < m -> m == v -> v / m * scale == scale.
Proof. intros Hm Hv. rewrite <- Hv. field. lra. Qed.

End WidgetFacts.

(** X22: the line chart draws nothing for no data and one bar per point
    otherwise, every bar as wide as 100 divided by the number of points;
    with values that are 0 or more every bar is between 0 and 90 high, a
    bar of the greatest value being 90 high when that value is
    positive. *)
Theorem line_chart_bars_fit (formatValue : JS.number -> string)
  (data : list Weekly.LineChartDataPoint.t) :
  (forall p, In p data -> 0 <= Weekly.LineChartDataPoint.value p) ->
  let bars := LineChart.bars_of (LineChart.LineChart formatValue data) in
  (LineChart.LineChart formatValue data = LineChart.NoData <-> data = [])
  /\ map LineChart.label bars = map Weekly.LineChartDataPoint.label data
  /\ (forall b, In b bars ->
      LineChart.width b = 100 / inject_Z (Z.of_nat (List.length data)))
  /\ (forall b, In b bars -> 0 <= LineChart.height b /\ LineChart.height b <= 90)
  /\ ((exists p, In p data /\ 0 < Weekly.LineChartDataPoint.value p) ->
      exists b, In b bars /\ LineChart.height b == 90).
Proof.
  intros Hnn bars. subst bars.
  destruct data as [|p0 data'].
  - simpl. split; [tauto|]. split; [reflexivity|]. split; [tauto|].
    split; [tauto|]. intros (p & [] & _).
  - set (data := p0 :: data') in *.
    set (first := Weekly.LineChartDataPoint.value p0).
    set (rest := map Weekly.LineChartDataPoint.value data').
    set (m := Widgets.maxValue first rest).
    assert (Hview : LineChart.LineChart formatValue data
                    = LineChart.Chart (formatValue m) (formatValue 0)
                        (map (LineChart.bar formatValue m (List.length data)) data))
      by reflexivity.
    rewrite Hview. cbn [LineChart.bars_of].
    assert (Hvals : map Weekly.LineChartDataPoint.value data = first :: rest) by reflexivity.
    assert (Hvalues : forall x, In x (first :: rest) -> 0 <= x).
    { intros x Hx. apply (in_map_iff Weekly.LineChartDataPoint.value data x) in Hx
        as [p [<- Hp]]. now apply Hnn. }
    destruct (WidgetFacts.maxValue_bounds first rest Hvalues) as [Hpos Hle]. fold m in Hpos, Hle.
    split; [split; discriminate|]. split; [now rewrite map_map|]. split; [|split].
    + intros b Hb. apply in_map_iff in Hb as [p [<- Hp]]. reflexivity.
    + intros b Hb. apply in_map_iff in Hb as [p [<- Hp]]. cbn [LineChart.bar LineChart.height].
      apply WidgetFacts.scaled_bounds; [now apply Hnn | | exact Hpos | discriminate].
      apply Hle. apply (in_map Weekly.LineChartDataPoint.value data p Hp).
    + intros (p & Hp & Hp0).
      destruct (WidgetFacts.maxValue_reached first rest) as (x & Hx & Hmax).
      { exists (Weekly.LineChartDataPoint.value p). split; [|exact Hp0].
        apply (in_map Weekly.LineChartDataPoint.value data p Hp). }
      fold m in Hmax.
      apply (in_map_iff Weekly.LineChartDataPoint.value data x) in Hx as [q [Hq1 Hq]].
      exists (LineChart.bar formatValue m (List.length data) q). split; [now apply in_map|].
      cbn [LineChart.bar LineChart.height]. apply WidgetFacts.scaled_full; [exact Hpos|].
      now rewrite Hq1.
Qed.

(** X22 on the revenue series of two weeks, 200 and 400: bars 45 and 90
    high. *)
Lemma line_chart_bars_fit_witness :
  map LineChart.height
      (LineChart.bars_of
         (LineChart.LineChart (fun _ => "")
            (Weekly.revenueChartData
               (Weekly.aggregatedData (fun _ => None) (Some Weekly.twoWeeks)))))
  = [200 / 400 * 90; 400 / 400 * 90]
  /\ Forall (fun b => 0 <= LineChart.height b /\ LineChart.height b <= 90)
       (LineChart.bars_of
          (LineChart.LineChart (fun _ => "")
             (Weekly.revenueChartData
                (Weekly.aggregatedData (fun _ => None) (Some Weekly.twoWeeks))))).
Proof.
  split; [reflexivity|].
  apply Forall_forall.
  apply (line_chart_bars_fit (fun _ => "")
           (Weekly.revenueChartData
              (Weekly.aggregatedData (fun _ => None) (Some Weekly.twoWeeks)))).
  intros p [<-|[<-|[]]]; discriminate.
Defined.

(** X23: the bubble map draws nothing for no data and one marker per point
    otherwise, each at the latitude and longitude of its point; with values
    that are 0 or more every radius is between 5 and 25, a point of the
    greatest value having the radius 25 when that value is positive. *)
Theorem bubble_map_radii_fit (formatValue : JS.number -> string)
  (data : list Region.BubbleMapDataPoint.t) :
  (forall p, In p data -> 0 <= Region.BubbleMapDataPoint.value p) ->
  let markers := BubbleMap.markers_of (BubbleMap.BubbleMap formatValue data) in
  (BubbleMap.BubbleMap formatValue data = BubbleMap.NoData <-> data = [])
  /\ map BubbleMap.center markers
     = map (fun p => (Region.BubbleMapDataPoint.latitude p,
                      Region.BubbleMapDataPoint.longitude p)) data
  /\ (forall k, In k markers -> 5 <= BubbleMap.radius k /\ BubbleMap.radius k <= 25)
  /\ ((exists p, In p data /\ 0 < Region.BubbleMapDataPoint.value p) ->
      exists k, In k markers /\ BubbleMap.radius k == 25).
Proof.
  intros Hnn markers. subst markers.
  destruct data as [|p0 data'].
  - simpl. split; [tauto|]. split; [reflexivity|]. split; [tauto|]. intros (p & [] & _).
  - set (data := p0 :: data') in *.
    set (first := Region.BubbleMapDataPoint.value p0).
    set (rest := map Region.BubbleMapDataPoint.value data').
    set (m := Widgets.maxValue first rest).
    assert (Hview : BubbleMap.BubbleMap formatValue data
                    = BubbleMap.Map (map (BubbleMap.marker formatValue m) data))
      by reflexivity.
    rewrite Hview. cbn [BubbleMap.markers_of].
    assert (Hvals : map Region.BubbleMapDataPoint.value data = first :: rest) by reflexivity.
    assert (Hvalues : forall x, In x (first :: rest) -> 0 <= x).
    { intros x Hx. apply (in_map_iff Region.BubbleMapDataPoint.value data x) in Hx
        as [p [<- Hp]]. now apply Hnn. }
    destruct (WidgetFacts.maxValue_bounds first rest Hvalues) as [Hpos Hle]. fold m in Hpos, Hle.
    split; [split; discriminate|]. split; [now rewrite map_map|]. split.
    + intros k Hk. apply in_map_iff in Hk as [p [<- Hp]].
      cbn [BubbleMap.marker BubbleMap.radius]. unfold BubbleMap.getRadius.
      destruct (WidgetFacts.scaled_bounds (Region.BubbleMapDataPoint.value p) m (25 - 5))
        as [Hlo Hhi]; [now apply Hnn | | exact Hpos | discriminate | split; lra].
      apply Hle. apply (in_map Region.BubbleMapDataPoint.value data p Hp).
    + intros (p & Hp & Hp0).
      destruct (WidgetFacts.maxValue_reached first rest) as (x & Hx & Hmax).
      { exists (Region.BubbleMapDataPoint.value p). split; [|exact Hp0].
        apply (in_map Region.BubbleMapDataPoint.value data p Hp). }
      fold m in Hmax.
      apply (in_map_iff Region.BubbleMapDataPoint.value data x) in Hx as [q [Hq1 Hq]].
      exists (BubbleMap.marker formatValue m q). split; [now apply in_map|].
      cbn [BubbleMap.marker BubbleMap.radius]. unfold BubbleMap.getRadius.
      rewrite (WidgetFacts.scaled_full _ m (25 - 5)); [reflexivity | exact Hpos|].
      now rewrite Hq1.
Qed.

(** X23 on the revenue series of two cities, 400 and 500: radii 21 and
    25. *)
Lemma bubble_map_radii_fit_witness :
  Forall (fun k => 5 <= BubbleMap.radius k /\ BubbleMap.radius k <= 25)
    (BubbleMap.markers_of
       (BubbleMap.BubbleMap (fun _ => "")
          (Region.revenueMapData
             (Region.aggregatedData (Some {| Region.campaigns := RegionTerms.twoCities |})))))
  /\ Forall2 Qeq
       (map BubbleMap.radius
          (BubbleMap.markers_of
             (BubbleMap.BubbleMap (fun _ => "")
                (Region.revenueMapData
                   (Region.aggregatedData
                      (Some {| Region.campaigns := RegionTerms.twoCities |}))))))
       [25; 21].
Proof.
  split.
  - apply Forall_forall.
    apply (bubble_map_radii_fit (fun _ => "")
             (Region.revenueMapData
                (Region.aggregatedData (Some {| Region.campaigns := RegionTerms.twoCities |})))).
    intros p [<-|[<-|[]]]; discriminate.
  - repeat constructor.
Defined.

(** * The cost metrics of a region *)

Module CostFacts.

Lemma guarded_quotient_nonneg (num den : Q) :
  0 <= num -> 0 <= (if JS.gt den 0 then num / den else 0).
Proof.
  intros Hnum. destruct (JS.gt den 0) eqn:E; [|lra].
  apply JSFacts.gt_true in E. apply Qle_shift_div_l; lra.
Qed.

Lemma guarded_quotient_zero (num den : Q) :
  den <= 0 -> (if JS.gt den 0 then num / den else 0) == 0.
Proof. intros Hden. apply JSFacts.gt_false in Hden. now rewrite Hden. Qed.

Lemma sum_records_nonneg (figure : Region.RegionalPerformance.t -> Q)
  (cs : list Region.Campaign) (k : string) :
  (forall r, In r (RegionTerms.allRecords cs) -> 0 <= figure r) ->
  0 <= JS.sum (map figure (Grouping.recordsOf Region.keyOf k (RegionTerms.allRecords cs))).
Proof.
  intros Hnn. apply JSFacts.sum_nonneg, Forall_forall. intros x Hx.
  apply in_map_iff in Hx as [r [<- Hr]]. apply filter_In in Hr as [Hr _]. now apply Hnn.
Qed.

End CostFacts.

(** X24: when no regional record has a negative spend or revenue, the
    spend and the revenue of every group of the final regional list are 0
    or more, and so are its cost per click, its cost per acquisition and
    its return on spend, each of which is 0 when its denominator (clicks,
    conversions, spend) is not positive. *)
Theorem region_cost_metrics_nonneg (cs : list Region.Campaign)
  (g : Region.AggregatedRegionalPerformance.t) :
  RegionTerms.moneyNonNegative cs ->
  In g (Region.finalRegionalList cs) ->
  0 <= Region.AggregatedRegionalPerformance.spend g
  /\ 0 <= Region.AggregatedRegionalPerformance.revenue g
  /\ 0 <= Region.AggregatedRegionalPerformance.cpc g
  /\ 0 <= Region.AggregatedRegionalPerformance.cpa g
  /\ 0 <= Region.AggregatedRegionalPerformance.roas g
  /\ (Region.AggregatedRegionalPerformance.clicks g <= 0 ->
      Region.AggregatedRegionalPerformance.cpc g == 0)
  /\ (Region.AggregatedRegionalPerformance.conversions g <= 0 ->
      Region.AggregatedRegionalPerformance.cpa g == 0)
  /\ (Region.AggregatedRegionalPerformance.spend g <= 0 ->
      Region.AggregatedRegionalPerformance.roas g == 0).
Proof.
  intros Hnn Hg.
  apply RegionGroups.final_group_entry in Hg as (t & Hget & -> & _).
  destruct (RegionGroups.entry_sums cs _ t Hget) as (_ & _ & _ & Hspend & Hrevenue).
  assert (Hs : 0 <= Region.AggregatedRegionalPerformance.spend t).
  { rewrite Hspend. apply CostFacts.sum_records_nonneg. intros r Hr. now apply Hnn. }
  assert (Hr : 0 <= Region.AggregatedRegionalPerformance.revenue t).
  { rewrite Hrevenue. apply CostFacts.sum_records_nonneg. intros r Hr. now apply Hnn. }
  unfold Region.withRates.
  cbn [Region.AggregatedRegionalPerformance.clicks Region.AggregatedRegionalPerformance.conversions
       Region.AggregatedRegionalPerformance.spend Region.AggregatedRegionalPerformance.revenue
       Region.AggregatedRegionalPerformance.cpc Region.AggregatedRegionalPerformance.cpa
       Region.AggregatedRegionalPerformance.roas].
  split; [exact Hs|]. split; [exact Hr|].
  split; [now apply CostFacts.guarded_quotient_nonneg|].
  split; [now apply CostFacts.guarded_quotient_nonneg|].
  split; [now apply CostFacts.guarded_quotient_nonneg|].
  split; [|split]; apply CostFacts.guarded_quotient_zero.
Qed.

Lemma twoCities_moneyNonNegative : RegionTerms.moneyNonNegative RegionTerms.twoCities.
Proof. intros r [<-|[<-|[<-|[]]]]; repeat split; discriminate. Qed.

(** X24 on two cities: no group has a negative cost per click or return
    on spend. *)
Lemma region_cost_metrics_nonneg_witness :
  Forall (fun g => 0 <= Region.AggregatedRegionalPerformance.cpc g
                   /\ 0 <= Region.AggregatedRegionalPerformance.roas g)
         (Region.finalRegionalList RegionTerms.twoCities)
  /\ List.length (Region.finalRegionalList RegionTerms.twoCities) = 2%nat.
Proof.
  split; [|reflexivity].
  apply Forall_forall. intros g Hg.
  destruct (region_cost_metrics_nonneg RegionTerms.twoCities g twoCities_moneyNonNegative Hg)
    as (_ & _ & Hcpc & _ & Hroas & _).
  now split.
Defined.

(** * The bar chart *)

Module BarFacts.

Section Runtime.

Variable Number_of_string : string -> option JS.number.

Abbreviation seen item :=
  (fun key => BarChart.Number Number_of_string (BarChart.orZero (JS.get key item))).

(** A number that is held is seen as itself by the scan for the
    maximum. *)
Lemma held_seen (item : BarChart.Row) (key : string) (v : Q) :
  BarTerms.held item key v -> exists v', seen item key = Some v' /\ v' == v.
Proof.
  unfold BarTerms.held. intros ->. cbn [BarChart.orZero].
  destruct (JS.strict_eq v 0) eqn:E.
  - apply JSFacts.strict_eq_true in E. exists 0. split; [reflexivity | now symmetry].
  - exists v. split; reflexivity.
Qed.

Lemma row_max (item : BarChart.Row) (ks : list string) (acc : Q) :
  (forall k, In k ks -> exists v, BarTerms.held item k v /\ 0 <= v) ->
  exists m,
    BarChart.Math_max (Some acc) (map (seen item) ks) = Some m
    /\ acc <= m
    /\ (forall k v, In k ks -> BarTerms.held item k v -> v <= m)
    /\ (m == acc \/ exists k v, In k ks /\ BarTerms.held item k v /\ m == v).
Proof.
  unfold BarChart.Math_max. revert acc.
  induction ks as [|k ks IH]; intros acc Hks.
  - exists acc. cbn [map fold_left]. split; [reflexivity|]. split; [apply Qle_refl|].
    split; [intros k v []| left; reflexivity].
  - destruct (Hks k (or_introl eq_refl)) as (v & Hv & _).
    destruct (held_seen item k v Hv) as (v' & Hseen & Hv').
    destruct (IH (Qmax acc v') (fun k' Hk' => Hks k' (or_intror Hk')))
      as (m & Hm & Hacc & Hall & Hin).
    exists m. cbn [map fold_left]. rewrite Hseen. split; [exact Hm|].
    assert (Hl : acc <= Qmax acc v') by apply Q.le_max_l.
    assert (Hr : v' <= Qmax acc v') by apply Q.le_max_r.
    split; [lra|]. split.
    + intros k' w [<-|Hk'] Hw.
      * unfold BarTerms.held in Hv, Hw. rewrite Hv in Hw. injection Hw as <-. lra.
      * now apply (Hall k' w).
    + destruct Hin as [Hin|(k' & w & Hk' & Hw & Hmw)].
      * destruct (Q.max_dec acc v') as [H|H].
        -- left. lra.
        -- right. exists k, v. split; [now left|]. split; [exact Hv | lra].
      * right. exists k', w. split; [now right|]. now split.
Qed.

Lemma rows_max (ks : list string) (data : list BarChart.Row) (acc : Q) :
  BarTerms.plain ks data ->
  exists m,
    fold_left (fun max item => BarChart.Math_max max (map (seen item) ks)) data (Some acc)
    = Some m
    /\ acc <= m
    /\ (forall item k v, In item data -> In k ks -> BarTerms.held item k v -> v <= m)
    /\ (m == acc
        \/ exists item k v, In item data /\ In k ks /\ BarTerms.held item k v /\ m == v).
Proof.
  revert acc. induction data as [|item data IH]; intros acc Hplain.
  - exists acc. cbn [fold_left]. split; [reflexivity|]. split; [apply Qle_refl|].
    split; [intros item k v []| left; reflexivity].
  - destruct (row_max item ks acc (fun k Hk => Hplain item k (or_introl eq_refl) Hk))
      as (m1 & Hm1 & Hacc1 & Hall1 & Hin1).
    destruct (IH m1 (fun i k Hi Hk => Hplain i k (or_intror Hi) Hk))
      as (m & Hm & Hacc & Hall & Hin).
    exists m. cbn [fold_left]. rewrite Hm1. split; [exact Hm|]. split; [lra|]. split.
    + intros i k v [<-|Hi] Hk Hv.
      * specialize (Hall1 k v Hk Hv). lra.
      * now apply (Hall i k v).
    + destruct Hin as [Hin|(i & k & v & Hi & Hk & Hv & Hmv)].
      * destruct Hin1 as [Hin1|(k & v & Hk & Hv & Hmv)].
        -- left. lra.
        -- right. exists item, k, v. split; [now left|]. split; [exact Hk|].
           split; [exact Hv | lra].
      * right. exists i, k, v. split; [now right|]. now repeat split.
Qed.

(** With plain rows the greatest value is a number: no held number
    exceeds it, and it is 0 or one of them. *)
Lemma maxValue_spec (ks : list string) (data : list BarChart.Row) :
  BarTerms.plain ks data ->
  exists m,
    BarChart.maxValue Number_of_string ks data = Some m
    /\ 0 <= m
    /\ (forall item k v, In item data -> In k ks -> BarTerms.held item k v -> v <= m)
    /\ (m == 0 \/ exists item k v, In item data /\ In k ks /\ BarTerms.held item k v /\ m == v).
Proof. intros Hplain. exact (rows_max ks data 0 Hplain). Qed.

End Runtime.

(** The width of the bar of a held number. *)
Lemma bar_held Number_of_string formatValue (m : option JS.number) (item : BarChart.Row)
  (k : string) (v : Q) :
  BarTerms.held item k v ->
  BarChart.barWidth (BarChart.bar Number_of_string formatValue m item k)
  = BarChart.barWidth_of m (Some v).
Proof. unfold BarTerms.held, BarChart.bar. intros ->. reflexivity. Qed.

Lemma In_lines Number_of_string formatValue keys (data : list BarChart.Row)
  (l : BarChart.Line) :
  In l (BarChart.lines_of (BarChart.BarChart Number_of_string formatValue keys data)) ->
  exists item,
    In item data
    /\ l = BarChart.line Number_of_string formatValue (BarTerms.keysOf keys data)
             (BarChart.maxValue Number_of_string (BarTerms.keysOf keys data) data) item.
Proof.
  destruct data as [|first data']; [intros []|].
  set (data := first :: data'). intros Hl.
  change (In l (map (BarChart.line Number_of_string formatValue (BarTerms.keysOf keys data)
                       (BarChart.maxValue Number_of_string (BarTerms.keysOf keys data) data))
                    data)) in Hl.
  apply in_map_iff in Hl as (item & <- & Hitem). now exists item.
Qed.

Lemma lines_In Number_of_string formatValue keys (data : list BarChart.Row)
  (item : BarChart.Row) :
  In item data ->
  In (BarChart.line Number_of_string formatValue (BarTerms.keysOf keys data)
        (BarChart.maxValue Number_of_string (BarTerms.keysOf keys data) data) item)
     (BarChart.lines_of (BarChart.BarChart Number_of_string formatValue keys data)).
Proof.
  destruct data as [|first data']; [intros []|].
  set (data := first :: data'). intros Hitem.
  change (In (BarChart.line Number_of_string formatValue (BarTerms.keysOf keys data)
                (BarChart.maxValue Number_of_string (BarTerms.keysOf keys data) data) item)
             (map (BarChart.line Number_of_string formatValue (BarTerms.keysOf keys data)
                     (BarChart.maxValue Number_of_string (BarTerms.keysOf keys data) data))
                  data)).
  now apply in_map.
Qed.

Lemma lines_metric Number_of_string formatValue keys (data : list BarChart.Row) :
  map BarChart.metric
      (BarChart.lines_of (BarChart.BarChart Number_of_string formatValue keys data))
  = map (JS.get "metric") data.
Proof.
  destruct data as [|first data']; [reflexivity|].
  cbn [BarChart.BarChart BarChart.lines_of]. rewrite map_map. reflexivity.
Qed.

Lemma bars_keys Number_of_string formatValue keys (data : list BarChart.Row)
  (l : BarChart.Line) :
  In l (BarChart.lines_of (BarChart.BarChart Number_of_string formatValue keys data)) ->
  map BarChart.key (BarChart.bars l) = BarTerms.keysOf keys data.
Proof.
  intros Hl. apply In_lines in Hl as (item & _ & ->).
  cbn [BarChart.line BarChart.bars]. rewrite map_map. cbn [BarChart.bar BarChart.key].
  apply map_id.
Qed.

(** Every bar of a chart of plain rows shows a held number, scaled to the
    greatest value [m]. *)
Lemma bar_of_line Number_of_string formatValue keys (data : list BarChart.Row) (m : Q)
  (l : BarChart.Line) (b : BarChart.Bar) :
  BarTerms.plain (BarTerms.keysOf keys data) data ->
  BarChart.maxValue Number_of_string (BarTerms.keysOf keys data) data = Some m ->
  In l (BarChart.lines_of (BarChart.BarChart Number_of_string formatValue keys data)) ->
  In b (BarChart.bars l) ->
  exists item k v,
    In item data /\ In k (BarTerms.keysOf keys data) /\ BarTerms.held item k v /\ 0 <= v
    /\ BarChart.barWidth b = BarChart.barWidth_of (Some m) (Some v).
Proof.
  intros Hplain Hm Hl Hb. apply In_lines in Hl as (item & Hitem & ->).
  cbn [BarChart.line BarChart.bars] in Hb. apply in_map_iff in Hb as (k & <- & Hk).
  destruct (Hplain item k Hitem Hk) as (v & Hv & Hv0).
  exists item, k, v. repeat (split; [assumption|]).
  rewrite Hm. now apply bar_held.
Qed.

Lemma widths_within Number_of_string formatValue keys (data : list BarChart.Row)
  (l : BarChart.Line) (b : BarChart.Bar) :
  BarTerms.plain (BarTerms.keysOf keys data) data ->
  In l (BarChart.lines_of (BarChart.BarChart Number_of_string formatValue keys data)) ->
  In b (BarChart.bars l) ->
  exists w, BarChart.barWidth b = Some w /\ 0 <= w /\ w <= 100.
Proof.
  intros Hplain Hl Hb.
  destruct (maxValue_spec Number_of_string _ data Hplain) as (m & Hm & Hm0 & Hall & _).
  destruct (bar_of_line _ _ _ _ _ _ _ Hplain Hm Hl Hb)
    as (item & k & v & Hitem & Hk & Hv & Hv0 & ->).
  cbn [BarChart.barWidth_of]. destruct (JS.gt m 0) eqn:E.
  - apply JSFacts.gt_true in E. eexists. split; [reflexivity|].
    apply WidgetFacts.scaled_bounds; [exact Hv0 | now apply (Hall item k v) | exact E | lra].
  - exists 0. split; [reflexivity | lra].
Qed.

End BarFacts.

(** X25: the bar chart draws nothing for no data, and otherwise one row
    per row of the data with one bar per chart key.  When every chart key
    holds in every row a number that is 0 or more, every bar has a width
    between 0 and 100 percent; a bar of the greatest number is 100 wide
    when that number is positive, and every bar is 0 wide when all the
    numbers are 0. *)
Theorem bar_chart_widths_fit (Number_of_string : string -> option JS.number)
  (formatValue : option (option JS.number) -> option BarChart.Cell -> string)
  (keys : option (list string)) (data : list BarChart.Row) :
  BarTerms.plain (BarTerms.keysOf keys data) data ->
  let ks := BarTerms.keysOf keys data in
  let lines := BarChart.lines_of (BarChart.BarChart Number_of_string formatValue keys data) in
  (BarChart.BarChart Number_of_string formatValue keys data = BarChart.NoData <-> data = [])
  /\ map BarChart.metric lines = map (JS.get "metric") data
  /\ (forall l, In l lines -> map BarChart.key (BarChart.bars l) = ks)
  /\ (forall l b, In l lines -> In b (BarChart.bars l) ->
      exists w, BarChart.barWidth b = Some w /\ 0 <= w /\ w <= 100)
  /\ ((exists item k v, In item data /\ In k ks /\ BarTerms.held item k v /\ 0 < v) ->
      exists l b w, In l lines /\ In b (BarChart.bars l)
                    /\ BarChart.barWidth b = Some w /\ w == 100)
  /\ ((forall item k v, In item data -> In k ks -> BarTerms.held item k v -> v == 0) ->
      forall l b, In l lines -> In b (BarChart.bars l) -> BarChart.barWidth b = Some 0).
Proof.
  intros Hplain ks lines.
  destruct (BarFacts.maxValue_spec Number_of_string ks data Hplain)
    as (m & Hm & Hm0 & Hall & Hin).
  split; [destruct data; split; intros H; (reflexivity || discriminate H)|].
  split; [apply BarFacts.lines_metric|].
  split; [intros l Hl; now apply (BarFacts.bars_keys Number_of_string formatValue)|].
  split; [intros l b Hl Hb;
          now apply (BarFacts.widths_within Number_of_string formatValue keys data l b)|].
  split.
  { intros (item & k & v & Hitem & Hk & Hv & Hpos).
    assert (Hmpos : 0 < m) by (specialize (Hall item k v Hitem Hk Hv); lra).
    destruct Hin as [Hin|(item' & k' & v' & Hitem' & Hk' & Hv' & Hmv)]; [lra|].
    exists (BarChart.line Number_of_string formatValue ks
              (BarChart.maxValue Number_of_string ks data) item'),
           (BarChart.bar Number_of_string formatValue
              (BarChart.maxValue Number_of_string ks data) item' k'),
           (v' / m * 100).
    split; [now apply BarFacts.lines_In|].
    split; [cbn [BarChart.line BarChart.bars]; now apply in_map|].
    split; [|now apply WidgetFacts.scaled_full].
    rewrite Hm, (BarFacts.bar_held _ _ _ _ _ _ Hv'). cbn [BarChart.barWidth_of].
    apply JSFacts.gt_true in Hmpos. now rewrite Hmpos. }
  intros Hzero l b Hl Hb.
  destruct (BarFacts.bar_of_line Number_of_string formatValue keys data m l b Hplain Hm Hl Hb)
    as (item & k & v & Hitem & Hk & Hv & Hv0 & ->).
  assert (Hmz : m <= 0).
  { destruct Hin as [Hin|(item' & k' & v' & Hitem' & Hk' & Hv' & Hmv)]; [lra|].
    specialize (Hzero item' k' v' Hitem' Hk' Hv'). lra. }
  apply JSFacts.gt_false in Hmz. cbn [BarChart.barWidth_of]. now rewrite Hmz.
Qed.

Lemma sample_plain : BarTerms.plain (BarTerms.keysOf None BarTerms.sample) BarTerms.sample.
Proof.
  intros item key [<-|[<-|[]]] [<-|[<-|[]]]; eexists; (split; [reflexivity | discriminate]).
Qed.

(** X25 on two rows, 30 and 60, then 0 and 15: the widths are 50, 100, 0
    and 25. *)
Lemma bar_chart_widths_fit_witness :
  Forall (fun l => Forall (fun b => exists w, BarChart.barWidth b = Some w /\ 0 <= w /\ w <= 100)
                     (BarChart.bars l))
    (BarChart.lines_of (BarChart.BarChart (fun _ => None) (fun _ _ => "") None BarTerms.sample))
  /\ map (fun l => map BarChart.barWidth (BarChart.bars l))
       (BarChart.lines_of
          (BarChart.BarChart (fun _ => None) (fun _ _ => "") None BarTerms.sample))
     = [ [Some (30 / 60 * 100); Some (60 / 60 * 100)];
         [Some (0 / 60 * 100); Some (15 / 60 * 100)] ].
Proof.
  destruct (bar_chart_widths_fit (fun _ => None) (fun _ _ => "") None BarTerms.sample
              sample_plain) as (_ & _ & _ & Hfit & _).
  split; [|reflexivity].
  apply Forall_forall. intros l Hl. apply Forall_forall. intros b Hb.
  exact (Hfit l b Hl Hb).
Defined.

(** * The chart of the device page *)

Module PageChartFacts.
Import Device DeviceTerms.

Lemma totals_nonneg (cs : RawApiResponse) (g : AggregatedDeviceData.t) :
  figuresNonNegative cs -> In g (restructureDevicePerformance cs) ->
  0 <= AggregatedDeviceData.total_conversions g
  /\ 0 <= AggregatedDeviceData.total_spend g
  /\ 0 <= AggregatedDeviceData.total_revenue g.
Proof.
  intros Hnn Hg. apply DeviceFacts.In_restructure in Hg as [data [Hin Hemit]].
  apply DeviceTallies.In_aggregatedDataMap in Hin as [_ Hdata].
  destruct (DeviceTallies.tally_sums (AggregatedDeviceData.device g)
              (allStats cs) zeroTotals) as (_ & _ & H3 & H4 & H5).
  rewrite <- Hdata in H3, H4, H5.
  change (Totals.conversions zeroTotals) with 0 in H3.
  change (Totals.spend zeroTotals) with 0 in H4.
  change (Totals.revenue zeroTotals) with 0 in H5.
  rewrite Qplus_0_l in H3, H4, H5.
  assert (Hsum : forall f : DevicePerformance.t -> Q,
            (forall s, In s (allStats cs) -> 0 <= f s) ->
            0 <= JS.sum (map f (filter (fun s => String.eqb (deviceKey s)
                                                   (AggregatedDeviceData.device g))
                                       (allStats cs)))).
  { intros f Hf. apply JSFacts.sum_nonneg, Forall_forall. intros x Hx.
    apply in_map_iff in Hx as [s [<- Hs]]. apply filter_In in Hs as [Hs _]. now apply Hf. }
  unfold emit in Hemit. destruct (_ || _) in Hemit; [|discriminate].
  injection Hemit as <-.
  cbn [AggregatedDeviceData.total_conversions AggregatedDeviceData.total_spend
       AggregatedDeviceData.total_revenue].
  split; [|split].
  - rewrite H3. apply Hsum. intros s Hs. now apply Hnn.
  - apply RoundingFacts.toFixed2_nonneg. rewrite H4. apply Hsum. intros s Hs. now apply Hnn.
  - apply RoundingFacts.toFixed2_nonneg. rewrite H5. apply Hsum. intros s Hs. now apply Hnn.
Qed.

Lemma chartData_plain (m d : AggregatedDeviceData.t) :
  0 <= AggregatedDeviceData.total_conversions m
  /\ 0 <= AggregatedDeviceData.total_spend m
  /\ 0 <= AggregatedDeviceData.total_revenue m ->
  0 <= AggregatedDeviceData.total_conversions d
  /\ 0 <= AggregatedDeviceData.total_spend d
  /\ 0 <= AggregatedDeviceData.total_revenue d ->
  BarTerms.plain (BarTerms.keysOf None (BarChart.chartData m d)) (BarChart.chartData m d).
Proof.
  intros (Hm1 & Hm2 & Hm3) (Hd1 & Hd2 & Hd3).
  intros item key [<-|[<-|[<-|[]]]] [<-|[<-|[]]];
    eexists; (split; [reflexivity | assumption]).
Qed.

End PageChartFacts.

(** X26: when no record has a negative number of conversions, spend or
    revenue, the chart the device page draws has the three rows "Revenue",
    "Conversions" and "Total Spend", each with a "Mobile" and a "Desktop"
    bar between 0 and 100 percent wide; the page draws it exactly when it
    shows the comparison. *)
Theorem device_page_chart_fits (Number_of_string : string -> option JS.number)
  (customChartFormatter : option (option JS.number) -> option BarChart.Cell -> string)
  (raw : Device.RawApiResponse) :
  DeviceTerms.figuresNonNegative raw ->
  ((exists view, BarChart.pageChart Number_of_string customChartFormatter (Device.Loaded raw)
                 = Some view)
   <-> (exists c, Device.DeviceViewPage (Device.Loaded raw) = Device.Metrics c))
  /\ forall view,
       BarChart.pageChart Number_of_string customChartFormatter (Device.Loaded raw) = Some view ->
       map BarChart.metric (BarChart.lines_of view)
       = [ Some (BarChart.Text "Revenue"); Some (BarChart.Text "Conversions");
           Some (BarChart.Text "Total Spend") ]
       /\ (forall l, In l (BarChart.lines_of view) ->
           map BarChart.key (BarChart.bars l) = ["Mobile"; "Desktop"])
       /\ (forall l b, In l (BarChart.lines_of view) -> In b (BarChart.bars l) ->
           exists w, BarChart.barWidth b = Some w /\ 0 <= w /\ w <= 100).
Proof.
  intros Hnn. unfold BarChart.pageChart, Device.DeviceViewPage.
  destruct (Device.findDevice "Mobile" (Device.restructureDevicePerformance raw))
    as [m|] eqn:Em;
  destruct (Device.findDevice "Desktop" (Device.restructureDevicePerformance raw))
    as [d|] eqn:Ed;
  (split; [split; intros [x Hx]; try discriminate Hx; eexists; reflexivity|]);
  intros view Hview; try discriminate Hview.
  injection Hview as <-.
  apply find_some in Em as [Hm _]. apply find_some in Ed as [Hd _].
  pose proof (PageChartFacts.chartData_plain m d
                (PageChartFacts.totals_nonneg raw m Hnn Hm)
                (PageChartFacts.totals_nonneg raw d Hnn Hd)) as Hplain.
  split; [reflexivity|]. split.
  - intros l Hl.
    now rewrite (BarFacts.bars_keys Number_of_string customChartFormatter None
                   (BarChart.chartData m d) l Hl).
  - intros l b Hl Hb.
    now apply (BarFacts.widths_within Number_of_string customChartFormatter None
                 (BarChart.chartData m d) l b).
Qed.

Lemma sampleBoth_figuresNonNegative : DeviceTerms.figuresNonNegative Device.sampleBoth.
Proof. intros s [<-|[<-|[<-|[]]]]; repeat split; discriminate. Qed.

(** X26 on a sample: the page draws its chart, three rows of two bars. *)
Lemma device_page_chart_fits_witness :
  exists view,
    BarChart.pageChart (fun _ => None) (fun _ _ => "") (Device.Loaded Device.sampleBoth)
    = Some view
    /\ map (fun l => map BarChart.key (BarChart.bars l)) (BarChart.lines_of view)
       = [ ["Mobile"; "Desktop"]; ["Mobile"; "Desktop"]; ["Mobile"; "Desktop"] ]
    /\ Forall (fun l => Forall (fun b => exists w, BarChart.barWidth b = Some w
                                                   /\ 0 <= w /\ w <= 100)
                          (BarChart.bars l))
         (BarChart.lines_of view).
Proof.
  destruct (device_page_chart_fits (fun _ => None) (fun _ _ => "") Device.sampleBoth
              sampleBoth_figuresNonNegative) as [_ Hfit].
  remember (BarChart.pageChart (fun _ => None) (fun _ _ => "")
              (Device.Loaded Device.sampleBoth)) as chart eqn:E.
  destruct chart as [view|]; [|discriminate E].
  exists view. split; [reflexivity|].
  destruct (Hfit view eq_refl) as (_ & _ & Hwidths).
  split.
  - vm_compute in E. injection E as ->. reflexivity.
  - apply Forall_forall. intros l Hl. apply Forall_forall. intros b Hb.
    exact (Hwidths l b Hl Hb).
Defined.
